(** * convertDatToVtk: a shallow embedding of the converter and its properties

    The development follows the layout of [convertDatToVtk.py]:
    Python's string primitives, the regular expressions of the pattern
    catalogue, [LineReader], [Zone], [Timestep], [VTKPolyData] and the
    converter script's loop.  Python's floating point numbers, the
    conversions [float] and [str] on them and the iteration order of a
    [set] are parameters of the development. *)

From Stdlib Require Import String Ascii List ZArith Lia Bool Arith Permutation.
From Stdlib Require Import DecimalString.
From Stdlib Require DecimalPos.
Import ListNotations.
Open Scope string_scope.
Open Scope list_scope.

Set Implicit Arguments.

(** ** Results of fallible code *)

(** The exceptions the program can raise. *)
Inductive exn : Type :=
| AttributeError   (* [match.group] on a failed match *)
| IndexError       (* list index out of range *)
| KeyError         (* missing dictionary key *)
| ValueError       (* [float], [int] or [list.index] on a bad argument *)
| OSError.         (* [os.mkdir] or [open] refused by the operating system *)

(** A computation returns, raises, or is still running when the fuel of
    its loops is spent. *)
Inductive result (A : Type) : Type :=
| Ok (a : A)
| Raise (e : exn)
| OutOfFuel.

Arguments Raise {A} e.
Arguments OutOfFuel {A}.

Definition bind {A B : Type} (c : result A) (k : A -> result B) : result B :=
  match c with
  | Ok a => k a
  | Raise e => Raise e
  | OutOfFuel => OutOfFuel
  end.

Notation "x <- c ;; k" := (bind c (fun x => k))
  (at level 61, c at next level, right associativity).
Notation "' p <- c ;; k" := (bind c (fun x => let p := x in k))
  (at level 61, p pattern, c at next level, right associativity).

Definition of_option {A : Type} (e : exn) (o : option A) : result A :=
  match o with
  | Some a => Ok a
  | None => Raise e
  end.

(** ** Python strings *)

Module PyStr.

Definition newline : ascii := "010"%char.
Definition dquote : ascii := "034"%char.
Definition space : ascii := " "%char.

(** [str.isspace] on the ASCII range: tab, line feed, vertical tab, form
    feed, carriage return, the four separators 28 to 31 and the space. *)
Definition isspace (c : ascii) : bool :=
  let n := nat_of_ascii c in
  (((9 <=? n) && (n <=? 13)) || ((28 <=? n) && (n <=? 32)))%nat.

Fixpoint lstrip (s : string) : string :=
  match s with
  | EmptyString => EmptyString
  | String c s' => if isspace c then lstrip s' else s
  end.

Fixpoint rstrip (s : string) : string :=
  match s with
  | EmptyString => EmptyString
  | String c s' =>
      match rstrip s' with
      | EmptyString => if isspace c then EmptyString else String c EmptyString
      | r => String c r
      end
  end.

(** [s.strip()] *)
Definition strip (s : string) : string := rstrip (lstrip s).

(** [not s] *)
Definition is_empty (s : string) : bool :=
  match s with
  | EmptyString => true
  | _ => false
  end.

(** [s.replace(c, '')] for a one-character [c] *)
Fixpoint remove_char (c : ascii) (s : string) : string :=
  match s with
  | EmptyString => EmptyString
  | String c' s' =>
      if Ascii.eqb c c' then remove_char c s' else String c' (remove_char c s')
  end.

(** [s.split(sep)] for a one-character separator: never an empty list. *)
Fixpoint split (sep : ascii) (s : string) : list string :=
  match s with
  | EmptyString => [EmptyString]
  | String c s' =>
      if Ascii.eqb c sep then EmptyString :: split sep s'
      else match split sep s' with
           | [] => [String c EmptyString]
           | w :: ws => String c w :: ws
           end
  end.

(** [re.split(r' +', s)]: the pieces between maximal runs of spaces;
    [in_run] says that the previous character was a space of the run
    being skipped. *)
Fixpoint split_spaces_from (in_run : bool) (s : string) : list string :=
  match s with
  | EmptyString => [EmptyString]
  | String c s' =>
      if Ascii.eqb c space then
        if in_run then split_spaces_from true s'
        else EmptyString :: split_spaces_from true s'
      else match split_spaces_from false s' with
           | [] => [String c EmptyString]
           | w :: ws => String c w :: ws
           end
  end.

Definition split_spaces (s : string) : list string :=
  split_spaces_from false s.

(** [str(n)] for an integer *)
Definition str_int (n : Z) : string := NilZero.string_of_int (Z.to_int n).

(** The value of a string of ASCII decimal digits, most significant
    first, on top of the accumulator [acc]; [None] when a character is
    not a digit. *)
Fixpoint digits_value (acc : Z) (s : string) : option Z :=
  match s with
  | EmptyString => Some acc
  | String c s' =>
      let n := nat_of_ascii c in
      if ((48 <=? n) && (n <=? 57))%nat
      then digits_value (10 * acc + Z.of_nat (n - 48)) s'
      else None
  end.

(** [int(s)] on the text of a digit group: a non-empty string of
    decimal digits; anything else is a [ValueError]. *)
Definition int (s : string) : result Z :=
  match s with
  | EmptyString => Raise ValueError
  | _ => of_option ValueError (digits_value 0 s)
  end.

Fixpoint zeros (n : nat) : string :=
  match n with
  | O => EmptyString
  | S n' => String "0" (zeros n')
  end.

(** [s.zfill(width)]: zeros go after a leading sign. *)
Definition zfill (width : nat) (s : string) : string :=
  let pad := zeros (width - String.length s) in
  match s with
  | String c s' =>
      if Ascii.eqb c "+" || Ascii.eqb c "-"
      then String c (pad ++ s')%string
      else (pad ++ s)%string
  | EmptyString => pad
  end.

End PyStr.


(** ** Regular expressions

    The fragment of Python's [re] syntax that the pattern catalogue uses,
    with the backtracking, leftmost and greedy semantics of [re.search]. *)

Module Re.

Inductive regex : Type :=
| Bol                                  (* the anchor at the start *)
| Eol                                  (* the anchor at the end *)
| Any                                  (* the dot *)
| Chr (c : ascii)                      (* a literal character *)
| Cls (negated : bool) (cs : string)   (* a bracketed character set *)
| Digit                                (* backslash d *)
| Seq (r1 r2 : regex)
| Star (r : regex)
| Opt (r : regex)
| Grp (n : nat) (r : regex)            (* the n-th capturing group *)
| Eps.

(** One or more, a literal text and a concatenation, by their
    expansions. *)
Definition Plus (r : regex) : regex := Seq r (Star r).
Fixpoint Lit (s : string) : regex :=
  match s with
  | EmptyString => Eps
  | String c s' => Seq (Chr c) (Lit s')
  end.
Fixpoint Cat (rs : list regex) : regex :=
  match rs with
  | [] => Eps
  | r :: rs' => Seq r (Cat rs')
  end.

(** The groups of a match: number and matched text, group 0 being the
    whole match. *)
Definition groups : Type := list (nat * string).

Fixpoint group (n : nat) (gs : groups) : option string :=
  match gs with
  | [] => None
  | (m, s) :: gs' => if Nat.eqb n m then Some s else group n gs'
  end.

Definition lower (c : ascii) : ascii :=
  let n := nat_of_ascii c in
  if ((65 <=? n) && (n <=? 90))%nat then ascii_of_nat (n + 32) else c.

(** Character equality, up to case under [re.IGNORECASE]. *)
Definition chr_eqb (ignorecase : bool) (c c' : ascii) : bool :=
  if ignorecase then Ascii.eqb (lower c) (lower c') else Ascii.eqb c c'.

Fixpoint mem (ignorecase : bool) (c : ascii) (cs : string) : bool :=
  match cs with
  | EmptyString => false
  | String c' cs' => chr_eqb ignorecase c' c || mem ignorecase c cs'
  end.

Definition is_digit (c : ascii) : bool :=
  let n := nat_of_ascii c in ((48 <=? n) && (n <=? 57))%nat.

Fixpoint take (n : nat) (s : string) : string :=
  match n, s with
  | S n', String c s' => String c (take n' s')
  | _, _ => EmptyString
  end.

(** [run ic r pos s gs k] matches [r] at the front of [s], which starts
    at offset [pos] of the subject, and hands the rest to the
    continuation [k]; alternatives are tried in Python's order, the
    longest repetition first. *)
Fixpoint run (ic : bool) (r : regex) (pos : nat) (s : string) (gs : groups)
    (k : nat -> string -> groups -> option groups) {struct r} : option groups :=
  match r with
  | Eps => k pos s gs
  | Bol => if Nat.eqb pos 0 then k pos s gs else None
  | Eol =>
      match s with
      | EmptyString => k pos s gs
      | String c EmptyString =>
          if Ascii.eqb c PyStr.newline then k pos s gs else None
      | _ => None
      end
  | Any =>
      match s with
      | String c s' =>
          if Ascii.eqb c PyStr.newline then None else k (S pos) s' gs
      | EmptyString => None
      end
  | Chr c =>
      match s with
      | String c' s' => if chr_eqb ic c c' then k (S pos) s' gs else None
      | EmptyString => None
      end
  | Cls negated cs =>
      match s with
      | String c' s' =>
          if xorb negated (mem ic c' cs) then k (S pos) s' gs else None
      | EmptyString => None
      end
  | Digit =>
      match s with
      | String c' s' => if is_digit c' then k (S pos) s' gs else None
      | EmptyString => None
      end
  | Seq r1 r2 =>
      run ic r1 pos s gs (fun pos' s' gs' => run ic r2 pos' s' gs' k)
  | Star r' =>
      (fix loop (n : nat) (pos : nat) (s : string) (gs : groups)
         : option groups :=
         match n with
         | O => k pos s gs
         | S n' =>
             match run ic r' pos s gs
                     (fun pos' s' gs' =>
                        if (pos <? pos')%nat then loop n' pos' s' gs' else None)
             with
             | Some res => Some res
             | None => k pos s gs
             end
         end) (String.length s) pos s gs
  | Opt r' =>
      match run ic r' pos s gs k with
      | Some res => Some res
      | None => k pos s gs
      end
  | Grp n r' =>
      run ic r' pos s gs
        (fun pos' s' gs' => k pos' s' ((n, take (pos' - pos) s) :: gs'))
  end.

(** A match of [r] starting exactly at offset [pos]. *)
Definition match_at (ic : bool) (r : regex) (pos : nat) (s : string)
  : option groups :=
  run ic (Grp 0 r) pos s [] (fun _ _ gs => Some gs).

Fixpoint search_from (ic : bool) (r : regex) (pos : nat) (s : string)
  : option groups :=
  match match_at ic r pos s with
  | Some gs => Some gs
  | None =>
      match s with
      | EmptyString => None
      | String _ s' => search_from ic r (S pos) s'
      end
  end.

(** [re.search(r, s)] and [re.search(r, s, re.IGNORECASE)] *)
Definition search (r : regex) (s : string) : option groups :=
  search_from false r 0 s.
Definition search_ignorecase (r : regex) (s : string) : option groups :=
  search_from true r 0 s.

(** [True if match else False] *)
Definition matched (m : option groups) : bool :=
  match m with
  | Some _ => true
  | None => false
  end.

(** [match.group(n)]: on a failed match the attribute access fails. *)
Definition group_of (m : option groups) (n : nat) : result string :=
  match m with
  | None => Raise AttributeError
  | Some gs => of_option IndexError (group n gs)
  end.

End Re.

(** ** The pattern catalogue *)

Section Patterns.
Import Re.

Let sp : regex := Star (Chr " ").
Let q : regex := Chr PyStr.dquote.
Let notq : regex := Cls true (String PyStr.dquote EmptyString).
Let num : regex := Plus (Cls false "0123456789.E-").
Let digits : regex := Plus Digit.

(** A line made of digits, dots, [E] and minus signs only. *)
Definition CRACK_INITIAL_NUMBER_REGEXP : regex :=
  Cat [Bol; num; Eol].

(** Hashes, optional spaces, hashes. *)
Definition END_OF_FILE_REGEXP : regex :=
  Cat [Bol; Plus (Chr "#"); sp; Plus (Chr "#"); Eol].

(** The trailer of a timestep; group 1 is the iteration count. *)
Definition TIMESTEP_LAST_LINE_REGEXP : regex :=
  Cat [Bol; Lit "Load factor"; sp; Chr "="; sp; num; sp;
       Lit "Total deformation"; sp; Chr "="; sp; num; Lit " Iter"; sp;
       Chr "="; sp; Grp 1 digits; Eol].

(** The title line; group 1 is the text between the quotes. *)
Definition TITLE_REGEXP : regex :=
  Cat [Bol; Lit "TITLE"; sp; Chr "="; sp; q; Grp 1 (Star Any); q; Eol].

(** The variables line: one or more quoted names, each with an optional
    comma after it. *)
Definition VARIABLES_REGEXP : regex :=
  Cat [Bol; Lit "VARIABLES"; sp; Chr "=";
       Plus (Cat [sp; q; Star notq; q; Opt (Chr ",")]); Eol].

(** Any line that starts with the word ZONE. *)
Definition ZONE_REGEXP : regex :=
  Cat [Bol; Lit "ZONE"; Star Any; Eol].

(** The full zone header; the groups are the title without its quotes,
    the solution time, I and J. *)
Definition ZONE_FULL_HEADER_REGEXP : regex :=
  Cat [Bol; Lit "ZONE"; sp; Chr "T"; sp; Chr "="; sp;
       q; Grp 1 (Star notq); q; sp;
       Lit "SOLUTIONTIME"; sp; Chr "="; sp; Grp 2 digits; sp;
       Chr "I"; sp; Chr "="; sp; Grp 3 digits; sp; Chr ","; sp;
       Chr "J"; sp; Chr "="; sp; Grp 4 digits; sp; Chr ","; Star Any; Eol].

(** The partial zone header; group 1 is the title with its quotes,
    group 2 the solution time. *)
Definition ZONE_PARTIAL_HEADER_REGEXP : regex :=
  Cat [Bol; Lit "ZONE"; sp; Chr "T"; sp; Chr "="; sp;
       Grp 1 (Cat [q; Star notq; q]); sp;
       Lit "SOLUTIONTIME"; sp; Chr "="; sp; Grp 2 digits; Eol].

End Patterns.

(** ** Python dictionaries

    A [dict] keeps its keys in insertion order; assigning to a key that
    is present replaces the value in place. *)

Section Dict.
Variables (K V : Type) (eqb : K -> K -> bool).

Definition dict : Type := list (K * V).

Fixpoint dict_get (k : K) (d : dict) : option V :=
  match d with
  | [] => None
  | (k', v) :: d' => if eqb k' k then Some v else dict_get k d'
  end.

Fixpoint dict_set (k : K) (v : V) (d : dict) : dict :=
  match d with
  | [] => [(k, v)]
  | (k', v') :: d' =>
      if eqb k' k then (k', v) :: d' else (k', v') :: dict_set k v d'
  end.

Definition dict_keys (d : dict) : list K := map fst d.

End Dict.

(** ** The parameters: floating point numbers and the order of a set *)

(** The type of Python's [float] objects.  It is kept apart from the
    operations on it, so that the types of the data depend on the type
    alone. *)
Class Carrier : Type := { F : Type }.

(** The place of a call of [float]: the line of the file that is being
    read, named by the number of lines that follow it, the column [j] and
    the variable [k].  Every call creates a new object, and the place
    names the object. *)
Definition Site : Type := (nat * nat * nat)%type.

(** The operations.  Equality on [F] is the test that sets, dictionaries
    and [list.index] make on their members, [x is y or x == y]: it is
    decidable, and it is [==] for every value but NaN, which [==] holds
    of nothing and [is] only of the object itself.  [float s] is the
    value of the text ([None] when [float(s)] raises [ValueError]) and
    [new_float site x] the object that the call at [site] creates for
    that value: the value itself, except that two NaN objects created at
    two places are two members of a set.  [str_float] is [str(x)], and
    [F0] is [0.0]. *)
Class Float {CF : Carrier} : Type := {
  F_eq_dec : forall x y : F, {x = y} + {x <> y};
  float : string -> option F;
  new_float : Site -> F -> F;
  str_float : F -> string;
  F0 : F
}.

(** A point is the tuple [(x, y, 0.0)]. *)
Definition Point {CF : Carrier} : Type := (F * F * F)%type.

Definition Point_eq_dec {CF : Carrier} {FL : Float} (p p' : Point) : {p = p'} + {p <> p'}.
Proof. repeat decide equality; apply F_eq_dec. Defined.

Definition Point_eqb {CF : Carrier} {FL : Float} (p p' : Point) : bool :=
  if Point_eq_dec p p' then true else false.

(** The order in which [for x in s] visits a [set]: Python leaves it
    open, it only promises every member once.  A set is kept as the list
    of its members in insertion order, and [set_iter] gives the order of
    iteration. *)
Class SetOrder (A : Type) : Type := {
  set_iter : list A -> list A;
  set_iter_perm : forall l : list A, Permutation (set_iter l) l
}.

Section PySet.
Context {CF : Carrier} {FL : Float}.

(** [s.add(p)] *)
Definition set_add (p : Point) (s : list Point) : list Point :=
  if existsb (Point_eqb p) s then s else s ++ [p].

(** [l.index(p)]: the first position of [p]. *)
Fixpoint list_index (p : Point) (l : list Point) : option nat :=
  match l with
  | [] => None
  | p' :: l' =>
      if Point_eqb p' p then Some O
      else match list_index p l' with
           | Some i => Some (S i)
           | None => None
           end
  end.
End PySet.

(** ** LineReader *)

Module LineReader.

(** The file is the list of the lines not read yet, each with its line
    end; [latestLine] and [pushedBack] are the one-line buffer. *)
Record t : Type := {
  file : list string;
  latestLine : string;
  pushedBack : bool
}.

Definition init (file : list string) : t :=
  {| file := file; latestLine := ""; pushedBack := false |}.

(** The position of the file, as the number of lines that are left in
    it. *)
Definition linesLeft (self : t) : nat := length (file self).

(** The lines of a text, each keeping its line feed. *)
Fixpoint lines (text : string) : list string :=
  match text with
  | EmptyString => []
  | String c text' =>
      if Ascii.eqb c PyStr.newline then String c EmptyString :: lines text'
      else match lines text' with
           | [] => [String c EmptyString]
           | l :: ls => String c l :: ls
           end
  end.

(** [file.readline()]: the empty string at the end of the file. *)
Definition readline (f : list string) : string * list string :=
  match f with
  | [] => (EmptyString, [])
  | l :: f' => (l, f')
  end.

(** The loop of [__nextLine]: read until a line is not blank or the
    file ends. *)
Fixpoint skipBlank (f : list string) : string * list string :=
  match f with
  | [] => (EmptyString, [])
  | l :: f' =>
      if PyStr.is_empty l then (l, f')
      else if PyStr.is_empty (PyStr.strip l) then skipBlank f'
      else (l, f')
  end.

Definition nextLine (self : t) (peeking : bool) : string * t :=
  let '(result, f) :=
    if pushedBack self then (latestLine self, file self)
    else skipBlank (file self) in
  (result, {| file := f; latestLine := result; pushedBack := peeking |}).

Definition getNextNotEmptyLine (self : t) : string * t := nextLine self false.

Definition peekNextNotEmptyLine (self : t) : string * t := nextLine self true.

Definition isEndOfFile (self : t) : bool * t :=
  let '(line, self') := peekNextNotEmptyLine self in
  (PyStr.is_empty line, self').

Definition nextLineMatches (self : t) (regex : Re.regex) : bool * t :=
  let '(line, self') := peekNextNotEmptyLine self in
  (Re.matched (Re.search regex (PyStr.strip line)), self').

Definition nextLineMatchesIgnoreCase (self : t) (regex : Re.regex) : bool * t :=
  let '(line, self') := peekNextNotEmptyLine self in
  (Re.matched (Re.search_ignorecase regex (PyStr.strip line)), self').

End LineReader.

(** ** The file types *)

Definition CRACK_FILETYPE : string := "c".
Definition DAMAGE_FILETYPE : string := "d".
Definition VON_MISES_FILETYPE : string := "v".

(** ** Zone *)

Module Zone.
Section Zone.
Context {CF : Carrier} {FL : Float}.
Local Open Scope Z_scope.

(** An element of a row: the dictionary from variable name to value. *)
Definition Element : Type := dict string F.

Record t : Type := {
  title : string;
  solutionTime : Z;
  rowCount : Z;
  columnCount : Z;
  table : list (list Element)
}.

Definition init : t :=
  {| title := ""; solutionTime := -1; rowCount := -1; columnCount := -1;
     table := [] |}.

Definition addRow (self : t) (row : list Element) : t :=
  {| title := title self; solutionTime := solutionTime self;
     rowCount := rowCount self; columnCount := columnCount self;
     table := table self ++ [row] |}.

Definition readPartialHeader (self : t) (m : option Re.groups) : result t :=
  title' <- Re.group_of m 1 ;;
  text <- Re.group_of m 2 ;;
  solutionTime' <- PyStr.int text ;;
  Ok {| title := title'; solutionTime := solutionTime'; rowCount := -1;
        columnCount := 1; table := table self |}.

Definition readFullHeader (self : t) (m : option Re.groups) : result t :=
  title' <- Re.group_of m 1 ;;
  text2 <- Re.group_of m 2 ;;
  solutionTime' <- PyStr.int text2 ;;
  text3 <- Re.group_of m 3 ;;
  rowCount' <- PyStr.int text3 ;;
  text4 <- Re.group_of m 4 ;;
  columnCount' <- PyStr.int text4 ;;
  Ok {| title := title'; solutionTime := solutionTime';
        rowCount := rowCount'; columnCount := columnCount';
        table := table self |}.

(** The four tests are made in turn and stop at the first that holds;
    each of them peeks. *)
Definition nextRowAvailable (self : t) (i : Z) (lineReader : LineReader.t)
  : bool * LineReader.t :=
  if rowCount self =? -1 then
    let '(b1, lr1) := LineReader.nextLineMatches lineReader ZONE_REGEXP in
    if b1 then (false, lr1) else
    let '(b2, lr2) :=
      LineReader.nextLineMatchesIgnoreCase lr1 TIMESTEP_LAST_LINE_REGEXP in
    if b2 then (false, lr2) else
    let '(b3, lr3) := LineReader.nextLineMatches lr2 END_OF_FILE_REGEXP in
    if b3 then (false, lr3) else
    let '(b4, lr4) :=
      LineReader.nextLineMatches lr3 CRACK_INITIAL_NUMBER_REGEXP in
    if b4 then (false, lr4) else (true, lr4)
  else (i <? rowCount self, lineReader).

(** The loop over [k]: the variables from the [k]-th on, each taking
    the token at index [j + k]; [line] names the line the tokens come
    from, for the objects that [float] creates. *)
Fixpoint readElementFrom (line : nat) (variables : list string)
    (numbers : list string) (j k : nat) (element : Element) : result Element :=
  match variables with
  | [] => Ok element
  | variable :: variables' =>
      token <- of_option IndexError (nth_error numbers (j + k)) ;;
      value <- of_option ValueError (float token) ;;
      readElementFrom line variables' numbers j (S k)
        (dict_set String.eqb variable (new_float (line, j, k) value) element)
  end.

(** The loop over [j]: [n] more elements from column [j] on. *)
Fixpoint readRowFrom (line : nat) (n : nat) (variables : list string)
    (numbers : list string) (j : nat) (row : list Element)
  : result (list Element) :=
  match n with
  | O => Ok row
  | S n' =>
      element <- readElementFrom line variables numbers j 0 [] ;;
      readRowFrom line n' variables numbers (S j) (row ++ [element])
  end.

(** The body of the loop over the rows, for one data line. *)
Definition readRow (self : t) (variables : list string) (line : nat)
    (currentLine : string) : result (list Element) :=
  let numbers := PyStr.split_spaces (PyStr.strip currentLine) in
  readRowFrom line (Z.to_nat (columnCount self)) variables numbers 0 [].

Fixpoint readRows (fuel : nat) (self : t) (variables : list string) (i : Z)
    (lineReader : LineReader.t) : result (t * LineReader.t) :=
  match fuel with
  | O => OutOfFuel
  | S fuel' =>
      let '(available, lr1) := nextRowAvailable self i lineReader in
      if available then
        let '(currentLine, lr2) := LineReader.getNextNotEmptyLine lr1 in
        row <- readRow self variables (LineReader.linesLeft lr2) currentLine ;;
        readRows fuel' (addRow self row) variables (i + 1) lr2
      else Ok (self, lr1)
  end.

Definition readFromFile (fuel : nat) (self : t) (variables : list string)
    (lineReader : LineReader.t) : result (t * LineReader.t) :=
  let '(line, lr1) := LineReader.getNextNotEmptyLine lineReader in
  let header := PyStr.strip line in
  let matchFull := Re.search ZONE_FULL_HEADER_REGEXP header in
  let matchPartial := Re.search ZONE_PARTIAL_HEADER_REGEXP header in
  self1 <- (if Re.matched matchFull then readFullHeader self matchFull
            else if Re.matched matchPartial
                 then readPartialHeader self matchPartial
                 else Ok self) ;;
  readRows fuel self1 variables 0 lr1.

End Zone.
End Zone.

(** ** VTKPolyData *)

Module VTKPolyData.
Section VTKPolyData.
Context {CF : Carrier} {FL : Float}.
Local Open Scope Z_scope.

Record t : Type := {
  title : string;
  time : Z;
  points : list Point;
  cells : list (list nat);
  fields : dict string (dict Point F)
}.

(** What a writing function has written, one string for each call of
    [file.write], and the exception that stopped it, if any. *)
Definition written : Type := (list string * option exn)%type.

Definition andThen (w1 w2 : written) : written :=
  match w1 with
  | (out, None) => (out ++ fst w2, snd w2)
  | (out, Some e) => (out, Some e)
  end.

Definition nl : string := String PyStr.newline EmptyString.

Definition str_len {A : Type} (l : list A) : string :=
  PyStr.str_int (Z.of_nat (length l)).

Definition getFileName (self : t) (originalFileName : string) : string :=
  ("./converted" ++ originalFileName ++ "/" ++ originalFileName ++ "_"
     ++ PyStr.remove_char " " (title self) ++ "_"
     ++ PyStr.zfill 6 (PyStr.str_int (time self)) ++ ".vtk")%string.

Definition writeHeaderToFile (self : t) : written :=
  ([("# vtk DataFile Version 3.0" ++ nl)%string;
    (PyStr.remove_char " " (title self) ++ nl)%string;
    ("ASCII" ++ nl)%string;
    ("DATASET POLYDATA" ++ nl)%string], None).

Definition pointLine (point : Point) : string :=
  let '(x, y, z) := point in
  (str_float x ++ " " ++ str_float y ++ " " ++ str_float z ++ nl)%string.

Definition writePointsToFile (self : t) : written :=
  (("POINTS " ++ str_len (points self) ++ " double" ++ nl)%string
     :: map pointLine (points self), None).

Definition getCellType (cellSize : nat) : string :=
  if Nat.eqb cellSize 2 then "LINES" else "POLYGONS".

Definition getTotalCellsSize (self : t) : Z :=
  fold_left (fun result cell => result + (1 + Z.of_nat (length cell)))
    (cells self) 0.

Definition getCellTextLine (cell : list nat) : string :=
  PyStr.strip
    (fold_left
       (fun result pointIndex =>
          (result ++ PyStr.str_int (Z.of_nat pointIndex) ++ " ")%string)
       cell (str_len cell ++ " ")%string).

Definition writeCellsToFile (self : t) : written :=
  match cells self with
  | [] => ([], Some IndexError)
  | cell0 :: _ =>
      let cellSize := length cell0 in
      ((getCellType cellSize ++ " " ++ str_len (cells self) ++ " "
          ++ PyStr.str_int (getTotalCellsSize self) ++ nl)%string
         :: map (fun cell => (getCellTextLine cell ++ nl)%string) (cells self),
       None)
  end.

(** The loop over the points of one field: it stops at the first point
    the field has no value for. *)
Fixpoint writeValues (field : dict Point F) (ps : list Point) : written :=
  match ps with
  | [] => ([], None)
  | point :: ps' =>
      match dict_get Point_eqb point field with
      | None => ([], Some KeyError)
      | Some v => andThen ([(str_float v ++ nl)%string], None)
                          (writeValues field ps')
      end
  end.

Definition writeFieldToFile (self : t) (fieldName : string) : written :=
  andThen
    ([("SCALARS " ++ PyStr.remove_char " " fieldName ++ " double 1" ++ nl)%string;
      ("LOOKUP_TABLE default" ++ nl)%string], None)
    match dict_get String.eqb fieldName (fields self) with
    | None => ([], Some KeyError)
    | Some field => writeValues field (points self)
    end.

Definition writePointDataToFile (self : t) : written :=
  fold_left (fun w fieldName => andThen w (writeFieldToFile self fieldName))
    (dict_keys (fields self))
    ([("POINT_DATA " ++ str_len (points self) ++ nl)%string], None).

(** The body of the [with] block of [writeToFile]. *)
Definition fileContents (self : t) (fileType : string) : written :=
  andThen (writeHeaderToFile self)
    (andThen (writePointsToFile self)
       (andThen (if negb (String.eqb fileType VON_MISES_FILETYPE)
                 then writeCellsToFile self else ([], None))
          (writePointDataToFile self))).

(** The directories and the files of the file system, the files with
    the strings written to them. *)
Record FileSystem : Type := {
  dirs : list string;
  files : dict string (list string)
}.

Definition path_exists (fs : FileSystem) (path : string) : bool :=
  existsb (String.eqb path) (dirs fs)
  || existsb (String.eqb path) (dict_keys (files fs)).

(** What the operating system refuses.  [os.mkdir] and [open] raise
    when the system refuses the call: a directory of the path is missing
    or is a file, the path is too long, the user may not write there.
    The program does not decide that, so it is a parameter: the
    exception of the call on that file system and path, if any. *)
Class OS : Type := {
  mkdir_error : FileSystem -> string -> option exn;
  open_error : FileSystem -> string -> option exn
}.

Context {SYS : OS}.

(** [os.mkdir(path)] *)
Definition mkdir (fs : FileSystem) (path : string) : result FileSystem :=
  match mkdir_error fs path with
  | Some e => Raise e
  | None => Ok {| dirs := dirs fs ++ [path]; files := files fs |}
  end.

(** [open(path, 'w')] and the block under it, which writes [out]: the
    file is created, or emptied, when it is opened. *)
Definition open_w (fs : FileSystem) (path : string) (out : list string)
  : result FileSystem :=
  match open_error fs path with
  | Some e => Raise e
  | None =>
      Ok {| dirs := dirs fs; files := dict_set String.eqb path out (files fs) |}
  end.

(** The file system after the call, and how the call ends: an exception
    of [os.mkdir] or of [open] ends it there, and an exception of the
    block leaves the file with what was written before it. *)
Definition writeToFile (self : t) (originalFileName fileType : string)
    (fs : FileSystem) : FileSystem * result unit :=
  let dir := ("./converted" ++ originalFileName)%string in
  match (if path_exists fs dir then Ok fs else mkdir fs dir) with
  | Ok fs1 =>
      let '(out, e) := fileContents self fileType in
      match open_w fs1 (getFileName self originalFileName) out with
      | Ok fs2 =>
          (fs2, match e with
                | None => Ok tt
                | Some e => Raise e
                end)
      | Raise e' => (fs1, Raise e')
      | OutOfFuel => (fs1, OutOfFuel)
      end
  | Raise e => (fs, Raise e)
  | OutOfFuel => (fs, OutOfFuel)
  end.

End VTKPolyData.
End VTKPolyData.

(** ** Timestep *)

Module Timestep.
Section Timestep.
Context {CF : Carrier} {FL : Float} {SO : SetOrder Point}.
Local Open Scope Z_scope.

Record t : Type := {
  title : string;
  time : Z;
  variables : list string;
  zones : list Zone.t
}.

Definition init : t :=
  {| title := ""; time := -1; variables := []; zones := [] |}.

Definition setTitle (self : t) (title' : string) : t :=
  {| title := title'; time := time self; variables := variables self;
     zones := zones self |}.

Definition setTime (self : t) (time' : Z) : t :=
  {| title := title self; time := time'; variables := variables self;
     zones := zones self |}.

Definition addVariable (self : t) (variable : string) : t :=
  {| title := title self; time := time self;
     variables := variables self ++ [variable]; zones := zones self |}.

Definition addZone (self : t) (zone : Zone.t) : t :=
  {| title := title self; time := time self; variables := variables self;
     zones := zones self ++ [zone] |}.

Definition skipNumberBeforeTitle (lineReader : LineReader.t) : LineReader.t :=
  let '(b, lr1) :=
    LineReader.nextLineMatches lineReader CRACK_INITIAL_NUMBER_REGEXP in
  if b then snd (LineReader.getNextNotEmptyLine lr1) else lr1.

(** The loop that reads the zones. *)
Fixpoint readZones (fuel : nat) (self : t) (lineReader : LineReader.t)
  : result (t * LineReader.t) :=
  match fuel with
  | O => OutOfFuel
  | S fuel' =>
      let '(b, lr1) := LineReader.nextLineMatches lineReader ZONE_REGEXP in
      if b then
        '(zone, lr2) <- Zone.readFromFile fuel' Zone.init (variables self) lr1 ;;
        readZones fuel' (addZone self zone) lr2
      else Ok (self, lr1)
  end.

Definition readFromFile (fuel : nat) (self : t) (lineReader : LineReader.t)
    (fileType : string) : result (t * LineReader.t) :=
  let lr0 := if String.eqb fileType CRACK_FILETYPE
             then skipNumberBeforeTitle lineReader else lineReader in
  let '(line1, lr1) := LineReader.getNextNotEmptyLine lr0 in
  title' <- Re.group_of (Re.search TITLE_REGEXP (PyStr.strip line1)) 1 ;;
  let self1 := setTitle self title' in
  let '(line2, lr2) := LineReader.getNextNotEmptyLine lr1 in
  text <- Re.group_of (Re.search VARIABLES_REGEXP (PyStr.strip line2)) 0 ;;
  let variablesText := last (PyStr.split "=" text) EmptyString in
  let self2 :=
    fold_left
      (fun s variable =>
         addVariable s (PyStr.remove_char PyStr.dquote (PyStr.strip variable)))
      (PyStr.split "," variablesText) self1 in
  '(self3, lr3) <- readZones fuel self2 lr2 ;;
  if String.eqb fileType CRACK_FILETYPE then
    zone0 <- of_option IndexError (nth_error (zones self3) 0) ;;
    Ok (setTime self3 (Zone.solutionTime zone0), lr3)
  else
    let '(line4, lr4) := LineReader.getNextNotEmptyLine lr3 in
    text' <- Re.group_of
               (Re.search_ignorecase TIMESTEP_LAST_LINE_REGEXP
                  (PyStr.strip line4)) 1 ;;
    time' <- PyStr.int text' ;;
    Ok (setTime self3 time', lr4).

Definition zoneMessage (self : t) (zone : Zone.t) : string :=
  ("zone " ++ Zone.title zone ++ " has solutionTime "
     ++ PyStr.str_int (Zone.solutionTime zone) ++ " instead of "
     ++ PyStr.str_int (time self) ++ "!")%string.

(** The lines printed and the value returned. *)
Definition checkZonesSolutionTimes (self : t) : list string * bool :=
  fold_left
    (fun '(printed, result) zone =>
       if negb (Zone.solutionTime zone =? time self)
       then (printed ++ [zoneMessage self zone], false)
       else (printed, result))
    (zones self) ([], true).

(** The state of the first part of [convertToVTKPolyData]. *)
Record MeshState : Type := {
  fields : dict string (dict Point F);
  tempPoints : list Point;
  tempCells : list (list Point)
}.

Definition initFields (self : t) : dict string (dict Point F) :=
  fold_left
    (fun fields variable =>
       if negb (String.eqb variable "X") && negb (String.eqb variable "Y")
       then dict_set String.eqb variable [] fields
       else fields)
    (variables self) [].

(** The loop over the keys of [fields], for one element. *)
Fixpoint recordFields (keys : list string) (element : Zone.Element)
    (point : Point) (fields : dict string (dict Point F))
  : result (dict string (dict Point F)) :=
  match keys with
  | [] => Ok fields
  | key :: keys' =>
      value <- of_option KeyError (dict_get String.eqb key element) ;;
      field <- of_option KeyError (dict_get String.eqb key fields) ;;
      recordFields keys' element point
        (dict_set String.eqb key (dict_set Point_eqb point value field) fields)
  end.

(** The body of the innermost loop, for one element. *)
Definition addElement (st : result (MeshState * list Point))
    (element : Zone.Element) : result (MeshState * list Point) :=
  '(ms, cell) <- st ;;
  x <- of_option KeyError (dict_get String.eqb "X" element) ;;
  y <- of_option KeyError (dict_get String.eqb "Y" element) ;;
  let point := (x, y, F0) in
  fields' <- recordFields (dict_keys (fields ms)) element point (fields ms) ;;
  Ok ({| fields := fields'; tempPoints := set_add point (tempPoints ms);
         tempCells := tempCells ms |}, cell ++ [point]).

(** The body of the loop over the zones. *)
Definition addZoneCell (st : result MeshState) (zone : Zone.t)
  : result MeshState :=
  ms <- st ;;
  '(ms', cell) <-
    fold_left (fun st' row => fold_left addElement row st')
      (Zone.table zone) (Ok (ms, [])) ;;
  Ok {| fields := fields ms'; tempPoints := tempPoints ms';
        tempCells := tempCells ms' ++ [cell] |}.

(** The loop that turns a cell of points into a cell of indices. *)
Fixpoint indexCell (points : list Point) (tempCell : list Point)
  : result (list nat) :=
  match tempCell with
  | [] => Ok []
  | point :: tempCell' =>
      i <- of_option ValueError (list_index point points) ;;
      cell <- indexCell points tempCell' ;;
      Ok (i :: cell)
  end.

Fixpoint indexCells (points : list Point) (tempCells : list (list Point))
  : result (list (list nat)) :=
  match tempCells with
  | [] => Ok []
  | tempCell :: tempCells' =>
      cell <- indexCell points tempCell ;;
      cells <- indexCells points tempCells' ;;
      Ok (cell :: cells)
  end.

Definition convertToVTKPolyData (self : t) : result VTKPolyData.t :=
  ms <- fold_left addZoneCell (zones self)
          (Ok {| fields := initFields self; tempPoints := [];
                 tempCells := [] |}) ;;
  let points := set_iter (tempPoints ms) in
  cells <- indexCells points (tempCells ms) ;;
  Ok {| VTKPolyData.title := title self;
        VTKPolyData.time := time self;
        VTKPolyData.points := points;
        VTKPolyData.cells := cells;
        VTKPolyData.fields := fields ms |}.

End Timestep.
End Timestep.

(** ** The converter script *)

Section Script.
Context {CF : Carrier} {FL : Float} {SO : SetOrder Point}
        {SYS : VTKPolyData.OS}.

(** The file system and the lines printed so far. *)
Record World : Type := {
  fs : VTKPolyData.FileSystem;
  stdout : list string
}.

Definition print (w : World) (lines : list string) : World :=
  {| fs := fs w; stdout := stdout w ++ lines |}.

(** The condition of the loop: the next line is not the end marker and
    the file is not at its end. *)
Definition loopCondition (lineReader : LineReader.t) : bool * LineReader.t :=
  let '(atMarker, lr1) :=
    LineReader.nextLineMatches lineReader END_OF_FILE_REGEXP in
  if atMarker then (false, lr1)
  else let '(atEnd, lr2) := LineReader.isEndOfFile lr1 in
       (negb atEnd, lr2).

(** The loop over the timesteps of the opened file; the result is the
    value of [success] when the loop ends. *)
Fixpoint converterLoop (fuel : nat) (originalFileName fileType : string)
    (lineReader : LineReader.t) (w : World) : World * result bool :=
  match fuel with
  | O => (w, OutOfFuel)
  | S fuel' =>
      let '(continue, lr2) := loopCondition lineReader in
      if continue then
        match Timestep.readFromFile fuel' Timestep.init lr2 fileType with
        | Ok (timestep, lr3) =>
            let '(printed, valid) := Timestep.checkZonesSolutionTimes timestep in
            let w1 := print w printed in
            if valid then
              match Timestep.convertToVTKPolyData timestep with
              | Ok polyData =>
                  let '(fs', r) :=
                    VTKPolyData.writeToFile polyData originalFileName
                      fileType (fs w1) in
                  let w2 := {| fs := fs'; stdout := stdout w1 |} in
                  match r with
                  | Ok _ =>
                      converterLoop fuel' originalFileName fileType lr3 w2
                  | Raise e => (w2, Raise e)
                  | OutOfFuel => (w2, OutOfFuel)
                  end
              | Raise e => (w1, Raise e)
              | OutOfFuel => (w1, OutOfFuel)
              end
            else
              (print w1 ["ERROR - there is a ZONE with wrong SOLUTIONTIME"],
               Ok false)
        | Raise e => (w, Raise e)
        | OutOfFuel => (w, OutOfFuel)
        end
      else (w, Ok true)
  end.

(** The script once the file is open: the loop, then the closing
    message when [success] still holds. *)
Definition converterScript (fuel : nat) (originalFileName fileType : string)
    (text : string) (w : World) : World * result bool :=
  let '(w', r) :=
    converterLoop fuel originalFileName fileType
      (LineReader.init (LineReader.lines text)) w in
  match r with
  | Ok true => (print w' ["Conversion done! Exiting..."], r)
  | _ => (w', r)
  end.

End Script.

(** ** Instances of the parameters, for concrete runs

    [Fixed4] covers the literals with one to eleven digits, a dot and one
    to four digits, no sign and no exponent.  Such a literal has at most
    fifteen significant digits, so two of them give the same [float] just
    when they have the same value, and [str] gives the literal back
    without its trailing zeros.  A value is kept as its number of
    ten-thousandths.  Any other text is outside the instance and is
    refused. *)

Module Fixed4.
Local Open Scope Z_scope.

Definition parse (s : string) : option Z :=
  match PyStr.split "." s with
  | [ip; fp] =>
      let n := String.length ip in
      let m := String.length fp in
      if ((1 <=? n) && (n <=? 11) && (1 <=? m) && (m <=? 4))%nat then
        match PyStr.digits_value 0 ip,
              PyStr.digits_value 0 (fp ++ PyStr.zeros (4 - m))%string with
        | Some a, Some b => Some (a * 10000 + b)
        | _, _ => None
        end
      else None
  | _ => None
  end.

(** The text without its trailing zeros, the first character apart. *)
Fixpoint rstrip_zeros (s : string) : string :=
  match s with
  | EmptyString => EmptyString
  | String c s' =>
      match rstrip_zeros s' with
      | EmptyString => if Ascii.eqb c "0" then EmptyString else String c EmptyString
      | r => String c r
      end
  end.

Definition str (x : Z) : string :=
  let frac := PyStr.zfill 4 (PyStr.str_int (x mod 10000)) in
  (PyStr.str_int (x / 10000) ++ "."
     ++ match frac with
        | String c s' => String c (rstrip_zeros s')
        | EmptyString => EmptyString
        end)%string.

#[export] Instance carrier : Carrier := {| F := Z |}.

#[export] Instance float : Float :=
  {| F_eq_dec := Z.eq_dec; float := parse; new_float := fun _ x => x;
     str_float := str; F0 := 0 |}.

End Fixed4.

(** [Fixed4] with the text [nan].  A float object is a number of
    ten-thousandths or a NaN; a NaN is the place it was created at, so
    that it equals itself and no other. *)
Module Fixed4Nan.

Inductive obj : Type :=
| Num (x : Z)
| NaN (site : Site).

Definition obj_eq_dec (x y : obj) : {x = y} + {x <> y}.
Proof. repeat decide equality. Defined.

Definition parse (s : string) : option obj :=
  if String.eqb s "nan" then Some (NaN (0, 0, 0))%nat
  else option_map Num (Fixed4.parse s).

Definition create (site : Site) (x : obj) : obj :=
  match x with
  | Num _ => x
  | NaN _ => NaN site
  end.

Definition str (x : obj) : string :=
  match x with
  | Num x => Fixed4.str x
  | NaN _ => "nan"
  end.

Definition carrier : Carrier := {| F := obj |}.

Definition float : @Float carrier :=
  @Build_Float carrier obj_eq_dec parse create str (Num 0).

End Fixed4Nan.

(** Two operating systems for concrete runs: one refuses nothing, the
    other refuses a path whose directory does not exist. *)
Definition willingOS : VTKPolyData.OS :=
  {| VTKPolyData.mkdir_error := fun _ _ => None;
     VTKPolyData.open_error := fun _ _ => None |}.

(** The path without its last component: the text in front of the last
    slash. *)
Fixpoint parent (path : string) : string :=
  match path with
  | EmptyString => EmptyString
  | String c path' =>
      if existsb (Ascii.eqb "/") (list_ascii_of_string path')
      then String c (parent path') else EmptyString
  end.

Definition hasDir (fs : VTKPolyData.FileSystem) (path : string) : bool :=
  String.eqb path "." || existsb (String.eqb path) (VTKPolyData.dirs fs).

Definition strictOS : VTKPolyData.OS :=
  {| VTKPolyData.mkdir_error :=
       fun fs path => if hasDir fs (parent path) then None else Some OSError;
     VTKPolyData.open_error :=
       fun fs path => if hasDir fs (parent path) then None else Some OSError |}.

(** A point of [Fixed4], from its coordinates in ten-thousandths. *)
Definition point4 (x y z : Z) : @Point Fixed4.carrier := (x, y, z).

(** Two orders a set may be visited in: that of the insertions, and the
    opposite one. *)
Definition insertionOrder (A : Type) : SetOrder A :=
  {| set_iter := fun l => l; set_iter_perm := fun l => Permutation_refl l |}.

Definition reverseOrder (A : Type) : SetOrder A :=
  {| set_iter := fun l => rev l;
     set_iter_perm := fun l => Permutation_sym (Permutation_rev l) |}.

(** The two orders, for the points of [Fixed4]. *)
Definition insertionFixed4 : SetOrder (@Point Fixed4.carrier) :=
  insertionOrder (@Point Fixed4.carrier).

Definition reverseFixed4 : SetOrder (@Point Fixed4.carrier) :=
  reverseOrder (@Point Fixed4.carrier).

(** The text of the examples. *)
Definition quoted (s : string) : string :=
  (String PyStr.dquote s ++ String PyStr.dquote EmptyString)%string.

Definition unlines (ls : list string) : string :=
  String.concat EmptyString (map (fun l => (l ++ VTKPolyData.nl)%string) ls).

(** ** Vocabulary of the properties *)

(** The test on the trimmed next line that ends the rows of a zone whose
    row count is unknown. *)
Definition endsRows (line : string) : bool :=
  Re.matched (Re.search ZONE_REGEXP line)
  || Re.matched (Re.search_ignorecase TIMESTEP_LAST_LINE_REGEXP line)
  || Re.matched (Re.search END_OF_FILE_REGEXP line)
  || Re.matched (Re.search CRACK_INITIAL_NUMBER_REGEXP line).

(** The reader after [n] calls of [getNextNotEmptyLine]. *)
Fixpoint consume (n : nat) (lineReader : LineReader.t) : LineReader.t :=
  match n with
  | O => lineReader
  | S n' => consume n' (snd (LineReader.getNextNotEmptyLine lineReader))
  end.


(** ** Concrete inputs of the examples *)

Module Examples.
Import Fixed4.
Local Open Scope Z_scope.

(** A zone read from a partial header, and one read from a full header
    that announces two rows of one point. *)
Definition zonePartial : Zone.t :=
  {| Zone.title := quoted "Z1"; Zone.solutionTime := 3; Zone.rowCount := -1;
     Zone.columnCount := 1; Zone.table := [] |}.


Definition xys : list string := ["X"; "Y"; "S"].



End Examples.

(** The groups [gs] have the group [n]. *)
Definition has (n : nat) (gs : Re.groups) : Prop := Re.group n gs <> None.

(** [binds n r]: every match of [r] goes through the group [n]. *)
Fixpoint binds (n : nat) (r : Re.regex) : bool :=
  match r with
  | Re.Grp m r' => Nat.eqb n m || binds n r'
  | Re.Seq r1 r2 => binds n r1 || binds n r2
  | _ => false
  end.

Module ExamplesCrack.
(** A CRACK file whose variables line is followed by no zone. *)
Definition readerNoZone : LineReader.t :=
  LineReader.init
    (LineReader.lines
       (unlines ["12"; ("TITLE = " ++ quoted "T1")%string;
                 ("VARIABLES = " ++ quoted "X" ++ "," ++ quoted "Y")%string;
                 "0.0 0.0"])).
End ExamplesCrack.

Module ExamplesScript.
Import Fixed4.

Definition emptyWorld : World :=
  {| fs := {| VTKPolyData.dirs := []; VTKPolyData.files := [] |};
     stdout := [] |}.

(** A DAMAGE file of one timestep whose trailer gives the time 5, with
    a zone of solution time 5 and a zone of solution time 7. *)
Definition mismatchText : string :=
  unlines [("TITLE = " ++ quoted "T1")%string;
           ("VARIABLES = " ++ quoted "X" ++ "," ++ quoted "Y")%string;
           ("ZONE T=" ++ quoted "Z1" ++ " SOLUTIONTIME=5 I=1, J=1,")%string;
           "0.0 0.0";
           ("ZONE T=" ++ quoted "Z2" ++ " SOLUTIONTIME=7 I=1, J=1,")%string;
           "1.0 0.0";
           "Load factor = 1.0 Total deformation = 1.0 Iter = 5"].

Definition mismatchReader : LineReader.t :=
  LineReader.init (LineReader.lines mismatchText).

(** The timestep read from it, and the reader after it. *)
Definition mismatchRead : Timestep.t * LineReader.t :=
  match Timestep.readFromFile 9 Timestep.init
          (snd (loopCondition mismatchReader)) DAMAGE_FILETYPE with
  | Ok r => r
  | _ => (Timestep.init, mismatchReader)
  end.

(** A DAMAGE file of one timestep with no zone. *)
Definition noZoneText : string :=
  unlines [("TITLE = " ++ quoted "T1")%string;
           ("VARIABLES = " ++ quoted "X" ++ "," ++ quoted "Y")%string;
           "Load factor = 1.0 Total deformation = 1.0 Iter = 3"].

(** The mesh of that timestep: no point, no cell, no field. *)
Definition meshNoCells : VTKPolyData.t :=
  {| VTKPolyData.title := "T1"; VTKPolyData.time := 3;
     VTKPolyData.points := []; VTKPolyData.cells := [];
     VTKPolyData.fields := [] |}.

(** A mesh of two points, one cell and one field. *)
Definition meshLine : VTKPolyData.t :=
  {| VTKPolyData.title := "T 1"; VTKPolyData.time := 3;
     VTKPolyData.points := [(0, 0, 0); (10000, 0, 0)]%Z;
     VTKPolyData.cells := [[0; 1]]%nat;
     VTKPolyData.fields :=
       [("S", [((0, 0, 0), 15000); ((10000, 0, 0), 25000)]%Z)] |}.

End ExamplesScript.

(** The mesh with another list of cells. *)
Definition withCells {CF : Carrier} (self : VTKPolyData.t)
    (cells' : list (list nat)) : VTKPolyData.t :=
  {| VTKPolyData.title := VTKPolyData.title self;
     VTKPolyData.time := VTKPolyData.time self;
     VTKPolyData.points := VTKPolyData.points self;
     VTKPolyData.cells := cells';
     VTKPolyData.fields := VTKPolyData.fields self |}.

(** [line.startswith(p)] *)
Fixpoint startsWith (p line : string) : bool :=
  match p with
  | EmptyString => true
  | String c p' =>
      match line with
      | String c' line' => Ascii.eqb c c' && startsWith p' line'
      | EmptyString => false
      end
  end.

(** The text starts with one of the two keywords of a cells block. *)
Definition startsCells (line : string) : bool :=
  startsWith "LINES " line || startsWith "POLYGONS " line.

(** ** Vocabulary of the conversion *)

Section ConversionVocabulary.
Context {CF : Carrier} {FL : Float}.

(** The elements of a zone and of a timestep, in the order of the
    traversal: zone by zone, row by row, column by column. *)
Definition zoneElements (zone : Zone.t) : list Zone.Element :=
  concat (Zone.table zone).

Definition elements (timestep : Timestep.t) : list Zone.Element :=
  concat (map zoneElements (Timestep.zones timestep)).

(** [element[key]], with [0.0] where the key is missing. *)
Definition valueOf (key : string) (element : Zone.Element) : F :=
  match dict_get String.eqb key element with
  | Some v => v
  | None => F0
  end.

(** The point of an element. *)
Definition pointOf (element : Zone.Element) : Point :=
  (valueOf "X" element, valueOf "Y" element, F0).

(** The distinct points of a list in the order of their first
    occurrences: the set after the points are added in turn. *)
Definition firstSeen (ps : list Point) : list Point :=
  fold_left (fun s p => set_add p s) ps [].

(** Every element has a value for X, for Y and for every declared
    variable. *)
Definition complete (timestep : Timestep.t) : Prop :=
  forall element,
    In element (elements timestep) ->
    dict_get String.eqb "X" element <> None
    /\ dict_get String.eqb "Y" element <> None
    /\ forall variable,
         In variable (Timestep.variables timestep) ->
         dict_get String.eqb variable element <> None.

(** The field [key] after the elements [es] are recorded in turn. *)
Definition fieldAfter (key : string) (es : list Zone.Element)
    (field : dict Point F) : dict Point F :=
  fold_left
    (fun field element =>
       dict_set Point_eqb (pointOf element) (valueOf key element) field)
    es field.

(** [l.index(p)], with 0 where [p] is missing. *)
Definition indexOf (p : Point) (l : list Point) : nat :=
  match list_index p l with
  | Some i => i
  | None => O
  end.

(** The mesh of a complete timestep, for the order [SO] of the set of
    points. *)
Definition meshOf {SO : SetOrder Point} (timestep : Timestep.t)
  : VTKPolyData.t :=
  let points := set_iter (firstSeen (map pointOf (elements timestep))) in
  {| VTKPolyData.title := Timestep.title timestep;
     VTKPolyData.time := Timestep.time timestep;
     VTKPolyData.points := points;
     VTKPolyData.cells :=
       map (fun zone =>
              map (fun element => indexOf (pointOf element) points)
                (zoneElements zone))
         (Timestep.zones timestep);
     VTKPolyData.fields :=
       map (fun key => (key, fieldAfter key (elements timestep) []))
         (dict_keys (Timestep.initFields timestep)) |}.

End ConversionVocabulary.

Section ConversionState.
Context {CF : Carrier} {FL : Float}.

(** What recording one element does to the fields, and the state of
    the conversion after the elements [es]. *)
Definition recordElement (element : Zone.Element)
    (fields : dict string (dict Point F)) : dict string (dict Point F) :=
  map (fun '(key, field) =>
         (key, dict_set Point_eqb (pointOf element) (valueOf key element) field))
    fields.

Definition after (es : list Zone.Element) (ms : Timestep.MeshState)
  : Timestep.MeshState :=
  {| Timestep.fields :=
       map (fun '(key, field) => (key, fieldAfter key es field))
         (Timestep.fields ms);
     Timestep.tempPoints :=
       fold_left (fun s element => set_add (pointOf element) s) es
         (Timestep.tempPoints ms);
     Timestep.tempCells := Timestep.tempCells ms |}.

(** An element has X, Y and the keys of [fields]. *)
Definition hasKeys (fields : dict string (dict Point F))
    (element : Zone.Element) : Prop :=
  dict_get String.eqb "X" element <> None
  /\ dict_get String.eqb "Y" element <> None
  /\ forall key, In key (dict_keys fields) ->
                 dict_get String.eqb key element <> None.

End ConversionState.

Section Completeness.
Context {CF : Carrier} {FL : Float}.

Definition isSome {A : Type} (o : option A) : bool :=
  match o with
  | Some _ => true
  | None => false
  end.

(** [complete], as a test. *)
Definition completeb (timestep : Timestep.t) : bool :=
  forallb
    (fun element =>
       isSome (dict_get String.eqb "X" element)
       && isSome (dict_get String.eqb "Y" element)
       && forallb (fun variable => isSome (dict_get String.eqb variable element))
            (Timestep.variables timestep))
    (elements timestep).

End Completeness.

Module ExamplesMesh.
Import Fixed4.

(** A DAMAGE file of one timestep and one zone of two rows of one
    point: the points (0, 0) and (1, 0), with S = 1.5 and S = 2.5. *)
Definition twoPointsText : string :=
  unlines [("TITLE = " ++ quoted "T1")%string;
           ("VARIABLES = " ++ quoted "X" ++ "," ++ quoted "Y" ++ ","
              ++ quoted "S")%string;
           ("ZONE T=" ++ quoted "Z1" ++ " SOLUTIONTIME=3 I=2, J=1,")%string;
           "0.0 0.0 1.5";
           "1.0 0.0 2.5";
           "Load factor = 1.0 Total deformation = 1.0 Iter = 3"].

(** The timestep read from it. *)
Definition twoPoints : Timestep.t :=
  match Timestep.readFromFile 9 Timestep.init
          (LineReader.init (LineReader.lines twoPointsText))
          DAMAGE_FILETYPE with
  | Ok (timestep, _) => timestep
  | _ => Timestep.init
  end.

(** A timestep of two zones that share the point (1, 0): the second
    visit gives it another value of S. *)
Definition sharedPointText : string :=
  unlines [("TITLE = " ++ quoted "T1")%string;
           ("VARIABLES = " ++ quoted "X" ++ "," ++ quoted "Y" ++ ","
              ++ quoted "S")%string;
           ("ZONE T=" ++ quoted "Z1" ++ " SOLUTIONTIME=3 I=2, J=1,")%string;
           "0.0 0.0 1.5";
           "1.0 0.0 2.5";
           ("ZONE T=" ++ quoted "Z2" ++ " SOLUTIONTIME=3 I=2, J=1,")%string;
           "1.0 0.0 3.5";
           "1.0 1.0 4.5";
           "Load factor = 1.0 Total deformation = 1.0 Iter = 3"].

Definition sharedPoint : Timestep.t :=
  match Timestep.readFromFile 9 Timestep.init
          (LineReader.init (LineReader.lines sharedPointText))
          DAMAGE_FILETYPE with
  | Ok (timestep, _) => timestep
  | _ => Timestep.init
  end.

(** The input of the end-to-end example: one zone of one row of two
    points. *)
Definition specText : string :=
  unlines [("TITLE = " ++ quoted "T1")%string;
           ("VARIABLES = " ++ quoted "X" ++ "," ++ quoted "Y" ++ ","
              ++ quoted "S")%string;
           ("ZONE T=" ++ quoted "Z1" ++ " SOLUTIONTIME=3 I=1, J=2,")%string;
           "0.0 0.0 1.5 1.0 0.0 2.5";
           "Load factor = 1.0 Total deformation = 1.0 Iter = 3"].

Definition specTimestep : Timestep.t :=
  match Timestep.readFromFile 9 Timestep.init
          (LineReader.init (LineReader.lines specText))
          DAMAGE_FILETYPE with
  | Ok (timestep, _) => timestep
  | _ => Timestep.init
  end.

(** The zone of that example after its header is read. *)
Definition specZone : Zone.t :=
  {| Zone.title := "Z1"; Zone.solutionTime := 3; Zone.rowCount := 1;
     Zone.columnCount := 2; Zone.table := [] |}.

End ExamplesMesh.

(** An element has a value for each of the variables [vs]. *)
Definition hasVariables {CF : Carrier} (vs : list string)
    (element : Zone.Element) : Prop :=
  forall variable, In variable vs ->
                   dict_get String.eqb variable element <> None.

(** Every element of the table of a zone has the variables [vs]. *)
Definition tableOk {CF : Carrier} (vs : list string) (zone : Zone.t) : Prop :=
  Forall (Forall (hasVariables vs)) (Zone.table zone).

(** ** Vocabulary of the further properties *)

(** A line is blank: nothing is left of it once it is trimmed. *)
Definition blank (line : string) : bool := PyStr.is_empty (PyStr.strip line).

(** The lines of a file that are not blank, in their order. *)
Definition notBlank (f : list string) : list string :=
  filter (fun line => negb (blank line)) f.

(** The readers with nothing pushed back and no empty string among the
    lines of the file, as [readline] gives them. *)
Definition fresh (lr : LineReader.t) : Prop :=
  LineReader.pushedBack lr = false
  /\ Forall (fun line => line <> EmptyString) (LineReader.file lr).

(** The token at index [idx] is there and [float] accepts it. *)
Definition tokenOk {CF : Carrier} {FL : Float} (numbers : list string)
    (idx : nat) : Prop :=
  exists token, nth_error numbers idx = Some token /\ float token <> None.

Module ExamplesZone.
Import Fixed4.

(** The reader of the end-to-end example in front of its zone header,
    and what the zone reads from there. *)
Definition readerOnHeader : LineReader.t :=
  consume 2 (LineReader.init (LineReader.lines ExamplesMesh.specText)).

Definition zoneRead : Zone.t * LineReader.t :=
  match Zone.readFromFile 3 Zone.init Examples.xys readerOnHeader with
  | Ok r => r
  | _ => (Zone.init, readerOnHeader)
  end.

(** A file that ends in a zone with a partial header and one data
    line, with no trailer and no end marker. *)
Definition openEndedText : string :=
  unlines [("ZONE T=" ++ quoted "Z1" ++ " SOLUTIONTIME=3")%string;
           "0.0 0.0 1.5"].

End ExamplesZone.

Module ExamplesEnd.

(** A file whose last line starts with ZONE and is neither a full nor a
    partial header. *)
Definition strayZoneText : string := unlines ["ZONE 1"].

End ExamplesEnd.

(** The reader from which [Timestep.readFromFile] takes the title line:
    for a CRACK file, a leading number is skipped. *)
Definition titleReader (fileType : string) (lr : LineReader.t) : LineReader.t :=
  if String.eqb fileType CRACK_FILETYPE
  then Timestep.skipNumberBeforeTitle lr else lr.

Module ExamplesTimestep.
Import Fixed4.

(** A reader at the end of its file, and one on a title line that is
    followed by data instead of a variables line. *)
Definition readerAtEnd : LineReader.t := LineReader.init [].

Definition readerNoVariables : LineReader.t :=
  LineReader.init
    (LineReader.lines
       (unlines [("TITLE = " ++ quoted "T1")%string; "0.0 0.0 1.5"])).

(** A CRACK file of one timestep, with the stray number in front of the
    title, and two zones of solution times 4 and 9. *)
Definition crackText : string :=
  unlines ["12";
           ("TITLE = " ++ quoted "T1")%string;
           ("VARIABLES = " ++ quoted "X" ++ "," ++ quoted "Y")%string;
           ("ZONE T=" ++ quoted "Z1" ++ " SOLUTIONTIME=4 I=1, J=1,")%string;
           "0.0 0.0";
           ("ZONE T=" ++ quoted "Z2" ++ " SOLUTIONTIME=9 I=1, J=1,")%string;
           "1.0 0.0"].

Definition crackReader : LineReader.t :=
  LineReader.init (LineReader.lines crackText).

Definition crackRead : Timestep.t * LineReader.t :=
  match Timestep.readFromFile 9 Timestep.init crackReader CRACK_FILETYPE with
  | Ok r => r
  | _ => (Timestep.init, crackReader)
  end.

(** The timestep of the end-to-end example with the reader after it. *)
Definition damageRead : Timestep.t * LineReader.t :=
  match Timestep.readFromFile 9 Timestep.init
          (LineReader.init (LineReader.lines ExamplesMesh.specText))
          DAMAGE_FILETYPE with
  | Ok r => r
  | _ => (Timestep.init, LineReader.init [])
  end.

End ExamplesTimestep.

(** Every field of the mesh has a value for every point of the mesh. *)
Definition fieldsComplete {CF : Carrier} {FL : Float} (self : VTKPolyData.t)
  : Prop :=
  forall fieldName field point,
    dict_get String.eqb fieldName (VTKPolyData.fields self) = Some field ->
    In point (VTKPolyData.points self) ->
    dict_get Point_eqb point field <> None.

Module ExamplesWriter.
Import Fixed4.

(** A file system in which the directory of the base name [input]
    exists, with a file of another timestep in it. *)
Definition fsWithDir : VTKPolyData.FileSystem :=
  {| VTKPolyData.dirs := ["./convertedinput"];
     VTKPolyData.files := [("./convertedinput/input_T1_000002.vtk", ["x"])] |}.

End ExamplesWriter.

(** [str(n)] for a natural number, as the writer prints counts and
    indices. *)
Definition str_nat (n : nat) : string := PyStr.str_int (Z.of_nat n).

(** No character of the text is white space, and the text is not
    empty. *)
Fixpoint noSpace (s : string) : bool :=
  match s with
  | EmptyString => true
  | String c s' => negb (PyStr.isspace c) && noSpace s'
  end.

Definition word (s : string) : Prop := noSpace s = true /\ s <> EmptyString.

(** The test that ends the loop of the script on the lines not yet read:
    none of them has content, or the first one with content is the end
    marker. *)
Definition stops (remaining : list string) : bool :=
  match notBlank remaining with
  | [] => true
  | line :: _ => Re.matched (Re.search END_OF_FILE_REGEXP (PyStr.strip line))
  end.

Module ExamplesMarker.

(** A file whose end marker comes first, after a blank line, with a
    title line behind it. *)
Definition markerText : string :=
  unlines [" "; "### ###"; ("TITLE = " ++ quoted "T1")%string].

End ExamplesMarker.

(** The directory that [writeToFile] keeps the files of a base name
    in. *)
Definition directoryOf (originalFileName : string) : string :=
  ("./converted" ++ originalFileName)%string.

(** The file system once that directory is there: as it is when the
    path exists, with one more directory when it does not. *)
Definition withDirectory (fs : VTKPolyData.FileSystem)
    (originalFileName : string) : VTKPolyData.FileSystem :=
  if VTKPolyData.path_exists fs (directoryOf originalFileName) then fs
  else {| VTKPolyData.dirs :=
            VTKPolyData.dirs fs ++ [directoryOf originalFileName];
          VTKPolyData.files := VTKPolyData.files fs |}.

(** The operating system lets [writeToFile] through: it refuses neither
    the directory, when there is one to make, nor the file. *)
Definition accepted {CF : Carrier} {SYS : VTKPolyData.OS}
    (self : VTKPolyData.t) (originalFileName : string)
    (fs : VTKPolyData.FileSystem) : Prop :=
  (VTKPolyData.path_exists fs (directoryOf originalFileName) = false ->
   VTKPolyData.mkdir_error fs (directoryOf originalFileName) = None)
  /\ VTKPolyData.open_error (withDirectory fs originalFileName)
       (VTKPolyData.getFileName self originalFileName) = None.

Module ExamplesNan.

(** A DAMAGE file of one timestep and one zone of two rows of one
    point; both rows are the text [nan 0.0 1.5]. *)
Definition nanText : string :=
  unlines [("TITLE = " ++ quoted "T1")%string;
           ("VARIABLES = " ++ quoted "X" ++ "," ++ quoted "Y" ++ ","
              ++ quoted "S")%string;
           ("ZONE T=" ++ quoted "Z1" ++ " SOLUTIONTIME=3 I=2, J=1,")%string;
           "nan 0.0 1.5";
           "nan 0.0 1.5";
           "Load factor = 1.0 Total deformation = 1.0 Iter = 3"].

(** The timestep read from it. *)
Definition nanTimestep : @Timestep.t Fixed4Nan.carrier :=
  match Timestep.readFromFile (FL := Fixed4Nan.float) 9 Timestep.init
          (LineReader.init (LineReader.lines nanText))
          DAMAGE_FILETYPE with
  | Ok (timestep, _) => timestep
  | _ => Timestep.init
  end.

(** The points of its two elements: the NaN of the first row, which two
    lines follow, and the NaN of the second row, which one line
    follows. *)
Definition firstPoint : @Point Fixed4Nan.carrier :=
  (Fixed4Nan.NaN (2, 0, 0)%nat, Fixed4Nan.Num 0, Fixed4Nan.Num 0).

Definition secondPoint : @Point Fixed4Nan.carrier :=
  (Fixed4Nan.NaN (1, 0, 0)%nat, Fixed4Nan.Num 0, Fixed4Nan.Num 0).

(** An element as [str] prints its values. *)
Definition printed (element : @Zone.Element Fixed4Nan.carrier)
  : list (string * string) :=
  map (fun '(variable, value) => (variable, Fixed4Nan.str value)) element.

End ExamplesNan.

(** * Properties *)

Unset Implicit Arguments.

(** The concrete runs use the operations of [Fixed4]. *)
#[local] Existing Instance Fixed4.float.

(** ** Results *)

Lemma bind_Ok {A B : Type} (c : result A) (k : A -> result B) (b : B) :
  bind c k = Ok b -> exists a, c = Ok a /\ k a = Ok b.
Proof. destruct c; simpl; try discriminate. eauto. Qed.

(** ** Regular expressions *)

Section ReFacts.
Import Re.

Lemma has_cons (n m : nat) (text : string) (gs : groups) :
  has n gs -> has n ((m, text) :: gs).
Proof.
  unfold has. simpl. destruct (Nat.eqb n m); [discriminate|auto].
Qed.

Lemma has_here (n : nat) (text : string) (gs : groups) :
  has n ((n, text) :: gs).
Proof. unfold has. simpl. rewrite Nat.eqb_refl. discriminate. Qed.

(** A match is what the continuation returns: a property the
    continuation establishes from an invariant of the groups holds of
    the result. *)
Lemma run_inv (Q P : groups -> Prop) (ic : bool) :
  (forall n text g, Q g -> Q ((n, text) :: g)) ->
  forall (r : regex) (pos : nat) (s : string) (gs : groups)
         (k : nat -> string -> groups -> option groups) (res : groups),
    (forall p s' g res', Q g -> k p s' g = Some res' -> P res') ->
    Q gs -> run ic r pos s gs k = Some res -> P res.
Proof.
  intros HQ. induction r; intros pos s gs k res Hk Hgs Hrun; simpl in Hrun.
  - destruct (Nat.eqb pos 0); [eauto|discriminate].
  - destruct s as [|c [|c' s']]; [eauto| |discriminate].
    destruct (Ascii.eqb c PyStr.newline); [eauto|discriminate].
  - destruct s as [|c s']; [discriminate|].
    destruct (Ascii.eqb c PyStr.newline); [discriminate|eauto].
  - destruct s as [|c' s']; [discriminate|].
    destruct (chr_eqb ic c c'); [eauto|discriminate].
  - destruct s as [|c' s']; [discriminate|].
    destruct (xorb negated (mem ic c' cs)); [eauto|discriminate].
  - destruct s as [|c' s']; [discriminate|].
    destruct (is_digit c'); [eauto|discriminate].
  - eapply IHr1; [|exact Hgs|exact Hrun].
    intros p s' g res' Hg Hrun'.
    eapply IHr2; [exact Hk|exact Hg|exact Hrun'].
  - remember (String.length s) as n eqn:Hn in Hrun. clear Hn.
    revert pos s gs res Hgs Hrun.
    induction n as [|n IHn]; intros pos s gs res Hgs Hrun; [eauto|].
    match type of Hrun with
    | match ?m with _ => _ end = _ => destruct m as [res0|] eqn:E
    end; [|eauto].
    injection Hrun as ->.
    eapply IHr; [|exact Hgs|exact E].
    intros p s' g res' Hg Hk'. simpl in Hk'.
    destruct (pos <? p)%nat; [|discriminate]. eapply IHn; eauto.
  - destruct (run ic r pos s gs k) as [res0|] eqn:E; [|eauto].
    injection Hrun as ->. eapply IHr; eauto.
  - eapply IHr; [|exact Hgs|exact Hrun].
    intros p s' g res' Hg Hk'. simpl in Hk'. eapply Hk; [|exact Hk'].
    now apply HQ.
  - eauto.
Qed.

(** A match of a pattern that binds the group [n] has the group
    [n]. *)
Lemma run_binds (ic : bool) (n : nat) (P : groups -> Prop) :
  forall (r : regex) (pos : nat) (s : string) (gs : groups)
         (k : nat -> string -> groups -> option groups) (res : groups),
    binds n r = true ->
    (forall p s' g res', has n g -> k p s' g = Some res' -> P res') ->
    run ic r pos s gs k = Some res -> P res.
Proof.
  induction r; intros pos s gs k res Hb Hk Hrun; simpl in Hb;
    try discriminate.
  - simpl in Hrun. apply orb_true_iff in Hb. destruct Hb as [Hb|Hb].
    + eapply IHr1; [exact Hb| |exact Hrun].
      intros p s' g res' Hg Hrun'.
      eapply (run_inv (has n) P); [apply has_cons|exact Hk|exact Hg|exact Hrun'].
    + eapply (run_inv (fun _ => True) P); [auto| |exact I|exact Hrun].
      intros p s' g res' _ Hrun'.
      eapply IHr2; [exact Hb|exact Hk|exact Hrun'].
  - simpl in Hrun. destruct (Nat.eqb n n0) eqn:E.
    + apply Nat.eqb_eq in E. subst n0.
      eapply (run_inv (fun _ => True) P); [auto| |exact I|exact Hrun].
      intros p s' g res' _ Hk'. simpl in Hk'.
      eapply Hk; [|exact Hk']. apply has_here.
    + simpl in Hb. eapply IHr; [exact Hb| |exact Hrun].
      intros p s' g res' Hg Hk'. simpl in Hk'.
      eapply Hk; [|exact Hk']. now apply has_cons.
Qed.

Lemma search_from_binds (ic : bool) (n : nat) (r : regex) :
  binds n (Grp 0 r) = true ->
  forall (s : string) (pos : nat) (res : groups),
    search_from ic r pos s = Some res -> has n res.
Proof.
  intros Hb. induction s as [|c s IH]; intros pos res Hs; simpl in Hs.
  - destruct (match_at ic r pos EmptyString) as [gs|] eqn:E; [|discriminate].
    injection Hs as ->. unfold match_at in E.
    eapply (run_binds ic n (has n)); [exact Hb| |exact E].
    intros p s' g res' Hg Hk. now injection Hk as <-.
  - destruct (match_at ic r pos (String c s)) as [gs|] eqn:E.
    + injection Hs as ->. unfold match_at in E.
      eapply (run_binds ic n (has n)); [exact Hb| |exact E].
      intros p s' g res' Hg Hk. now injection Hk as <-.
    + eapply IH; eauto.
Qed.

(** When the search succeeds, [group(n)] of a bound group returns. *)
Lemma group_of_matched (ic : bool) (n : nat) (r : regex) (s : string) :
  binds n (Grp 0 r) = true ->
  matched (search_from ic r 0 s) = true ->
  exists text, group_of (search_from ic r 0 s) n = Ok text.
Proof.
  intros Hb Hm. destruct (search_from ic r 0 s) as [gs|] eqn:E;
    [|discriminate].
  pose proof (search_from_binds ic n r Hb s 0 _ E) as Hhas.
  unfold has in Hhas. simpl.
  destruct (group n gs) as [text|]; [|contradiction].
  now exists text.
Qed.

End ReFacts.

(** ** LineReader *)

Section LineReaderFacts.
Import LineReader.

Lemma peek_peek (lr : t) :
  peekNextNotEmptyLine (snd (peekNextNotEmptyLine lr))
  = peekNextNotEmptyLine lr.
Proof.
  unfold peekNextNotEmptyLine, nextLine.
  destruct (pushedBack lr); [reflexivity|].
  destruct (skipBlank (file lr)); reflexivity.
Qed.

Lemma peek_get (lr : t) :
  getNextNotEmptyLine (snd (peekNextNotEmptyLine lr))
  = getNextNotEmptyLine lr.
Proof.
  unfold getNextNotEmptyLine, peekNextNotEmptyLine, nextLine.
  destruct (pushedBack lr); [reflexivity|].
  destruct (skipBlank (file lr)); reflexivity.
Qed.

Lemma get_fst_peek (lr : t) :
  fst (getNextNotEmptyLine lr) = fst (peekNextNotEmptyLine lr).
Proof.
  unfold getNextNotEmptyLine, peekNextNotEmptyLine, nextLine.
  destruct (pushedBack lr); [reflexivity|].
  destruct (skipBlank (file lr)); reflexivity.
Qed.

Lemma peek_state (lr : t) :
  snd (peekNextNotEmptyLine lr)
  = {| file := file (snd (getNextNotEmptyLine lr));
       latestLine := fst (peekNextNotEmptyLine lr);
       pushedBack := true |}.
Proof.
  unfold getNextNotEmptyLine, peekNextNotEmptyLine, nextLine.
  destruct (pushedBack lr); [reflexivity|].
  destruct (skipBlank (file lr)); reflexivity.
Qed.

Lemma nextLineMatches_eq (lr : t) (regex : Re.regex) :
  nextLineMatches lr regex
  = (Re.matched (Re.search regex (PyStr.strip (fst (peekNextNotEmptyLine lr)))),
     snd (peekNextNotEmptyLine lr)).
Proof.
  unfold nextLineMatches. destruct (peekNextNotEmptyLine lr); reflexivity.
Qed.

Lemma nextLineMatchesIgnoreCase_eq (lr : t) (regex : Re.regex) :
  nextLineMatchesIgnoreCase lr regex
  = (Re.matched
       (Re.search_ignorecase regex (PyStr.strip (fst (peekNextNotEmptyLine lr)))),
     snd (peekNextNotEmptyLine lr)).
Proof.
  unfold nextLineMatchesIgnoreCase.
  destruct (peekNextNotEmptyLine lr); reflexivity.
Qed.

Lemma isEndOfFile_eq (lr : t) :
  isEndOfFile lr
  = (PyStr.is_empty (fst (peekNextNotEmptyLine lr)),
     snd (peekNextNotEmptyLine lr)).
Proof.
  unfold isEndOfFile. destruct (peekNextNotEmptyLine lr); reflexivity.
Qed.

End LineReaderFacts.

(** C9. Peeking is idempotent: a second peek with no consume in between
    returns the same line and leaves the reader as the first peek left
    it.  A consume right after a peek returns the peeked line.  The
    lookahead is one line: after a peek the buffer holds the peeked line
    and the file stands where a consume would have left it, so peeking
    and then consuming is the same as consuming. *)
Theorem C9_peek_idempotent_one_line_lookahead :
  forall lr : LineReader.t,
    LineReader.peekNextNotEmptyLine (snd (LineReader.peekNextNotEmptyLine lr))
    = LineReader.peekNextNotEmptyLine lr
    /\ fst (LineReader.getNextNotEmptyLine (snd (LineReader.peekNextNotEmptyLine lr)))
       = fst (LineReader.peekNextNotEmptyLine lr)
    /\ LineReader.getNextNotEmptyLine (snd (LineReader.peekNextNotEmptyLine lr))
       = LineReader.getNextNotEmptyLine lr
    /\ snd (LineReader.peekNextNotEmptyLine lr)
       = {| LineReader.file :=
              LineReader.file (snd (LineReader.getNextNotEmptyLine lr));
            LineReader.latestLine := fst (LineReader.peekNextNotEmptyLine lr);
            LineReader.pushedBack := true |}.
Proof.
  intros lr. repeat split.
  - apply peek_peek.
  - rewrite peek_get. apply get_fst_peek.
  - apply peek_get.
  - apply peek_state.
Qed.

(** ** Zone *)

Section ZoneFacts.
Context {CF : Carrier} {FL : Float}.
Import Zone.
Local Open Scope Z_scope.

(** With no row count the test looks at the peeked line only. *)
Lemma nextRowAvailable_unknown (self : t) (i : Z) (lr : LineReader.t) :
  rowCount self = -1 ->
  nextRowAvailable self i lr
  = (negb (endsRows (PyStr.strip (fst (LineReader.peekNextNotEmptyLine lr)))),
     snd (LineReader.peekNextNotEmptyLine lr)).
Proof.
  intros Hrc. unfold nextRowAvailable, endsRows. rewrite Hrc. simpl.
  rewrite nextLineMatches_eq.
  repeat (rewrite ?nextLineMatches_eq, ?nextLineMatchesIgnoreCase_eq,
            ?peek_peek).
  destruct (Re.matched (Re.search ZONE_REGEXP _)); [reflexivity|].
  repeat (rewrite ?nextLineMatches_eq, ?nextLineMatchesIgnoreCase_eq,
            ?peek_peek).
  destruct (Re.matched (Re.search_ignorecase TIMESTEP_LAST_LINE_REGEXP _));
    [reflexivity|].
  repeat (rewrite ?nextLineMatches_eq, ?nextLineMatchesIgnoreCase_eq,
            ?peek_peek).
  destruct (Re.matched (Re.search END_OF_FILE_REGEXP _)); [reflexivity|].
  repeat (rewrite ?nextLineMatches_eq, ?nextLineMatchesIgnoreCase_eq,
            ?peek_peek).
  destruct (Re.matched (Re.search CRACK_INITIAL_NUMBER_REGEXP _));
    reflexivity.
Qed.

(** With a row count the test compares the counter and leaves the
    reader alone. *)
Lemma nextRowAvailable_known (self : t) (i : Z) (lr : LineReader.t) :
  rowCount self <> -1 ->
  nextRowAvailable self i lr = (i <? rowCount self, lr).
Proof.
  intros Hrc. unfold nextRowAvailable.
  destruct (rowCount self =? -1) eqn:E; [|reflexivity].
  apply Z.eqb_eq in E. contradiction.
Qed.




Lemma digits_value_nonneg (s : string) :
  forall acc v : Z,
    0 <= acc -> PyStr.digits_value acc s = Some v -> 0 <= v.
Proof.
  induction s as [|c s IH]; intros acc v Hacc H;
    cbn [PyStr.digits_value] in H.
  - injection H as <-. exact Hacc.
  - match type of H with
    | (if ?b then _ else _) = _ => destruct b; [|discriminate]
    end.
    eapply IH; [|exact H]. lia.
Qed.

Lemma int_nonneg (s : string) (v : Z) : PyStr.int s = Ok v -> 0 <= v.
Proof.
  unfold PyStr.int. destruct s as [|c s]; [discriminate|].
  destruct (PyStr.digits_value 0 (String c s)) as [v'|] eqn:E; simpl;
    [|discriminate].
  intros H. injection H as <-. now apply (digits_value_nonneg _ 0 _ (Z.le_refl 0) E).
Qed.



End ZoneFacts.



(** ** Timestep: reading *)

Section TimestepReadFacts.
Context {CF : Carrier} {FL : Float}.
Import Timestep.

Lemma zones_addVariables (f : string -> string) (l : list string) :
  forall self : t,
    zones (fold_left (fun s variable => addVariable s (f variable)) l self)
    = zones self.
Proof.
  induction l as [|v l IH]; intros self; simpl; [reflexivity|].
  now rewrite IH.
Qed.

Lemma readZones_no_zone (fuel : nat) (self : t) (lr : LineReader.t) :
  fst (LineReader.nextLineMatches lr ZONE_REGEXP) = false ->
  readZones (S fuel) self lr = Ok (self, snd (LineReader.peekNextNotEmptyLine lr)).
Proof.
  intros H. simpl. rewrite nextLineMatches_eq in *. simpl in H.
  now rewrite H.
Qed.

End TimestepReadFacts.

(** C10. Reading a CRACK timestep whose title and variables lines are
    followed by no line of the generic zone pattern raises [IndexError] at
    [zones[0]]: the zone list is empty when the time is taken.  So
    whenever the reading of a CRACK timestep returns, the timestep has at
    least one zone. *)
Theorem C10_crack_needs_a_zone :
  forall (CF : Carrier) (FL : Float) (fuel : nat) (lr : LineReader.t),
    (Re.matched
       (Re.search TITLE_REGEXP
          (PyStr.strip
             (fst (LineReader.getNextNotEmptyLine
                     (Timestep.skipNumberBeforeTitle lr))))) = true ->
     Re.matched
       (Re.search VARIABLES_REGEXP
          (PyStr.strip
             (fst (LineReader.getNextNotEmptyLine
                     (consume 1 (Timestep.skipNumberBeforeTitle lr))))))
     = true ->
     fst (LineReader.nextLineMatches
            (consume 2 (Timestep.skipNumberBeforeTitle lr)) ZONE_REGEXP)
     = false ->
     Timestep.readFromFile (S fuel) Timestep.init lr CRACK_FILETYPE
     = Raise IndexError)
    /\ (forall (timestep : Timestep.t) (lr' : LineReader.t),
           Timestep.readFromFile fuel Timestep.init lr CRACK_FILETYPE
           = Ok (timestep, lr') ->
           Timestep.zones timestep <> []).
Proof.
  intros CF FL fuel lr. split.
  - intros Htitle Hvars Hzone.
    unfold Timestep.readFromFile.
    change (String.eqb CRACK_FILETYPE CRACK_FILETYPE) with true. cbv iota.
    simpl consume in *.
    set (lr0 := Timestep.skipNumberBeforeTitle lr) in *.
    destruct (LineReader.getNextNotEmptyLine lr0) as [line1 lr1] eqn:E1.
    simpl in Htitle, Hvars, Hzone.
    destruct (group_of_matched false 1 TITLE_REGEXP (PyStr.strip line1)
                eq_refl Htitle) as [title' Ht].
    unfold Re.search. rewrite Ht. cbn [bind].
    destruct (LineReader.getNextNotEmptyLine lr1) as [line2 lr2] eqn:E2.
    simpl in Hvars, Hzone.
    destruct (group_of_matched false 0 VARIABLES_REGEXP (PyStr.strip line2)
                eq_refl Hvars) as [text Hv].
    rewrite Hv. cbn [bind].
    rewrite readZones_no_zone by exact Hzone. cbn [bind].
    rewrite zones_addVariables. reflexivity.
  - intros timestep lr' H. unfold Timestep.readFromFile in H.
    change (String.eqb CRACK_FILETYPE CRACK_FILETYPE) with true in H.
    cbv iota in H.
    destruct (LineReader.getNextNotEmptyLine _) as [line1 lr1] in H.
    apply bind_Ok in H. destruct H as [title' [_ H]].
    destruct (LineReader.getNextNotEmptyLine lr1) as [line2 lr2] in H.
    apply bind_Ok in H. destruct H as [text [_ H]].
    apply bind_Ok in H. destruct H as [[self3 lr3] [_ H]].
    apply bind_Ok in H. destruct H as [zone0 [Hz H]].
    injection H as <- _. simpl.
    destruct (Timestep.zones self3); [discriminate|discriminate].
Qed.

(** C10, on a CRACK file with a leading number, a title, a variables line
    and a data line but no zone header. *)
Lemma C10_crack_needs_a_zone_witness :
  Re.matched
    (Re.search TITLE_REGEXP
       (PyStr.strip
          (fst (LineReader.getNextNotEmptyLine
                  (Timestep.skipNumberBeforeTitle ExamplesCrack.readerNoZone)))))
  = true
  /\ Timestep.readFromFile (FL := Fixed4.float) 1 Timestep.init
       ExamplesCrack.readerNoZone CRACK_FILETYPE
     = Raise IndexError.
Proof.
  split; [vm_compute; reflexivity|].
  apply (proj1 (C10_crack_needs_a_zone Fixed4.carrier Fixed4.float 0
                  ExamplesCrack.readerNoZone));
    vm_compute; reflexivity.
Defined.

(** ** Timestep: validation, and the loop of the script *)

Section ValidationFacts.
Context {CF : Carrier} {FL : Float}.
Import Timestep.
Local Open Scope Z_scope.

Lemma check_fold (self : t) (zs : list Zone.t) :
  forall (printed : list string) (result : bool),
    fold_left
      (fun '(printed, result) zone =>
         if negb (Zone.solutionTime zone =? time self)
         then (printed ++ [zoneMessage self zone], false)
         else (printed, result))
      zs (printed, result)
    = (printed
         ++ map (zoneMessage self)
              (filter (fun zone => negb (Zone.solutionTime zone =? time self))
                 zs),
       result
       && forallb (fun zone => Zone.solutionTime zone =? time self) zs)%bool.
Proof.
  induction zs as [|z zs IH]; intros printed result; simpl.
  - now rewrite app_nil_r, andb_true_r.
  - destruct (Zone.solutionTime z =? time self); simpl.
    + apply IH.
    + rewrite IH, <- app_assoc. simpl. now rewrite andb_false_r.
Qed.

Lemma check_eq (self : t) :
  checkZonesSolutionTimes self
  = (map (zoneMessage self)
       (filter (fun zone => negb (Zone.solutionTime zone =? time self))
          (zones self)),
     forallb (fun zone => Zone.solutionTime zone =? time self) (zones self)).
Proof. unfold checkZonesSolutionTimes. now rewrite check_fold. Qed.

End ValidationFacts.

(** C7. The validation prints one line for each zone whose solution time
    differs from the time of the timestep, in the order of the zones, and
    for no other zone; it returns [False] exactly when some zone differs.
    It only reads the timestep: its results are the printed lines and the
    verdict.  When the loop of the script has read a timestep that fails
    the validation, it prints the lines of the validation and the error
    line and ends with [success] false: the file system is as it was, so
    the timestep is neither converted nor written, and the rest of the
    file is not read. *)
Theorem C7_solution_time_validation :
  forall (CF : Carrier) (FL : Float) (SO : SetOrder Point)
         (SYS : VTKPolyData.OS) (timestep : Timestep.t),
    fst (Timestep.checkZonesSolutionTimes timestep)
    = map (Timestep.zoneMessage timestep)
        (filter
           (fun zone =>
              negb (Zone.solutionTime zone =? Timestep.time timestep)%Z)
           (Timestep.zones timestep))
    /\ (snd (Timestep.checkZonesSolutionTimes timestep) = false
        <-> exists zone,
             In zone (Timestep.zones timestep)
             /\ Zone.solutionTime zone <> Timestep.time timestep)
    /\ (forall (fuel : nat) (originalFileName fileType : string)
               (lr lr' : LineReader.t) (w : World),
           fst (loopCondition lr) = true ->
           Timestep.readFromFile fuel Timestep.init (snd (loopCondition lr))
             fileType = Ok (timestep, lr') ->
           snd (Timestep.checkZonesSolutionTimes timestep) = false ->
           converterLoop (S fuel) originalFileName fileType lr w
           = ({| fs := fs w;
                 stdout :=
                   stdout w
                   ++ fst (Timestep.checkZonesSolutionTimes timestep)
                   ++ ["ERROR - there is a ZONE with wrong SOLUTIONTIME"] |},
              Ok false)).
Proof.
  intros CF FL SO SYS timestep. rewrite check_eq. simpl. repeat split.
  - intros H. apply not_true_iff_false in H.
    rewrite forallb_forall in H.
    assert (Hex : existsb
                    (fun zone =>
                       negb (Zone.solutionTime zone =? Timestep.time timestep)%Z)
                    (Timestep.zones timestep) = true).
    { destruct (existsb _ _) eqn:E; [reflexivity|]. exfalso. apply H.
      intros z Hz. destruct (Z.eqb _ _) eqn:Ez; [reflexivity|].
      assert (existsb
                (fun zone =>
                   negb (Zone.solutionTime zone =? Timestep.time timestep)%Z)
                (Timestep.zones timestep) = true) as E'.
      { apply existsb_exists. exists z. now rewrite Ez. }
      congruence. }
    apply existsb_exists in Hex. destruct Hex as [z [Hz Hne]].
    exists z. split; [exact Hz|].
    apply negb_true_iff, Z.eqb_neq in Hne. exact Hne.
  - intros [z [Hz Hne]]. apply not_true_iff_false. intros H.
    rewrite forallb_forall in H. apply H in Hz. apply Z.eqb_eq in Hz.
    contradiction.
  - intros fuel name fileType lr lr' w Hcond Hread Hcheck.
    simpl. destruct (loopCondition lr) as [continue lr2].
    simpl in Hcond, Hread. subst continue. rewrite Hread.
    rewrite check_eq. simpl. rewrite Hcheck.
    unfold print. simpl. now rewrite <- app_assoc.
Qed.

(** C7, on a file whose timestep has the time 5, a zone of solution time
    5 and a zone of solution time 7: one line is printed, for the second
    zone, and the loop ends without writing. *)
Lemma C7_solution_time_validation_witness :
  fst (loopCondition ExamplesScript.mismatchReader) = true
  /\ Timestep.readFromFile 9 Timestep.init
       (snd (loopCondition ExamplesScript.mismatchReader)) DAMAGE_FILETYPE
     = Ok ExamplesScript.mismatchRead
  /\ snd (Timestep.checkZonesSolutionTimes (fst ExamplesScript.mismatchRead))
     = false
  /\ fst (Timestep.checkZonesSolutionTimes (fst ExamplesScript.mismatchRead))
     = ["zone Z2 has solutionTime 7 instead of 5!"]
  /\ converterLoop (SO := insertionFixed4) (SYS := strictOS) 10 "input"
       DAMAGE_FILETYPE ExamplesScript.mismatchReader ExamplesScript.emptyWorld
     = ({| fs := fs ExamplesScript.emptyWorld;
           stdout :=
             stdout ExamplesScript.emptyWorld
             ++ fst (Timestep.checkZonesSolutionTimes
                       (fst ExamplesScript.mismatchRead))
             ++ ["ERROR - there is a ZONE with wrong SOLUTIONTIME"] |},
        Ok false).
Proof.
  assert (H1 : fst (loopCondition ExamplesScript.mismatchReader) = true)
    by (vm_compute; reflexivity).
  assert (H2 : Timestep.readFromFile 9 Timestep.init
                 (snd (loopCondition ExamplesScript.mismatchReader))
                 DAMAGE_FILETYPE
               = Ok (fst ExamplesScript.mismatchRead,
                     snd ExamplesScript.mismatchRead))
    by (vm_compute; reflexivity).
  assert (H3 : snd (Timestep.checkZonesSolutionTimes
                      (fst ExamplesScript.mismatchRead)) = false)
    by (vm_compute; reflexivity).
  split; [exact H1|]. split; [vm_compute; reflexivity|].
  split; [exact H3|]. split; [vm_compute; reflexivity|].
  exact (proj2 (proj2 (C7_solution_time_validation Fixed4.carrier
                         Fixed4.float insertionFixed4 strictOS
                         (fst ExamplesScript.mismatchRead)))
           9%nat "input" DAMAGE_FILETYPE ExamplesScript.mismatchReader
           (snd ExamplesScript.mismatchRead) ExamplesScript.emptyWorld
           H1 H2 H3).
Defined.

(** ** VTKPolyData: the layout of the file *)

Section WriterFacts.
Context {CF : Carrier} {FL : Float}.
Import VTKPolyData.

Lemma andThen_ok (out : list string) (w : written) :
  andThen (out, None) w = (out ++ fst w, snd w).
Proof. reflexivity. Qed.

Lemma fileContents_von_mises (self : t) :
  fileContents self VON_MISES_FILETYPE
  = (fst (writeHeaderToFile self) ++ fst (writePointsToFile self)
       ++ fst (writePointDataToFile self),
     snd (writePointDataToFile self)).
Proof.
  unfold fileContents.
  change (String.eqb VON_MISES_FILETYPE VON_MISES_FILETYPE) with true.
  cbn [negb]. unfold writeHeaderToFile, writePointsToFile.
  rewrite !andThen_ok. cbn [fst snd]. now rewrite app_nil_l.
Qed.

Lemma fileContents_cells (self : t) (fileType : string) :
  String.eqb fileType VON_MISES_FILETYPE = false ->
  fileContents self fileType
  = andThen (writeHeaderToFile self)
      (andThen (writePointsToFile self)
         (andThen (writeCellsToFile self) (writePointDataToFile self))).
Proof. intros H. unfold fileContents. now rewrite H. Qed.

End WriterFacts.

(** C8, as stated, fails on a mesh with no cell, which is what a DAMAGE
    timestep with no zone converts to: the script writes the header and
    the points block, the cells block raises [IndexError] at [cells[0]],
    and the file has no cells block and no point-data block. *)
Lemma C8_no_cells_block_counterexample :
  converterScript (SO := insertionFixed4) (SYS := strictOS) 9 "input"
    DAMAGE_FILETYPE ExamplesScript.noZoneText ExamplesScript.emptyWorld
  = ({| fs :=
          {| VTKPolyData.dirs := ["./convertedinput"];
             VTKPolyData.files :=
               [("./convertedinput/input_T1_000003.vtk",
                 fst (VTKPolyData.writeHeaderToFile ExamplesScript.meshNoCells)
                 ++ fst (VTKPolyData.writePointsToFile
                           ExamplesScript.meshNoCells))] |};
        stdout := [] |},
     Raise IndexError)
  /\ VTKPolyData.fileContents ExamplesScript.meshNoCells DAMAGE_FILETYPE
     = (fst (VTKPolyData.writeHeaderToFile ExamplesScript.meshNoCells)
        ++ fst (VTKPolyData.writePointsToFile ExamplesScript.meshNoCells),
        Some IndexError)
  /\ existsb startsCells
       (fst (VTKPolyData.fileContents ExamplesScript.meshNoCells
               DAMAGE_FILETYPE))
     = false.
Proof. repeat split; vm_compute; reflexivity. Qed.

(** C8, amended. With the file type VON_MISES the file is the header, the
    points block and the point-data block, whatever the cells of the mesh
    are: nothing of the cells is written.  With any other file type and a
    mesh of at least one cell, the cells block, whose first line starts
    with LINES or POLYGONS, is written after the points block and before
    the point-data block. *)
Theorem C8_cells_block :
  forall (CF : Carrier) (FL : Float) (self : VTKPolyData.t),
    (forall cells' : list (list nat),
        VTKPolyData.fileContents (withCells self cells') VON_MISES_FILETYPE
        = (fst (VTKPolyData.writeHeaderToFile self)
             ++ fst (VTKPolyData.writePointsToFile self)
             ++ fst (VTKPolyData.writePointDataToFile self),
           snd (VTKPolyData.writePointDataToFile self)))
    /\ (forall fileType : string,
           fileType <> VON_MISES_FILETYPE ->
           VTKPolyData.cells self <> [] ->
           exists (line : string) (block : list string),
             VTKPolyData.writeCellsToFile self = (line :: block, None)
             /\ startsCells line = true
             /\ length block = length (VTKPolyData.cells self)
             /\ VTKPolyData.fileContents self fileType
                = (fst (VTKPolyData.writeHeaderToFile self)
                     ++ fst (VTKPolyData.writePointsToFile self)
                     ++ (line :: block)
                     ++ fst (VTKPolyData.writePointDataToFile self),
                   snd (VTKPolyData.writePointDataToFile self))).
Proof.
  intros CF FL self. split.
  - intros cells'. rewrite fileContents_von_mises. reflexivity.
  - intros fileType Hft Hcells.
    assert (Hneq : String.eqb fileType VON_MISES_FILETYPE = false)
      by (now apply String.eqb_neq).
    rewrite (fileContents_cells self fileType Hneq).
    unfold VTKPolyData.writeCellsToFile.
    destruct (VTKPolyData.cells self) as [|cell0 cells] eqn:E;
      [contradiction|].
    eexists. eexists. split; [reflexivity|]. split; [|split].
    + unfold startsCells, VTKPolyData.getCellType.
      destruct (Nat.eqb (length cell0) 2); simpl; reflexivity.
    + now rewrite length_map.
    + unfold VTKPolyData.writeHeaderToFile, VTKPolyData.writePointsToFile.
      rewrite !andThen_ok. cbn [fst snd]. reflexivity.
Qed.

(** C8 amended, on a mesh of one cell of two points written as a DAMAGE
    file: the line [LINES 1 3] and the line of the cell stand between the
    points and the point data. *)
Lemma C8_cells_block_witness :
  DAMAGE_FILETYPE <> VON_MISES_FILETYPE
  /\ VTKPolyData.cells ExamplesScript.meshLine <> []
  /\ exists (line : string) (block : list string),
       VTKPolyData.writeCellsToFile ExamplesScript.meshLine
       = (line :: block, None)
       /\ startsCells line = true
       /\ length block = length (VTKPolyData.cells ExamplesScript.meshLine)
       /\ VTKPolyData.fileContents ExamplesScript.meshLine DAMAGE_FILETYPE
          = (fst (VTKPolyData.writeHeaderToFile ExamplesScript.meshLine)
               ++ fst (VTKPolyData.writePointsToFile ExamplesScript.meshLine)
               ++ (line :: block)
               ++ fst (VTKPolyData.writePointDataToFile ExamplesScript.meshLine),
             snd (VTKPolyData.writePointDataToFile ExamplesScript.meshLine)).
Proof.
  assert (H1 : DAMAGE_FILETYPE <> VON_MISES_FILETYPE)
    by (vm_compute; discriminate).
  assert (H2 : VTKPolyData.cells ExamplesScript.meshLine <> [])
    by (vm_compute; discriminate).
  split; [exact H1|]. split; [exact H2|].
  exact (proj2 (C8_cells_block Fixed4.carrier Fixed4.float ExamplesScript.meshLine)
           DAMAGE_FILETYPE H1 H2).
Defined.

(** ** Dictionaries *)

Section DictFacts.
Variables (K V : Type) (eqb : K -> K -> bool).
Hypothesis eqb_spec : forall x y : K, eqb x y = true <-> x = y.

Lemma eqb_refl' (x : K) : eqb x x = true.
Proof. now apply eqb_spec. Qed.

Lemma eqb_neq' (x y : K) : x <> y -> eqb x y = false.
Proof.
  intros H. destruct (eqb x y) eqn:E; [|reflexivity].
  apply eqb_spec in E. contradiction.
Qed.

Lemma dict_get_set_eq (k : K) (v : V) (d : dict K V) :
  dict_get eqb k (dict_set eqb k v d) = Some v.
Proof.
  induction d as [|[k' v'] d IH]; simpl.
  - now rewrite eqb_refl'.
  - destruct (eqb k' k) eqn:E; simpl; rewrite E; [reflexivity|exact IH].
Qed.

Lemma dict_get_set_ne (k k' : K) (v : V) (d : dict K V) :
  k <> k' -> dict_get eqb k' (dict_set eqb k v d) = dict_get eqb k' d.
Proof.
  intros Hne. induction d as [|[k0 v0] d IH]; simpl.
  - now rewrite eqb_neq'.
  - destruct (eqb k0 k) eqn:E; simpl.
    + apply eqb_spec in E. subst k0. now rewrite eqb_neq'.
    + destruct (eqb k0 k'); [reflexivity|exact IH].
Qed.

Lemma dict_get_In (k : K) (d : dict K V) :
  dict_get eqb k d <> None <-> In k (dict_keys d).
Proof.
  induction d as [|[k0 v0] d IH]; simpl.
  - tauto.
  - destruct (eqb k0 k) eqn:E.
    + apply eqb_spec in E. split; [auto|discriminate].
    + rewrite IH. split; [auto|].
      intros [H|H]; [|exact H]. subst k0. now rewrite eqb_refl' in E.
Qed.

Lemma dict_get_not_In (k : K) (d : dict K V) :
  ~ In k (dict_keys d) -> dict_get eqb k d = None.
Proof.
  intros H. destruct (dict_get eqb k d) eqn:E; [|reflexivity].
  exfalso. apply H, dict_get_In. congruence.
Qed.

Lemma dict_keys_set (k : K) (v : V) (d : dict K V) :
  dict_keys (dict_set eqb k v d)
  = if existsb (fun k' => eqb k' k) (dict_keys d) then dict_keys d
    else dict_keys d ++ [k].
Proof.
  induction d as [|[k0 v0] d IH]; simpl; [reflexivity|].
  destruct (eqb k0 k) eqn:E; simpl; [reflexivity|].
  unfold dict_keys in *. rewrite IH.
  destruct (existsb _ _); reflexivity.
Qed.

(** Setting a key of the part [todo] leaves an earlier part without
    the key alone. *)
Lemma dict_set_app (k : K) (v : V) (done todo : dict K V) :
  ~ In k (dict_keys done) ->
  dict_set eqb k v (done ++ todo) = done ++ dict_set eqb k v todo.
Proof.
  induction done as [|[k0 v0] done IH]; simpl; intros H; [reflexivity|].
  rewrite eqb_neq' by tauto. now rewrite IH by tauto.
Qed.

Lemma dict_get_app (k : K) (done todo : dict K V) :
  ~ In k (dict_keys done) ->
  dict_get eqb k (done ++ todo) = dict_get eqb k todo.
Proof.
  induction done as [|[k0 v0] done IH]; simpl; intros H; [reflexivity|].
  rewrite eqb_neq' by tauto. now rewrite IH by tauto.
Qed.

End DictFacts.

Lemma Point_eqb_spec {CF : Carrier} {FL : Float} (p p' : Point) :
  Point_eqb p p' = true <-> p = p'.
Proof.
  unfold Point_eqb. destruct (Point_eq_dec p p'); split; congruence.
Qed.

(** ** Timestep: conversion *)

Section SetFacts.
Context {CF : Carrier} {FL : Float}.

Lemma existsb_Point_eqb (p : Point) (s : list Point) :
  existsb (Point_eqb p) s = true <-> In p s.
Proof.
  rewrite existsb_exists. split.
  - intros [q [Hq Heq]]. apply Point_eqb_spec in Heq. now subst q.
  - intros H. exists p. split; [exact H|]. now apply Point_eqb_spec.
Qed.

Lemma set_add_In (p q : Point) (s : list Point) :
  In q (set_add p s) <-> q = p \/ In q s.
Proof.
  unfold set_add. destruct (existsb (Point_eqb p) s) eqn:E.
  - apply existsb_Point_eqb in E. split; [auto|].
    intros [->|H]; assumption.
  - rewrite in_app_iff. simpl. intuition.
Qed.

Lemma set_add_NoDup (p : Point) (s : list Point) :
  NoDup s -> NoDup (set_add p s).
Proof.
  intros H. unfold set_add. destruct (existsb (Point_eqb p) s) eqn:E;
    [exact H|].
  assert (~ In p s) as Hn.
  { intros Hin. apply existsb_Point_eqb in Hin. congruence. }
  apply NoDup_app; [exact H|repeat constructor; auto|].
  intros x Hx [<-|[]]. contradiction.
Qed.

Lemma firstSeen_from (ps : list Point) :
  forall s : list Point,
    NoDup s ->
    NoDup (fold_left (fun s p => set_add p s) ps s)
    /\ forall q, In q (fold_left (fun s p => set_add p s) ps s)
                 <-> In q s \/ In q ps.
Proof.
  induction ps as [|p ps IH]; intros s Hs; simpl.
  - split; [exact Hs|]. intros q. tauto.
  - destruct (IH (set_add p s) (set_add_NoDup p s Hs)) as [Hn Hi].
    split; [exact Hn|]. intros q. rewrite Hi, set_add_In. intuition.
Qed.

Lemma firstSeen_NoDup (ps : list Point) : NoDup (firstSeen ps).
Proof. apply firstSeen_from. constructor. Qed.

Lemma firstSeen_In (ps : list Point) (q : Point) :
  In q (firstSeen ps) <-> In q ps.
Proof.
  unfold firstSeen. destruct (firstSeen_from ps [] (NoDup_nil _)) as [_ H].
  rewrite H. simpl. tauto.
Qed.

Lemma list_index_In (p : Point) (l : list Point) :
  In p l ->
  exists i, list_index p l = Some i /\ nth_error l i = Some p.
Proof.
  induction l as [|q l IH]; simpl; [tauto|]. intros H.
  destruct (Point_eqb q p) eqn:E.
  - apply Point_eqb_spec in E. subst q. exists 0%nat. split; reflexivity.
  - destruct H as [H|H].
    + subst q. assert (Point_eqb p p = true) by now apply Point_eqb_spec.
      congruence.
    + destruct (IH H) as [i [Hi Hn]]. exists (S i). rewrite Hi.
      split; [reflexivity|exact Hn].
Qed.

Lemma indexOf_nth (p : Point) (l : list Point) :
  In p l -> nth_error l (indexOf p l) = Some p.
Proof.
  intros H. destruct (list_index_In p l H) as [i [Hi Hn]].
  unfold indexOf. now rewrite Hi.
Qed.

End SetFacts.

Section ConversionFacts.
Context {CF : Carrier} {FL : Float}.
Import Timestep.

Lemma string_eqb_spec (x y : string) : String.eqb x y = true <-> x = y.
Proof. apply String.eqb_eq. Qed.

Lemma get_valueOf (key : string) (element : Zone.Element) :
  dict_get String.eqb key element <> None ->
  dict_get String.eqb key element = Some (valueOf key element).
Proof.
  unfold valueOf. destruct (dict_get String.eqb key element);
    [reflexivity|contradiction].
Qed.

(** The loop over the keys updates every field in place. *)
Lemma recordFields_todo (element : Zone.Element) (point : Point) :
  forall (todo done : dict string (dict Point F)),
    NoDup (dict_keys (done ++ todo)) ->
    (forall key, In key (dict_keys todo) ->
                 dict_get String.eqb key element <> None) ->
    recordFields (dict_keys todo) element point (done ++ todo)
    = Ok (done
            ++ map (fun '(key, field) =>
                      (key, dict_set Point_eqb point (valueOf key element) field))
                 todo).
Proof.
  induction todo as [|[key field] todo IH]; intros done Hnd Hkeys; simpl.
  - reflexivity.
  - unfold dict_keys in Hnd. rewrite map_app in Hnd. simpl in Hnd.
    pose proof (NoDup_remove_2 _ _ _ Hnd) as Hnot.
    assert (Hdone : ~ In key (dict_keys done)).
    { intros H. apply Hnot, in_or_app. left. exact H. }
    rewrite (get_valueOf key element) by (apply Hkeys; simpl; auto).
    cbn [of_option bind].
    rewrite (dict_get_app _ _ String.eqb string_eqb_spec key done _ Hdone).
    simpl. rewrite String.eqb_refl. cbn [of_option bind].
    rewrite (dict_set_app _ _ String.eqb string_eqb_spec key _ done _ Hdone).
    simpl. rewrite String.eqb_refl.
    change (done ++ (key, dict_set Point_eqb point (valueOf key element) field)
              :: todo)
      with (done ++ [(key, dict_set Point_eqb point (valueOf key element) field)]
              ++ todo).
    rewrite app_assoc. rewrite IH.
    + now rewrite <- app_assoc.
    + unfold dict_keys. rewrite <- app_assoc, map_app. exact Hnd.
    + intros k Hk. apply Hkeys. simpl. auto.
Qed.

Lemma recordFields_all (element : Zone.Element) (point : Point)
      (fields : dict string (dict Point F)) :
  NoDup (dict_keys fields) ->
  (forall key, In key (dict_keys fields) ->
               dict_get String.eqb key element <> None) ->
  recordFields (dict_keys fields) element point fields
  = Ok (map (fun '(key, field) =>
               (key, dict_set Point_eqb point (valueOf key element) field))
          fields).
Proof.
  intros Hnd Hkeys.
  exact (recordFields_todo element point fields [] Hnd Hkeys).
Qed.

Lemma keys_recordElement (element : Zone.Element)
      (fields : dict string (dict Point F)) :
  dict_keys (recordElement element fields) = dict_keys fields.
Proof.
  unfold recordElement, dict_keys. rewrite map_map.
  apply map_ext. intros [key field]. reflexivity.
Qed.

Lemma keys_after (es : list Zone.Element) (ms : MeshState) :
  dict_keys (fields (after es ms)) = dict_keys (fields ms).
Proof.
  unfold after, dict_keys. simpl. rewrite map_map.
  apply map_ext. intros [key field]. reflexivity.
Qed.

Lemma after_cons (element : Zone.Element) (es : list Zone.Element)
      (ms : MeshState) :
  after (element :: es) ms = after es (after [element] ms).
Proof.
  unfold after. simpl. f_equal. rewrite map_map.
  apply map_ext. intros [key field]. reflexivity.
Qed.

Lemma after_app (es1 es2 : list Zone.Element) :
  forall ms : MeshState, after (es1 ++ es2) ms = after es2 (after es1 ms).
Proof.
  induction es1 as [|e es1 IH]; intros ms; simpl.
  - f_equal. unfold after. destruct ms as [fs tp tc]. simpl. f_equal.
    rewrite <- (map_id fs) at 1. apply map_ext. intros [key field].
    reflexivity.
  - rewrite after_cons, IH, <- after_cons. reflexivity.
Qed.

Lemma addElement_ok (ms : MeshState) (cell : list Point)
      (element : Zone.Element) :
  NoDup (dict_keys (fields ms)) ->
  hasKeys (fields ms) element ->
  addElement (Ok (ms, cell)) element
  = Ok (after [element] ms, cell ++ [pointOf element]).
Proof.
  intros Hnd [HX [HY Hkeys]]. unfold addElement. cbn [bind].
  rewrite (get_valueOf "X" element HX), (get_valueOf "Y" element HY).
  cbn [of_option bind].
  rewrite (recordFields_all element _ (fields ms) Hnd Hkeys).
  cbn [bind]. reflexivity.
Qed.

Lemma addElements_ok (es : list Zone.Element) :
  forall (ms : MeshState) (cell : list Point),
    NoDup (dict_keys (fields ms)) ->
    Forall (hasKeys (fields ms)) es ->
    fold_left addElement es (Ok (ms, cell))
    = Ok (after es ms, cell ++ map pointOf es).
Proof.
  induction es as [|e es IH]; intros ms cell Hnd Hall.
  - simpl. rewrite app_nil_r. f_equal. f_equal.
    destruct ms as [fs tp tc]. unfold after. simpl. f_equal.
    rewrite <- (map_id fs) at 1. apply map_ext. intros [key field].
    reflexivity.
  - inversion Hall as [|e' es' He Hes]; subst.
    cbn [fold_left]. rewrite (addElement_ok ms cell e Hnd He).
    rewrite IH.
    + rewrite <- after_cons, <- app_assoc. reflexivity.
    + now rewrite keys_after.
    + eapply Forall_impl; [|exact Hes].
      intros a [HX [HY Hk]]. repeat split; try assumption.
      intros key Hkey. apply Hk. now rewrite keys_after in Hkey.
Qed.

Lemma fold_rows (rows : list (list Zone.Element)) :
  forall st : result (MeshState * list Point),
    fold_left (fun st' row => fold_left addElement row st') rows st
    = fold_left addElement (concat rows) st.
Proof.
  induction rows as [|row rows IH]; intros st; simpl; [reflexivity|].
  now rewrite fold_left_app, IH.
Qed.

(** The state with the cells [cs] added. *)
Lemma addZoneCell_ok (ms : MeshState) (zone : Zone.t) :
  NoDup (dict_keys (fields ms)) ->
  Forall (hasKeys (fields ms)) (zoneElements zone) ->
  addZoneCell (Ok ms) zone
  = Ok {| fields := fields (after (zoneElements zone) ms);
          tempPoints := tempPoints (after (zoneElements zone) ms);
          tempCells := tempCells ms ++ [map pointOf (zoneElements zone)] |}.
Proof.
  intros Hnd Hall. unfold addZoneCell. cbn [bind].
  rewrite fold_rows. fold (zoneElements zone).
  rewrite (addElements_ok _ ms [] Hnd Hall). cbn [bind]. reflexivity.
Qed.

Lemma addZoneCells_ok (zs : list Zone.t) :
  forall ms : MeshState,
    NoDup (dict_keys (fields ms)) ->
    Forall (hasKeys (fields ms)) (concat (map zoneElements zs)) ->
    fold_left addZoneCell zs (Ok ms)
    = Ok {| fields := fields (after (concat (map zoneElements zs)) ms);
            tempPoints := tempPoints (after (concat (map zoneElements zs)) ms);
            tempCells :=
              tempCells ms
              ++ map (fun zone => map pointOf (zoneElements zone)) zs |}.
Proof.
  induction zs as [|z zs IH]; intros ms Hnd Hall.
  - simpl. rewrite app_nil_r. f_equal. destruct ms as [fs tp tc].
    unfold after. simpl. f_equal.
    rewrite <- (map_id fs) at 1. apply map_ext. intros [key field].
    reflexivity.
  - simpl in Hall. apply Forall_app in Hall. destruct Hall as [Hz Hzs].
    cbn [fold_left]. rewrite (addZoneCell_ok ms z Hnd Hz).
    rewrite IH.
    + cbn [fields tempPoints tempCells map concat].
      rewrite after_app. rewrite <- app_assoc. reflexivity.
    + cbn [fields]. now rewrite (keys_after (zoneElements z) ms).
    + cbn [fields]. eapply Forall_impl; [|exact Hzs].
      intros a [HX [HY Hk]]. repeat split; try assumption.
      intros key Hkey. apply Hk.
      now rewrite (keys_after (zoneElements z) ms) in Hkey.
Qed.

End ConversionFacts.

Section ConvertFacts.
Context {CF : Carrier} {FL : Float} {SO : SetOrder Point}.
Import Timestep.

(** The fields the conversion starts from: the declared variables but
    X and Y, once each, with no value yet. *)
Lemma initFields_from (vs : list string) :
  forall fs : dict string (dict Point F),
    NoDup (dict_keys fs) ->
    Forall (fun kv => snd kv = []) fs ->
    let fs' :=
      fold_left
        (fun fields variable =>
           if negb (String.eqb variable "X") && negb (String.eqb variable "Y")
           then dict_set String.eqb variable [] fields
           else fields) vs fs in
    NoDup (dict_keys fs')
    /\ Forall (fun kv => snd kv = []) fs'
    /\ forall key,
         In key (dict_keys fs')
         <-> In key (dict_keys fs)
             \/ (In key vs /\ key <> "X" /\ key <> "Y")%string.
Proof.
  induction vs as [|v vs IH]; intros fs Hnd Hall; simpl.
  - repeat split; try assumption; tauto.
  - destruct (String.eqb_spec v "X") as [HX|HX]; simpl.
    { destruct (IH fs Hnd Hall) as [H1 [H2 H3]]. repeat split; try assumption.
      - intros H. apply H3 in H. intuition.
      - intros H. apply H3. intuition congruence. }
    destruct (String.eqb_spec v "Y") as [HY|HY]; simpl.
    { destruct (IH fs Hnd Hall) as [H1 [H2 H3]]. repeat split; try assumption.
      - intros H. apply H3 in H. intuition.
      - intros H. apply H3. intuition congruence. }
    assert (Hkeys : forall key,
               In key (dict_keys (dict_set String.eqb v [] fs))
               <-> key = v \/ In key (dict_keys fs)).
    { intros key. rewrite dict_keys_set.
      match goal with
      | |- context [existsb ?f ?l] => destruct (existsb f l) eqn:E
      end.
      - apply existsb_exists in E. destruct E as [k [Hk Hkv]].
        apply String.eqb_eq in Hkv. subst k. split; [auto|].
      intros [->|H]; assumption.
      - rewrite in_app_iff. simpl. intuition. }
    destruct (IH (dict_set String.eqb v [] fs)) as [H1 [H2 H3]].
    + rewrite dict_keys_set.
      match goal with
      | |- context [existsb ?f ?l] => destruct (existsb f l) eqn:E
      end; [exact Hnd|].
      apply NoDup_app; [exact Hnd|repeat constructor; auto|].
      intros x Hx [<-|[]].
      enough (Ht : true = false) by discriminate.
      rewrite <- E. symmetry. apply existsb_exists. exists v.
      split; [exact Hx|apply String.eqb_refl].
    + clear - Hall. induction fs as [|[k f] fs IHf]; simpl.
      * repeat constructor.
      * inversion Hall; subst. destruct (String.eqb k v); constructor; auto.
    + repeat split; try assumption.
      * intros H. apply H3 in H. rewrite Hkeys in H. intuition.
        subst key. intuition.
      * intros H. apply H3. rewrite Hkeys. intuition.
Qed.

Lemma initFields_spec (self : t) :
  NoDup (dict_keys (initFields self))
  /\ Forall (fun kv => snd kv = []) (initFields self)
  /\ forall key,
       In key (dict_keys (initFields self))
       <-> (In key (variables self) /\ key <> "X" /\ key <> "Y")%string.
Proof.
  destruct (initFields_from (variables self) [] (NoDup_nil _) (Forall_nil _))
    as [H1 [H2 H3]].
  split; [exact H1|]. split; [exact H2|].
  intros key. split.
  - intros H. apply H3 in H. simpl in H. tauto.
  - intros H. apply H3. tauto.
Qed.

Lemma indexCell_ok (points : list Point) (cell : list Point) :
  (forall p, In p cell -> In p points) ->
  indexCell points cell = Ok (map (fun p => indexOf p points) cell).
Proof.
  induction cell as [|p cell IH]; intros H; simpl; [reflexivity|].
  destruct (list_index_In p points (H p (or_introl eq_refl))) as [i [Hi _]].
  unfold indexOf at 1. rewrite Hi. cbn [of_option bind].
  rewrite IH by (intros q Hq; apply H; now right). reflexivity.
Qed.

Lemma indexCells_ok (points : list Point) (cells : list (list Point)) :
  (forall cell p, In cell cells -> In p cell -> In p points) ->
  indexCells points cells
  = Ok (map (map (fun p => indexOf p points)) cells).
Proof.
  induction cells as [|cell cells IH]; intros H; simpl; [reflexivity|].
  rewrite indexCell_ok by (intros p Hp; eapply H; [left; reflexivity|exact Hp]).
  cbn [bind].
  rewrite IH by (intros c p Hc Hp; eapply H; [right; exact Hc|exact Hp]).
  reflexivity.
Qed.

Lemma fold_left_map' {A B C : Type} (f : A -> C -> A) (g : B -> C)
      (l : list B) :
  forall a, fold_left f (map g l) a = fold_left (fun a x => f a (g x)) l a.
Proof. induction l as [|x l IH]; intros a; simpl; [reflexivity|apply IH]. Qed.

Lemma set_iter_In (l : list Point) (p : Point) :
  In p (set_iter l) <-> In p l.
Proof.
  split; apply Permutation_in;
    [apply set_iter_perm|apply Permutation_sym, set_iter_perm].
Qed.

(** The conversion of a complete timestep returns, and returns the mesh
    [meshOf]. *)
Lemma convert_complete (self : t) :
  complete self -> convertToVTKPolyData self = Ok (meshOf self).
Proof.
  intros Hc. unfold convertToVTKPolyData.
  destruct (initFields_spec self) as [Hnd [Hempty Hkeys]].
  rewrite addZoneCells_ok.
  - cbn [bind fields tempPoints tempCells app].
    fold (elements self). unfold after. cbn [fields tempPoints tempCells].
    assert (Hpts : fold_left (fun s element => set_add (pointOf element) s)
                     (elements self) []
                   = firstSeen (map pointOf (elements self))).
    { unfold firstSeen. now rewrite fold_left_map'. }
    rewrite Hpts. rewrite indexCells_ok.
    + cbn [bind]. unfold meshOf. f_equal. f_equal.
      * rewrite map_map. apply map_ext. intros zone.
        now rewrite map_map.
      * unfold dict_keys. rewrite map_map.
        clear - Hempty. induction (initFields self) as [|[k f] fs IH];
          simpl; [reflexivity|].
        inversion Hempty as [|? ? Hf Hfs]; subst. simpl in Hf. subst f.
        f_equal. now apply IH.
    + intros cell p Hcell Hp. apply set_iter_In, firstSeen_In.
      apply in_map_iff in Hcell. destruct Hcell as [zone [<- Hz]].
      apply in_map_iff in Hp. destruct Hp as [e [<- He]].
      apply in_map. unfold elements. apply in_concat.
      exists (zoneElements zone). split; [now apply in_map|exact He].
  - exact Hnd.
  - apply Forall_forall. intros e He. destruct (Hc e He) as [HX [HY Hv]].
    repeat split; try assumption.
    intros key Hkey. apply Hv. cbn [fields] in Hkey.
    now apply Hkeys in Hkey.
Qed.

(** The value a field keeps for a point is the one of the last element
    at that point. *)
Lemma fieldAfter_last (key : string) (pre post : list Zone.Element)
      (element : Zone.Element) (field : dict Point F) :
  (forall e, In e post -> pointOf e <> pointOf element) ->
  dict_get Point_eqb (pointOf element)
    (fieldAfter key (pre ++ element :: post) field)
  = Some (valueOf key element).
Proof.
  intros Hpost. unfold fieldAfter. rewrite fold_left_app. simpl.
  set (field' := dict_set Point_eqb (pointOf element) (valueOf key element)
                   (fold_left _ pre field)).
  assert (H0 : dict_get Point_eqb (pointOf element) field'
               = Some (valueOf key element))
    by (apply dict_get_set_eq; apply Point_eqb_spec).
  clearbody field'. revert field' H0.
  induction post as [|e post IH]; intros field' H0; simpl; [exact H0|].
  apply IH.
  - intros e' He'. apply Hpost. now right.
  - rewrite dict_get_set_ne; [exact H0|apply Point_eqb_spec|].
    apply Hpost. now left.
Qed.

(** A point seen in the traversal has a last element. *)
Lemma last_occurrence (p : Point) (es : list Zone.Element) :
  In p (map pointOf es) ->
  exists pre element post,
    es = pre ++ element :: post
    /\ pointOf element = p
    /\ forall e, In e post -> pointOf e <> p.
Proof.
  induction es as [|e es IH]; simpl; [tauto|]. intros H.
  destruct (in_dec Point_eq_dec p (map pointOf es)) as [Hin|Hnot].
  - destruct (IH Hin) as [pre [el [post [Hes [Hp Hpost]]]]].
    exists (e :: pre), el, post. subst es. repeat split; assumption.
  - destruct H as [H|H]; [|contradiction].
    exists [], e, es. repeat split; try assumption.
    intros e' He' Heq. apply Hnot. rewrite <- Heq. now apply in_map.
Qed.

End ConvertFacts.

Section CompleteFacts.
Context {CF : Carrier} {FL : Float}.

Lemma isSome_true {A : Type} (o : option A) : isSome o = true -> o <> None.
Proof. destruct o; [discriminate|discriminate]. Qed.

Lemma completeb_complete (timestep : Timestep.t) :
  completeb timestep = true -> complete timestep.
Proof.
  unfold completeb, complete. intros H element He.
  rewrite forallb_forall in H. specialize (H element He).
  apply andb_true_iff in H. destruct H as [H HV].
  apply andb_true_iff in H. destruct H as [HX HY].
  repeat split; try now apply isSome_true.
  intros v Hv. rewrite forallb_forall in HV. now apply isSome_true, HV.
Qed.

Lemma Forall2_map_r {A B : Type} (R : A -> B -> Prop) (f : A -> B)
      (l : list A) :
  (forall x, In x l -> R x (f x)) -> Forall2 R l (map f l).
Proof.
  induction l as [|x l IH]; intros H; simpl; constructor.
  - apply H. now left.
  - apply IH. intros y Hy. apply H. now right.
Qed.

Lemma dict_get_map_keys {V : Type} (g : string -> V) (keys : list string)
      (key : string) :
  In key keys ->
  dict_get String.eqb key (map (fun k => (k, g k)) keys) = Some (g key).
Proof.
  induction keys as [|k keys IH]; simpl; [tauto|]. intros H.
  destruct (String.eqb_spec k key) as [->|Hne]; [reflexivity|].
  apply IH. destruct H; [contradiction|assumption].
Qed.

Lemma in_elements (timestep : Timestep.t) (zone : Zone.t)
      (element : Zone.Element) :
  In zone (Timestep.zones timestep) ->
  In element (zoneElements zone) ->
  In element (elements timestep).
Proof.
  intros Hz He. unfold elements. apply in_concat.
  exists (zoneElements zone). split; [now apply in_map|exact He].
Qed.

End CompleteFacts.

(** ** What is read is complete *)

Section ParsedFacts.
Context {CF : Carrier} {FL : Float}.

Lemma readElementFrom_keys (pos : nat) (numbers : list string) (j : nat) :
  forall (variables : list string) (k : nat) (element element' : Zone.Element),
    Zone.readElementFrom pos variables numbers j k element = Ok element' ->
    (forall key, dict_get String.eqb key element <> None ->
                 dict_get String.eqb key element' <> None)
    /\ hasVariables variables element'.
Proof.
  induction variables as [|v vs IH]; intros k element element' H; simpl in H.
  - injection H as <-. split; [auto|]. intros x [].
  - apply bind_Ok in H. destruct H as [token [_ H]].
    apply bind_Ok in H. destruct H as [value [_ H]].
    destruct (IH _ _ _ H) as [Hkeep Hvs]. split.
    + intros key Hkey. apply Hkeep.
      destruct (String.eqb_spec v key) as [->|Hne].
      * rewrite (dict_get_set_eq _ _ String.eqb string_eqb_spec). discriminate.
      * now rewrite (dict_get_set_ne _ _ String.eqb string_eqb_spec v key _ _ Hne).
    + intros x [<-|Hx]; [|now apply Hvs].
      apply Hkeep.
      rewrite (dict_get_set_eq _ _ String.eqb string_eqb_spec). discriminate.
Qed.

Lemma readRowFrom_keys (pos : nat) (variables numbers : list string) :
  forall (n j : nat) (row row' : list Zone.Element),
    Zone.readRowFrom pos n variables numbers j row = Ok row' ->
    Forall (hasVariables variables) row ->
    Forall (hasVariables variables) row'.
Proof.
  induction n as [|n IH]; intros j row row' H Hrow; simpl in H.
  - now injection H as <-.
  - apply bind_Ok in H. destruct H as [element [He H]].
    apply (IH _ _ _ H). apply Forall_app. split; [exact Hrow|].
    constructor; [|constructor].
    now apply (readElementFrom_keys pos numbers j variables 0 [] element).
Qed.

Lemma readRows_keys (variables : list string) :
  forall (fuel : nat) (self self' : Zone.t) (i : Z) (lr lr' : LineReader.t),
    Zone.readRows fuel self variables i lr = Ok (self', lr') ->
    tableOk variables self -> tableOk variables self'.
Proof.
  induction fuel as [|fuel IH]; intros self self' i lr lr' H Hok; simpl in H;
    [discriminate|].
  destruct (Zone.nextRowAvailable self i lr) as [available lr1].
  destruct available.
  - destruct (LineReader.getNextNotEmptyLine lr1) as [line lr2].
    apply bind_Ok in H. destruct H as [row [Hrow H]].
    apply (IH _ _ _ _ _ H). unfold tableOk, Zone.addRow. simpl.
    apply Forall_app. split; [exact Hok|]. constructor; [|constructor].
    unfold Zone.readRow in Hrow.
    apply (readRowFrom_keys _ _ _ _ _ _ _ Hrow). constructor.
  - now injection H as <- _.
Qed.

Lemma readFromFile_zone_keys (variables : list string) (fuel : nat)
      (zone : Zone.t) (lr lr' : LineReader.t) :
  Zone.readFromFile fuel Zone.init variables lr = Ok (zone, lr') ->
  tableOk variables zone.
Proof.
  unfold Zone.readFromFile. intros H.
  destruct (LineReader.getNextNotEmptyLine lr) as [line lr1].
  apply bind_Ok in H. destruct H as [self1 [H1 H]].
  apply (readRows_keys _ _ _ _ _ _ _ H).
  assert (Ht : Zone.table self1 = []).
  { destruct (Re.matched (Re.search ZONE_FULL_HEADER_REGEXP _)).
    - unfold Zone.readFullHeader in H1.
      repeat (apply bind_Ok in H1; destruct H1 as [? [_ H1]]).
      now injection H1 as <-.
    - destruct (Re.matched (Re.search ZONE_PARTIAL_HEADER_REGEXP _)).
      + unfold Zone.readPartialHeader in H1.
        repeat (apply bind_Ok in H1; destruct H1 as [? [_ H1]]).
        now injection H1 as <-.
      + now injection H1 as <-. }
  unfold tableOk. rewrite Ht. constructor.
Qed.

Lemma readZones_keys :
  forall (fuel : nat) (self self' : Timestep.t) (lr lr' : LineReader.t),
    Timestep.readZones fuel self lr = Ok (self', lr') ->
    Timestep.variables self' = Timestep.variables self
    /\ (Forall (tableOk (Timestep.variables self)) (Timestep.zones self) ->
        Forall (tableOk (Timestep.variables self)) (Timestep.zones self')).
Proof.
  induction fuel as [|fuel IH]; intros self self' lr lr' H; simpl in H;
    [discriminate|].
  destruct (LineReader.nextLineMatches lr ZONE_REGEXP) as [b lr1].
  destruct b.
  - apply bind_Ok in H. destruct H as [[zone lr2] [Hz H]].
    destruct (IH _ _ _ _ H) as [Hv Hzs]. simpl in Hv, Hzs.
    split; [exact Hv|]. intros Hok. apply Hzs.
    apply Forall_app. split; [exact Hok|]. constructor; [|constructor].
    now apply (readFromFile_zone_keys _ _ _ _ _ Hz).
  - injection H as <- _. split; [reflexivity|auto].
Qed.

(** A timestep that was read and declares X and Y is complete. *)
Lemma readFromFile_complete (fuel : nat) (lr lr' : LineReader.t)
      (fileType : string) (timestep : Timestep.t) :
  Timestep.readFromFile fuel Timestep.init lr fileType = Ok (timestep, lr') ->
  In "X"%string (Timestep.variables timestep) ->
  In "Y"%string (Timestep.variables timestep) ->
  complete timestep.
Proof.
  unfold Timestep.readFromFile. intros H HX HY.
  destruct (LineReader.getNextNotEmptyLine _) as [line1 lr1] in H.
  apply bind_Ok in H. destruct H as [title' [_ H]].
  destruct (LineReader.getNextNotEmptyLine lr1) as [line2 lr2] in H.
  apply bind_Ok in H. destruct H as [text [_ H]].
  apply bind_Ok in H. destruct H as [[self3 lr3] [Hzones H]].
  destruct (readZones_keys _ _ _ _ _ Hzones) as [Hv Hok].
  rewrite zones_addVariables in Hok. simpl in Hok.
  specialize (Hok (Forall_nil _)). rewrite <- Hv in Hok.
  assert (Hts : Timestep.variables timestep = Timestep.variables self3
                /\ Timestep.zones timestep = Timestep.zones self3).
  { destruct (String.eqb fileType CRACK_FILETYPE).
    - apply bind_Ok in H. destruct H as [zone0 [_ H]].
      injection H as <- _. split; reflexivity.
    - destruct (LineReader.getNextNotEmptyLine lr3) as [line4 lr4].
      apply bind_Ok in H. destruct H as [text' [_ H]].
      apply bind_Ok in H. destruct H as [time' [_ H]].
      injection H as <- _. split; reflexivity. }
  destruct Hts as [Hvars Hzs]. rewrite <- Hvars, <- Hzs in Hok.
  intros element He. unfold elements in He. apply in_concat in He.
  destruct He as [es [Hes He]]. apply in_map_iff in Hes.
  destruct Hes as [zone [<- Hzone]].
  rewrite Forall_forall in Hok. specialize (Hok zone Hzone).
  unfold tableOk in Hok. unfold zoneElements in He. apply in_concat in He.
  destruct He as [row [Hrow He]].
  rewrite Forall_forall in Hok. specialize (Hok row Hrow).
  rewrite Forall_forall in Hok. specialize (Hok element He).
  split; [now apply Hok|]. split; [now apply Hok|exact Hok].
Qed.

End ParsedFacts.

(** C3, as stated, fails: the points of the mesh come out in the order in
    which the set of points is iterated, and Python does not make that
    the order of the insertions.  For the timestep read from a file with
    the points (0, 0) and (1, 0), in this order, and a set that is
    visited in the opposite order, the mesh lists (1, 0, 0) first, so the
    point at index 0 is not the first distinct triple of the traversal;
    the cell is [1, 0]. *)
Lemma C3_first_seen_order_counterexample :
  Timestep.readFromFile 9 Timestep.init
    (LineReader.init (LineReader.lines ExamplesMesh.twoPointsText))
    DAMAGE_FILETYPE
  = Ok (ExamplesMesh.twoPoints,
        consume 6 (LineReader.init (LineReader.lines ExamplesMesh.twoPointsText)))
  /\ firstSeen (map pointOf (elements ExamplesMesh.twoPoints))
     = [(0, 0, 0); (10000, 0, 0)]%Z
  /\ exists mesh,
       Timestep.convertToVTKPolyData (SO := reverseFixed4)
         ExamplesMesh.twoPoints = Ok mesh
       /\ VTKPolyData.points mesh = [(10000, 0, 0); (0, 0, 0)]%Z
       /\ VTKPolyData.cells mesh = [[1; 0]]%nat
       /\ nth_error (VTKPolyData.points mesh) 0
          <> nth_error (firstSeen (map pointOf (elements ExamplesMesh.twoPoints)))
               0.
Proof.
  split; [vm_compute; reflexivity|]. split; [vm_compute; reflexivity|].
  eexists. split; [vm_compute; reflexivity|].
  split; [reflexivity|]. split; [reflexivity|].
  vm_compute. discriminate.
Qed.

(** C3, amended. For every timestep whose elements have their X, their Y
    and every declared variable (by [readFromFile_complete], every
    timestep that was read and declares X and Y), the conversion returns
    a mesh whose
    points are the distinct (X, Y, 0.0) triples of the traversal, each
    once, in the order in which the set is iterated: a rearrangement of
    the first-seen order.  There is one cell for each zone, with one
    index for each element of the zone in the order of the traversal, and
    the index refers to the point of that element under the order of the
    mesh. *)
Theorem C3_points_and_cells :
  forall (CF : Carrier) (FL : Float) (SO : SetOrder Point) (timestep : Timestep.t),
    complete timestep ->
    exists mesh,
      Timestep.convertToVTKPolyData timestep = Ok mesh
      /\ NoDup (VTKPolyData.points mesh)
      /\ Permutation (VTKPolyData.points mesh)
           (firstSeen (map pointOf (elements timestep)))
      /\ (forall p, In p (VTKPolyData.points mesh)
                    <-> In p (map pointOf (elements timestep)))
      /\ Forall2
           (fun zone cell =>
              Forall2
                (fun element i =>
                   nth_error (VTKPolyData.points mesh) i
                   = Some (pointOf element))
                (zoneElements zone) cell)
           (Timestep.zones timestep) (VTKPolyData.cells mesh).
Proof.
  intros CF FL SO timestep Hc. exists (meshOf timestep).
  split; [now apply convert_complete|].
  assert (Hperm : Permutation (VTKPolyData.points (meshOf timestep))
                    (firstSeen (map pointOf (elements timestep))))
    by apply set_iter_perm.
  assert (Hin : forall p, In p (VTKPolyData.points (meshOf timestep))
                          <-> In p (map pointOf (elements timestep))).
  { intros p. simpl. now rewrite set_iter_In, firstSeen_In. }
  split; [|split; [exact Hperm|split; [exact Hin|]]].
  - eapply Permutation_NoDup; [apply Permutation_sym, Hperm|].
    apply firstSeen_NoDup.
  - unfold meshOf at 2. cbn [VTKPolyData.cells].
    apply Forall2_map_r. intros zone Hz.
    apply Forall2_map_r. intros element He.
    apply indexOf_nth. apply Hin. apply in_map.
    now apply (in_elements timestep zone).
Qed.

(** C3 amended, on the timestep with the points (0, 0) and (1, 0) and the
    set visited in the opposite order of the insertions. *)
Lemma C3_points_and_cells_witness :
  complete ExamplesMesh.twoPoints
  /\ exists mesh,
       Timestep.convertToVTKPolyData (SO := reverseFixed4)
         ExamplesMesh.twoPoints = Ok mesh
       /\ NoDup (VTKPolyData.points mesh)
       /\ Permutation (VTKPolyData.points mesh)
            (firstSeen (map pointOf (elements ExamplesMesh.twoPoints)))
       /\ (forall p, In p (VTKPolyData.points mesh)
                     <-> In p (map pointOf (elements ExamplesMesh.twoPoints)))
       /\ Forall2
            (fun zone cell =>
               Forall2
                 (fun element i =>
                    nth_error (VTKPolyData.points mesh) i
                    = Some (pointOf element))
                 (zoneElements zone) cell)
            (Timestep.zones ExamplesMesh.twoPoints) (VTKPolyData.cells mesh).
Proof.
  assert (H : complete ExamplesMesh.twoPoints)
    by (apply completeb_complete; vm_compute; reflexivity).
  split; [exact H|].
  exact (C3_points_and_cells Fixed4.carrier Fixed4.float reverseFixed4
           ExamplesMesh.twoPoints H).
Defined.

(** C4, as stated, fails on coordinates that are NaN.  [float] accepts
    the text [nan] and gives a new object at every call, a NaN is equal
    to nothing but itself, and the set of points compares its members
    with [is] or [==].  For the timestep read from a file whose two data
    lines are both [nan 0.0 1.5], the two elements print the same
    coordinates and the same value of S, and yet the mesh has two points
    and the cell has two different entries. *)
Lemma C4_nan_read_twice_counterexample :
  Timestep.readFromFile (FL := Fixed4Nan.float) 9 Timestep.init
    (LineReader.init (LineReader.lines ExamplesNan.nanText))
    DAMAGE_FILETYPE
  = Ok (ExamplesNan.nanTimestep,
        consume 6 (LineReader.init (LineReader.lines ExamplesNan.nanText)))
  /\ map ExamplesNan.printed (elements ExamplesNan.nanTimestep)
     = [[("X", "nan"); ("Y", "0.0"); ("S", "1.5")];
        [("X", "nan"); ("Y", "0.0"); ("S", "1.5")]]
  /\ map (pointOf (FL := Fixed4Nan.float)) (elements ExamplesNan.nanTimestep)
     = [ExamplesNan.firstPoint; ExamplesNan.secondPoint]
  /\ ExamplesNan.firstPoint <> ExamplesNan.secondPoint
  /\ exists mesh,
       Timestep.convertToVTKPolyData (FL := Fixed4Nan.float)
         (SO := reverseOrder (@Point Fixed4Nan.carrier))
         ExamplesNan.nanTimestep = Ok mesh
       /\ VTKPolyData.points mesh
          = [ExamplesNan.secondPoint; ExamplesNan.firstPoint]
       /\ VTKPolyData.cells mesh = [[1; 0]]%nat.
Proof.
  split; [vm_compute; reflexivity|]. split; [vm_compute; reflexivity|].
  split; [vm_compute; reflexivity|]. split; [discriminate|].
  eexists. split; [vm_compute; reflexivity|].
  split; reflexivity.
Qed.

(** C4, amended. For every timestep whose elements have their X, their Y
    and every declared variable, and every point of the traversal,
    however many elements have its coordinates: the mesh has that point
    exactly once, and the entries of the cells that come from those
    elements are all the index of that point.  Two elements have the same
    coordinates when their points are equal as the members of a set are,
    each coordinate being the same object or equal under [==]: the NaN
    of one call of [float] is not the NaN of another. *)
Theorem C4_one_point_one_index :
  forall (CF : Carrier) (FL : Float) (SO : SetOrder Point) (timestep : Timestep.t)
         (p : Point),
    complete timestep ->
    In p (map pointOf (elements timestep)) ->
    exists mesh i,
      Timestep.convertToVTKPolyData timestep = Ok mesh
      /\ count_occ Point_eq_dec (VTKPolyData.points mesh) p = 1
      /\ nth_error (VTKPolyData.points mesh) i = Some p
      /\ forall (zi ei : nat) (zone : Zone.t) (element : Zone.Element),
           nth_error (Timestep.zones timestep) zi = Some zone ->
           nth_error (zoneElements zone) ei = Some element ->
           pointOf element = p ->
           exists cell,
             nth_error (VTKPolyData.cells mesh) zi = Some cell
             /\ nth_error cell ei = Some i.
Proof.
  intros CF FL SO timestep p Hc Hp.
  exists (meshOf timestep), (indexOf p (VTKPolyData.points (meshOf timestep))).
  assert (Hin : In p (VTKPolyData.points (meshOf timestep))).
  { simpl. now rewrite set_iter_In, firstSeen_In. }
  split; [now apply convert_complete|]. split; [|split].
  - apply NoDup_count_occ'; [|exact Hin].
    eapply Permutation_NoDup;
      [apply Permutation_sym, set_iter_perm|apply firstSeen_NoDup].
  - now apply indexOf_nth.
  - intros zi ei zone element Hz He Hpt.
    eexists. split.
    + unfold meshOf at 1. cbn [VTKPolyData.cells].
      rewrite nth_error_map, Hz. reflexivity.
    + rewrite nth_error_map, He. simpl. now rewrite Hpt.
Qed.

(** C4, on the timestep of two zones that share the point (1, 0): the
    second element of the first zone and the first element of the second
    zone have the same entry. *)
Lemma C4_one_point_one_index_witness :
  complete ExamplesMesh.sharedPoint
  /\ In (10000, 0, 0)%Z (map pointOf (elements ExamplesMesh.sharedPoint))
  /\ exists mesh i,
       Timestep.convertToVTKPolyData (SO := reverseFixed4)
         ExamplesMesh.sharedPoint = Ok mesh
       /\ count_occ Point_eq_dec (VTKPolyData.points mesh) (10000, 0, 0)%Z = 1
       /\ nth_error (VTKPolyData.points mesh) i = Some (10000, 0, 0)%Z
       /\ forall (zi ei : nat) (zone : Zone.t) (element : Zone.Element),
            nth_error (Timestep.zones ExamplesMesh.sharedPoint) zi = Some zone ->
            nth_error (zoneElements zone) ei = Some element ->
            pointOf element = (10000, 0, 0)%Z ->
            exists cell,
              nth_error (VTKPolyData.cells mesh) zi = Some cell
              /\ nth_error cell ei = Some i.
Proof.
  assert (H1 : complete ExamplesMesh.sharedPoint)
    by (apply completeb_complete; vm_compute; reflexivity).
  assert (H2 : In (10000, 0, 0)%Z
                 (map pointOf (elements ExamplesMesh.sharedPoint)))
    by (vm_compute; auto).
  split; [exact H1|]. split; [exact H2|].
  exact (C4_one_point_one_index Fixed4.carrier Fixed4.float reverseFixed4
           ExamplesMesh.sharedPoint (10000, 0, 0)%Z H1 H2).
Defined.

(** C5. For every timestep whose elements have their X, their Y and
    every declared variable, the conversion returns a mesh whose field
    names are the declared variables other than X and Y, and in which
    every field has an entry for every point of the mesh; the entry is
    the value of the field in the last element of the traversal that has
    the coordinates of the point. *)
Theorem C5_field_completeness_last_write :
  forall (CF : Carrier) (FL : Float) (SO : SetOrder Point) (timestep : Timestep.t),
    complete timestep ->
    exists mesh,
      Timestep.convertToVTKPolyData timestep = Ok mesh
      /\ (forall key,
            In key (dict_keys (VTKPolyData.fields mesh))
            <-> (In key (Timestep.variables timestep)
                 /\ key <> "X" /\ key <> "Y")%string)
      /\ forall (p : Point) (key : string),
           In p (VTKPolyData.points mesh) ->
           In key (dict_keys (VTKPolyData.fields mesh)) ->
           exists field value pre element post,
             dict_get String.eqb key (VTKPolyData.fields mesh) = Some field
             /\ dict_get Point_eqb p field = Some value
             /\ elements timestep = pre ++ element :: post
             /\ pointOf element = p
             /\ (forall e, In e post -> pointOf e <> p)
             /\ dict_get String.eqb key element = Some value.
Proof.
  intros CF FL SO timestep Hc. exists (meshOf timestep).
  destruct (initFields_spec timestep) as [Hnd [Hempty Hkeys]].
  assert (Hk : dict_keys (VTKPolyData.fields (meshOf timestep))
               = dict_keys (Timestep.initFields timestep)).
  { unfold meshOf. cbn [VTKPolyData.fields]. unfold dict_keys at 1.
    rewrite map_map. simpl. apply map_id. }
  split; [now apply convert_complete|]. split.
  - intros key. rewrite Hk. apply Hkeys.
  - intros p key Hp Hkey. rewrite Hk in Hkey.
    simpl in Hp. rewrite set_iter_In, firstSeen_In in Hp.
    destruct (last_occurrence p (elements timestep) Hp)
      as [pre [element [post [Hes [Hpt Hpost]]]]].
    exists (fieldAfter key (elements timestep) []), (valueOf key element),
      pre, element, post.
    split; [|split; [|split; [exact Hes|split; [exact Hpt|split;
                                                  [exact Hpost|]]]]].
    + unfold meshOf. cbn [VTKPolyData.fields].
      now apply (dict_get_map_keys
                   (fun k => fieldAfter k (elements timestep) [])).
    + rewrite Hes, <- Hpt. apply fieldAfter_last.
      intros e He. rewrite Hpt. now apply Hpost.
    + apply get_valueOf.
      assert (He : In element (elements timestep))
        by (rewrite Hes; apply in_or_app; right; now left).
      destruct (Hc element He) as [_ [_ Hv]]. apply Hv.
      now apply Hkeys in Hkey.
Qed.

(** C5, on the timestep of two zones that share the point (1, 0), which
    is given S = 2.5 and then S = 3.5: the field keeps 3.5. *)
Lemma C5_field_completeness_last_write_witness :
  complete ExamplesMesh.sharedPoint
  /\ exists mesh,
       Timestep.convertToVTKPolyData (SO := reverseFixed4)
         ExamplesMesh.sharedPoint = Ok mesh
       /\ (forall key,
             In key (dict_keys (VTKPolyData.fields mesh))
             <-> (In key (Timestep.variables ExamplesMesh.sharedPoint)
                  /\ key <> "X" /\ key <> "Y")%string)
       /\ forall (p : Point) (key : string),
            In p (VTKPolyData.points mesh) ->
            In key (dict_keys (VTKPolyData.fields mesh)) ->
            exists field value pre element post,
              dict_get String.eqb key (VTKPolyData.fields mesh) = Some field
              /\ dict_get Point_eqb p field = Some value
              /\ elements ExamplesMesh.sharedPoint = pre ++ element :: post
              /\ pointOf element = p
              /\ (forall e, In e post -> pointOf e <> p)
              /\ dict_get String.eqb key element = Some value.
Proof.
  assert (H : complete ExamplesMesh.sharedPoint)
    by (apply completeb_complete; vm_compute; reflexivity).
  split; [exact H|].
  exact (C5_field_completeness_last_write Fixed4.carrier Fixed4.float reverseFixed4
           ExamplesMesh.sharedPoint H).
Defined.

(** C1. The code does not do this: the element of column [j] takes the
    tokens from index [j] on, not from index [j * variableCount] on, so
    the blocks of neighbouring columns overlap.  On the data line of the
    end-to-end example, with the variables X, Y and S and two points in
    the row, the second element is made of the tokens 1, 2 and 3, that is
    X = 0.0, Y = 1.5 and S = 1.0, and not of the tokens 3, 4 and 5, which
    are never read. *)
Theorem C1_element_tokens_overlap :
  Zone.readRow (CF := Fixed4.carrier) ExamplesMesh.specZone ["X"; "Y"; "S"]
    1 "0.0 0.0 1.5 1.0 0.0 2.5"
  = Ok [[("X", 0); ("Y", 0); ("S", 15000)];
        [("X", 0); ("Y", 15000); ("S", 10000)]]%Z
  /\ Zone.readElementFrom (CF := Fixed4.carrier) 1 ["X"; "Y"; "S"]
       (PyStr.split_spaces "0.0 0.0 1.5 1.0 0.0 2.5") (1 * 3) 0 []
     = Ok [("X", 10000); ("Y", 0); ("S", 25000)]%Z
  /\ Zone.readElementFrom (CF := Fixed4.carrier) 1 ["X"; "Y"; "S"]
       (PyStr.split_spaces "0.0 0.0 1.5 1.0 0.0 2.5") 1 0 []
     = Ok [("X", 0); ("Y", 15000); ("S", 10000)]%Z.
Proof. repeat split; vm_compute; reflexivity. Qed.

(** C2. The code does not produce the mesh of the example.  The input is
    read, validated and converted without an error and the name of the
    file is the expected one, but, the second element of the row being
    read from the tokens 1 to 3, the two points of the mesh are (0, 0, 0)
    and (0, 1.5, 0), in the order of the set, the point (1, 0, 0) is not
    in the mesh, and the field S maps (0, 0, 0) to 1.5 and (0, 1.5, 0) to
    1.0. *)
Theorem C2_end_to_end_example :
  forall SO : SetOrder (@Point Fixed4.carrier),
    Timestep.readFromFile 9 Timestep.init
      (LineReader.init (LineReader.lines ExamplesMesh.specText))
      DAMAGE_FILETYPE
    = Ok (ExamplesMesh.specTimestep,
          consume 5 (LineReader.init (LineReader.lines ExamplesMesh.specText)))
    /\ Timestep.checkZonesSolutionTimes ExamplesMesh.specTimestep = ([], true)
    /\ exists (mesh : @VTKPolyData.t Fixed4.carrier)
              (field : dict (@Point Fixed4.carrier) Z),
         Timestep.convertToVTKPolyData ExamplesMesh.specTimestep = Ok mesh
         /\ Permutation (VTKPolyData.points mesh)
              [point4 0 0 0; point4 0 15000 0]
         /\ ~ In (point4 10000 0 0) (VTKPolyData.points mesh)
         /\ length (VTKPolyData.cells mesh) = 1
         /\ dict_get String.eqb "S" (VTKPolyData.fields mesh) = Some field
         /\ dict_get Point_eqb (point4 0 0 0) field = Some 15000%Z
         /\ dict_get Point_eqb (point4 0 15000 0) field = Some 10000%Z
         /\ dict_get Point_eqb (point4 10000 0 0) field = None
         /\ VTKPolyData.getFileName mesh "input"
            = "./convertedinput/input_T1_000003.vtk".
Proof.
  intros SO. split; [vm_compute; reflexivity|].
  split; [vm_compute; reflexivity|].
  assert (Hc : complete ExamplesMesh.specTimestep)
    by (apply completeb_complete; vm_compute; reflexivity).
  exists (meshOf ExamplesMesh.specTimestep).
  exists [(point4 0 0 0, 15000%Z); (point4 0 15000 0, 10000%Z)].
  assert (Hperm : Permutation
                    (VTKPolyData.points (meshOf ExamplesMesh.specTimestep))
                    [point4 0 0 0; point4 0 15000 0]).
  { unfold meshOf. cbn [VTKPolyData.points].
    eapply Permutation_trans; [apply set_iter_perm|].
    vm_compute. apply Permutation_refl. }
  split; [now apply convert_complete|]. split; [exact Hperm|].
  split.
  { intros Hin. apply (Permutation_in _ Hperm) in Hin.
    destruct Hin as [H|[H|[]]]; discriminate H. }
  repeat split; vm_compute; reflexivity.
Qed.

(** * Further properties *)

(** ** LineReader: what is read *)

Section ReaderLines.
Import LineReader.

Lemma lines_not_empty (text : string) :
  Forall (fun line => line <> EmptyString) (lines text).
Proof.
  induction text as [|c text IH]; simpl; [constructor|].
  destruct (Ascii.eqb c PyStr.newline).
  - constructor; [discriminate|exact IH].
  - destruct (lines text) as [|l ls].
    + constructor; [discriminate|constructor].
    + constructor; [discriminate|now inversion IH].
Qed.

Lemma skipBlank_spec (f : list string) :
  Forall (fun line => line <> EmptyString) f ->
  fst (skipBlank f) = hd EmptyString (notBlank f)
  /\ notBlank (snd (skipBlank f)) = tl (notBlank f)
  /\ Forall (fun line => line <> EmptyString) (snd (skipBlank f)).
Proof.
  induction f as [|l f IH]; intros Hf; simpl.
  - repeat split; constructor.
  - inversion Hf as [|l' f' Hl Hf']; subst.
    destruct l as [|c l]; [contradiction|]. cbn [PyStr.is_empty].
    unfold notBlank. simpl filter. fold (blank (String c l)).
    destruct (blank (String c l)) eqn:E; simpl.
    + apply IH. exact Hf'.
    + repeat split; try reflexivity; exact Hf'.
Qed.

Lemma get_fresh (lr : t) :
  fresh lr ->
  fst (getNextNotEmptyLine lr) = hd EmptyString (notBlank (file lr))
  /\ notBlank (file (snd (getNextNotEmptyLine lr))) = tl (notBlank (file lr))
  /\ fresh (snd (getNextNotEmptyLine lr)).
Proof.
  intros [Hpb Hf]. unfold getNextNotEmptyLine, nextLine. rewrite Hpb.
  destruct (skipBlank_spec (file lr) Hf) as [H1 [H2 H3]].
  destruct (skipBlank (file lr)) as [l f']. simpl in *.
  repeat split; assumption.
Qed.

Lemma consume_fresh (n : nat) :
  forall lr : t,
    fresh lr ->
    fresh (consume n lr)
    /\ notBlank (file (consume n lr)) = skipn n (notBlank (file lr)).
Proof.
  induction n as [|n IH]; intros lr Hlr; simpl.
  - split; [exact Hlr|reflexivity].
  - destruct (get_fresh lr Hlr) as [_ [Htl Hfresh]].
    destruct (IH _ Hfresh) as [H1 H2]. split; [exact H1|].
    rewrite H2, Htl.
    destruct (notBlank (file lr)); [simpl; apply skipn_nil|reflexivity].
Qed.

Lemma init_fresh (text : string) : fresh (init (lines text)).
Proof. split; [reflexivity|apply lines_not_empty]. Qed.

Lemma hd_skipn {A : Type} (d : A) (n : nat) :
  forall l : list A, hd d (skipn n l) = nth n l d.
Proof.
  induction n as [|n IH]; intros [|x l]; simpl; try reflexivity. apply IH.
Qed.

End ReaderLines.

(** X1. The reader gives the lines of the file that are not blank, in
    their order, one for each call of [getNextNotEmptyLine], and the empty
    string from then on: the call number [n] on the reader of a text
    returns the [n]-th line of the text whose trimmed content is not
    empty, with its line end, or the empty string when there are not that
    many. *)
Theorem X1_reader_gives_nonblank_lines :
  forall (text : string) (n : nat),
    fst (LineReader.getNextNotEmptyLine
           (consume n (LineReader.init (LineReader.lines text))))
    = nth n (notBlank (LineReader.lines text)) EmptyString.
Proof.
  intros text n.
  destruct (consume_fresh n _ (init_fresh text)) as [Hfresh Hfile].
  destruct (get_fresh _ Hfresh) as [Hget _].
  rewrite Hget, Hfile. cbn [LineReader.file LineReader.init].
  apply hd_skipn.
Qed.

(** X2. [isEndOfFile] holds exactly when every line that is left is
    blank; it consumes nothing: the next line read after the test is the
    one that would have been read without it. *)
Theorem X2_end_of_file_iff_only_blank_lines :
  forall (text : string) (n : nat),
    (fst (LineReader.isEndOfFile
            (consume n (LineReader.init (LineReader.lines text)))) = true
     <-> skipn n (notBlank (LineReader.lines text)) = [])
    /\ LineReader.getNextNotEmptyLine
         (snd (LineReader.isEndOfFile
                 (consume n (LineReader.init (LineReader.lines text)))))
       = LineReader.getNextNotEmptyLine
           (consume n (LineReader.init (LineReader.lines text))).
Proof.
  intros text n.
  destruct (consume_fresh n _ (init_fresh text)) as [Hfresh Hfile].
  destruct (get_fresh _ Hfresh) as [Hget _].
  rewrite isEndOfFile_eq. cbn [fst snd]. split; [|apply peek_get].
  rewrite <- get_fst_peek, Hget, Hfile.
  cbn [LineReader.file LineReader.init].
  destruct (skipn n (notBlank (LineReader.lines text))) as [|l ls] eqn:E.
  - simpl. split; reflexivity.
  - simpl. assert (Hl : In l (notBlank (LineReader.lines text))).
    { rewrite <- (firstn_skipn n). apply in_or_app. right. rewrite E.
      now left. }
    unfold notBlank in Hl. apply filter_In in Hl. destruct Hl as [_ Hl].
    destruct l as [|c l]; [discriminate Hl|]. simpl.
    split; discriminate.
Qed.

(** ** Zone: the rows that are read *)

Section ZoneRows.
Context {CF : Carrier} {FL : Float}.
Import Zone.
Local Open Scope Z_scope.

Lemma readRowFrom_length (pos : nat) (variables numbers : list string) :
  forall (n j : nat) (row row' : list Element),
    readRowFrom pos n variables numbers j row = Ok row' ->
    length row' = (length row + n)%nat.
Proof.
  induction n as [|n IH]; intros j row row' H; simpl in H.
  - injection H as <-. lia.
  - apply bind_Ok in H. destruct H as [element [_ H]].
    apply IH in H. rewrite H, length_app. simpl. lia.
Qed.

Lemma readRow_length (self : t) (variables : list string) (pos : nat)
      (line : string)
      (row : list Element) :
  readRow self variables pos line = Ok row ->
  length row = Z.to_nat (columnCount self).
Proof.
  unfold readRow. intros H. apply readRowFrom_length in H. exact H.
Qed.

Lemma readRows_inv (variables : list string) :
  forall (fuel : nat) (self zone : t) (i : Z) (lr lr' : LineReader.t),
    readRows fuel self variables i lr = Ok (zone, lr') ->
    rowCount zone = rowCount self
    /\ columnCount zone = columnCount self
    /\ (Forall (fun row => length row = Z.to_nat (columnCount self))
          (table self) ->
        Forall (fun row => length row = Z.to_nat (columnCount self))
          (table zone))
    /\ (rowCount self <> -1 ->
        length (table zone)
        = (length (table self) + Z.to_nat (rowCount self - i))%nat).
Proof.
  induction fuel as [|fuel IH]; intros self zone i lr lr' H;
    cbn [readRows] in H; [discriminate|].
  destruct (nextRowAvailable self i lr) as [available lr1] eqn:Hav.
  destruct available.
  - destruct (LineReader.getNextNotEmptyLine lr1) as [line lr2].
    apply bind_Ok in H. destruct H as [row [Hrow H]].
    destruct (IH _ _ _ _ _ H) as [Hrc [Hcc [Hrows Hlen]]].
    cbn [addRow rowCount columnCount table] in *.
    split; [exact Hrc|]. split; [exact Hcc|]. split.
    + intros Hall. apply Hrows. apply Forall_app. split; [exact Hall|].
      constructor; [|constructor]. now apply (readRow_length self variables (LineReader.linesLeft lr2) line).
    + intros Hne. rewrite (Hlen Hne), length_app. simpl.
      rewrite (nextRowAvailable_known self i lr Hne) in Hav.
      injection Hav as Hlt _. apply Z.ltb_lt in Hlt. lia.
  - injection H as <- _. repeat split; auto.
    intros Hne. rewrite (nextRowAvailable_known self i lr Hne) in Hav.
    injection Hav as Hge _. apply Z.ltb_ge in Hge. lia.
Qed.

Lemma header_table (self self1 : t) (header : string) :
  (if Re.matched (Re.search ZONE_FULL_HEADER_REGEXP header)
   then readFullHeader self (Re.search ZONE_FULL_HEADER_REGEXP header)
   else if Re.matched (Re.search ZONE_PARTIAL_HEADER_REGEXP header)
        then readPartialHeader self
               (Re.search ZONE_PARTIAL_HEADER_REGEXP header)
        else Ok self) = Ok self1 ->
  table self1 = table self.
Proof.
  intros H1.
  destruct (Re.matched (Re.search ZONE_FULL_HEADER_REGEXP header)).
  - unfold readFullHeader in H1.
    repeat (apply bind_Ok in H1; destruct H1 as [? [_ H1]]).
    now injection H1 as <-.
  - destruct (Re.matched (Re.search ZONE_PARTIAL_HEADER_REGEXP header)).
    + unfold readPartialHeader in H1.
      repeat (apply bind_Ok in H1; destruct H1 as [? [_ H1]]).
      now injection H1 as <-.
    + now injection H1 as <-.
Qed.

End ZoneRows.

(** X3. In a zone that [readFromFile] returns, every row has as many
    elements as the column count says, every element has a value for
    every variable of the timestep, and, when the header gave a row
    count, the table has exactly that many rows. *)
Theorem X3_zone_table_shape :
  forall (CF : Carrier) (FL : Float) (fuel : nat) (variables : list string)
         (lr lr' : LineReader.t) (zone : Zone.t),
    Zone.readFromFile fuel Zone.init variables lr = Ok (zone, lr') ->
    Forall (fun row => length row = Z.to_nat (Zone.columnCount zone))
      (Zone.table zone)
    /\ Forall (Forall (hasVariables variables)) (Zone.table zone)
    /\ (Zone.rowCount zone <> (-1)%Z ->
        length (Zone.table zone) = Z.to_nat (Zone.rowCount zone)).
Proof.
  intros CF FL fuel variables lr lr' zone H.
  split; [|split; [exact (readFromFile_zone_keys variables fuel zone lr lr' H)|]];
    unfold Zone.readFromFile in H;
    destruct (LineReader.getNextNotEmptyLine lr) as [line lr1];
    apply bind_Ok in H; destruct H as [self1 [H1 H]];
    apply header_table in H1; cbn [Zone.init Zone.table] in H1;
    destruct (readRows_inv variables _ _ _ _ _ _ H) as [Hrc [Hcc [Hrows Hlen]]].
  - rewrite Hcc. apply Hrows. rewrite H1. constructor.
  - intros Hne. rewrite Hrc in Hne. rewrite (Hlen Hne), H1, Hrc. simpl.
    f_equal. lia.
Qed.

(** X3, on the zone of the end-to-end example: one row of two
    elements. *)
Lemma X3_zone_table_shape_witness :
  Zone.readFromFile 3 Zone.init Examples.xys ExamplesZone.readerOnHeader
  = Ok ExamplesZone.zoneRead
  /\ Forall
       (fun row =>
          length row = Z.to_nat (Zone.columnCount (fst ExamplesZone.zoneRead)))
       (Zone.table (fst ExamplesZone.zoneRead))
  /\ Forall (Forall (hasVariables Examples.xys))
       (Zone.table (fst ExamplesZone.zoneRead))
  /\ (Zone.rowCount (fst ExamplesZone.zoneRead) <> (-1)%Z ->
      length (Zone.table (fst ExamplesZone.zoneRead))
      = Z.to_nat (Zone.rowCount (fst ExamplesZone.zoneRead))).
Proof.
  assert (H : Zone.readFromFile 3 Zone.init Examples.xys
                ExamplesZone.readerOnHeader
              = Ok (fst ExamplesZone.zoneRead, snd ExamplesZone.zoneRead))
    by (vm_compute; reflexivity).
  split; [vm_compute; reflexivity|].
  exact (X3_zone_table_shape Fixed4.carrier Fixed4.float 3 Examples.xys
           ExamplesZone.readerOnHeader (snd ExamplesZone.zoneRead)
           (fst ExamplesZone.zoneRead) H).
Defined.

Section RowParsing.
Context {CF : Carrier} {FL : Float}.
Import Zone.

Lemma readElementFrom_ok (pos : nat) (numbers : list string) (j : nat) :
  forall (variables : list string) (k : nat) (element : Element),
    (exists element', readElementFrom pos variables numbers j k element = Ok element')
    <-> forall i, (i < length variables)%nat -> tokenOk numbers (j + k + i).
Proof.
  induction variables as [|v vs IH]; intros k element; simpl.
  - split; [intros _ i Hi; lia|eauto].
  - split.
    + intros [element' H].
      apply bind_Ok in H. destruct H as [token [Htok H]].
      apply bind_Ok in H. destruct H as [value [Hval H]].
      intros i Hi. destruct i as [|i].
      * exists token. rewrite Nat.add_0_r.
        destruct (nth_error numbers (j + k)); [|discriminate].
        injection Htok as ->. split; [reflexivity|].
        destruct (float token); discriminate.
      * replace (j + k + S i)%nat with (j + S k + i)%nat by lia.
        apply (proj1 (IH (S k)
                        (dict_set String.eqb v (new_float (pos, j, k) value)
                           element)));
          [eauto|lia].
    + intros Hall. destruct (Hall 0%nat ltac:(lia)) as [token [Htok Hval]].
      rewrite Nat.add_0_r in Htok. rewrite Htok. cbn [of_option bind].
      destruct (float token) as [value|]; [|contradiction].
      cbn [of_option bind]. apply IH. intros i Hi.
      replace (j + S k + i)%nat with (j + k + S i)%nat by lia.
      apply Hall. lia.
Qed.

Lemma readElementFrom_errors (pos : nat) (numbers : list string) (j : nat) :
  forall (variables : list string) (k : nat) (element : Element),
    (exists element', readElementFrom pos variables numbers j k element = Ok element')
    \/ readElementFrom pos variables numbers j k element = Raise IndexError
    \/ readElementFrom pos variables numbers j k element = Raise ValueError.
Proof.
  induction variables as [|v vs IH]; intros k element; simpl; [eauto|].
  destruct (nth_error numbers (j + k)) as [token|]; cbn [of_option bind];
    [|auto].
  destruct (float token) as [value|]; cbn [of_option bind]; [apply IH|auto].
Qed.

Lemma readRowFrom_ok (pos : nat) (variables numbers : list string) :
  forall (n j : nat) (row : list Element),
    (exists row', readRowFrom pos n variables numbers j row = Ok row')
    <-> forall j' i, (j <= j' < j + n)%nat -> (i < length variables)%nat ->
                     tokenOk numbers (j' + i).
Proof.
  induction n as [|n IH]; intros j row; simpl.
  - split; [intros _ j' i Hj; lia|eauto].
  - split.
    + intros [row' H]. apply bind_Ok in H. destruct H as [element [He H]].
      intros j' i Hj Hi. destruct (Nat.eq_dec j' j) as [->|Hne].
      * pose proof (proj1 (readElementFrom_ok pos numbers j variables 0 [])
                      (ex_intro _ element He) i Hi) as Ht.
        now rewrite Nat.add_0_r in Ht.
      * apply (proj1 (IH (S j) (row ++ [element]))); [eauto|lia|exact Hi].
    + intros Hall.
      destruct (proj2 (readElementFrom_ok pos numbers j variables 0 [])) as [e He].
      { intros i Hi. rewrite Nat.add_0_r. apply Hall; lia. }
      rewrite He. cbn [bind]. apply IH. intros j' i Hj Hi. apply Hall; lia.
Qed.

Lemma readRowFrom_errors (pos : nat) (variables numbers : list string) :
  forall (n j : nat) (row : list Element),
    (exists row', readRowFrom pos n variables numbers j row = Ok row')
    \/ readRowFrom pos n variables numbers j row = Raise IndexError
    \/ readRowFrom pos n variables numbers j row = Raise ValueError.
Proof.
  induction n as [|n IH]; intros j row; simpl; [eauto|].
  destruct (readElementFrom_errors pos numbers j variables 0 [])
    as [[e He]|[He|He]]; rewrite He; cbn [bind]; [apply IH|auto|auto].
Qed.

End RowParsing.

(** X4. A data line gives a row exactly when the zone has no column, or
    the timestep has no variable, or the line has at least
    [columnCount + variableCount - 1] tokens between its runs of spaces
    and [float] accepts each of these; the tokens after them are not
    looked at.  When the line gives no row, the reading raises
    [IndexError] (a token is missing) or [ValueError] (a token is not a
    number), and nothing else. *)
Theorem X4_row_parses_iff_enough_numbers :
  forall (CF : Carrier) (FL : Float) (self : Zone.t)
         (variables : list string) (pos : nat) (line : string),
    let numbers := PyStr.split_spaces (PyStr.strip line) in
    let cc := Z.to_nat (Zone.columnCount self) in
    let nv := length variables in
    ((exists row, Zone.readRow self variables pos line = Ok row)
     <-> (cc = 0 \/ nv = 0
          \/ forall idx, idx < cc + nv - 1 -> tokenOk numbers idx))
    /\ ((exists row, Zone.readRow self variables pos line = Ok row)
        \/ Zone.readRow self variables pos line = Raise IndexError
        \/ Zone.readRow self variables pos line = Raise ValueError).
Proof.
  intros CF FL self variables pos line numbers cc nv. split.
  - unfold Zone.readRow. fold numbers. fold cc.
    rewrite (readRowFrom_ok pos variables numbers cc 0 []). fold nv. split.
    + intros H.
      destruct (Nat.eq_dec cc 0) as [Hcc|Hcc]; [auto|].
      destruct (Nat.eq_dec nv 0) as [Hnv|Hnv]; [auto|].
      right. right. intros idx Hidx.
      destruct (le_lt_dec idx (cc - 1)) as [Hle|Hgt].
      * replace idx with (idx + 0) by lia. apply H; lia.
      * replace idx with ((cc - 1) + (idx - (cc - 1))) by lia. apply H; lia.
    + intros [H|[H|H]] j' i Hj Hi; try lia. apply H. lia.
  - apply readRowFrom_errors.
Qed.

(** ** Zone: the end of the file *)

Section ZoneAtEnd.
Context {CF : Carrier} {FL : Float}.
Import Zone.
Local Open Scope Z_scope.

Lemma consume_S_r (k : nat) :
  forall lr : LineReader.t,
    consume (S k) lr = snd (LineReader.getNextNotEmptyLine (consume k lr)).
Proof.
  induction k as [|k IH]; intros lr; [reflexivity|].
  change (consume (S (S k)) lr)
    with (consume (S k) (snd (LineReader.getNextNotEmptyLine lr))).
  rewrite IH. reflexivity.
Qed.

Lemma reader_line (text : string) (k : nat) :
  fst (LineReader.getNextNotEmptyLine
         (consume k (LineReader.init (LineReader.lines text))))
  = hd EmptyString (skipn k (notBlank (LineReader.lines text))).
Proof.
  destruct (consume_fresh k _ (init_fresh text)) as [Hfresh Hfile].
  destruct (get_fresh _ Hfresh) as [Hget _].
  rewrite Hget, Hfile. reflexivity.
Qed.

Lemma skipn_S_nil {A : Type} (k : nat) (l : list A) :
  skipn k l = [] -> skipn (S k) l = [].
Proof.
  intros H. apply skipn_all2.
  pose proof (length_skipn k l) as Hl. rewrite H in Hl. simpl in Hl. lia.
Qed.

Lemma skipn_S_tl {A : Type} (k : nat) :
  forall l : list A, skipn (S k) l = tl (skipn k l).
Proof.
  induction k as [|k IH]; intros [|x l]; try reflexivity.
  change (skipn (S (S k)) (x :: l)) with (skipn (S k) l).
  rewrite IH. reflexivity.
Qed.

(** One turn of the loop of a zone with no row count, on the reader of
    a text after [k] lines. *)
Lemma readRows_unknown_step (self : t) (variables : list string) (i : Z)
      (text : string) (k fuel : nat) :
  rowCount self = -1 ->
  let line := hd EmptyString (skipn k (notBlank (LineReader.lines text))) in
  readRows (S fuel) self variables i
    (consume k (LineReader.init (LineReader.lines text)))
  = if endsRows (PyStr.strip line)
    then Ok (self,
             snd (LineReader.peekNextNotEmptyLine
                    (consume k (LineReader.init (LineReader.lines text)))))
    else row <- readRow self variables
                  (LineReader.linesLeft
                     (consume (S k) (LineReader.init (LineReader.lines text))))
                  line ;;
         readRows fuel (addRow self row) variables (i + 1)
           (consume (S k) (LineReader.init (LineReader.lines text))).
Proof.
  intros Hrc line. cbn [readRows].
  rewrite (nextRowAvailable_unknown self i _ Hrc).
  rewrite <- get_fst_peek, reader_line. fold line.
  destruct (endsRows (PyStr.strip line)); cbn [negb]; [reflexivity|].
  rewrite peek_get, consume_S_r.
  pose proof (reader_line text k) as Hl. fold line in Hl.
  destruct (LineReader.getNextNotEmptyLine
              (consume k (LineReader.init (LineReader.lines text))))
    as [l lr2].
  cbn [fst snd] in *. now subst l.
Qed.

Lemma readRows_never_ends (variables : list string) (text : string) :
  forall (fuel : nat) (self : t) (i : Z) (k : nat),
    rowCount self = -1 ->
    columnCount self <= 0 ->
    skipn k (notBlank (LineReader.lines text)) = [] ->
    readRows fuel self variables i
      (consume k (LineReader.init (LineReader.lines text)))
    = OutOfFuel.
Proof.
  induction fuel as [|fuel IH]; intros self i k Hrc Hcc Hend; [reflexivity|].
  rewrite (readRows_unknown_step self variables i text k fuel Hrc).
  rewrite Hend. cbn [hd].
  change (endsRows (PyStr.strip EmptyString)) with false. cbv iota.
  unfold readRow. replace (Z.to_nat (columnCount self)) with 0%nat by lia.
  cbn [readRowFrom bind].
  apply IH; [exact Hrc|exact Hcc|now apply skipn_S_nil].
Qed.

Lemma readRows_open_ended (variable : string) (variables : list string)
      (text : string) :
  float EmptyString = None ->
  forall (m fuel : nat) (self : t) (i : Z) (k : nat),
    rowCount self = -1 ->
    0 < columnCount self ->
    length (skipn k (notBlank (LineReader.lines text))) = m ->
    Forall (fun line => endsRows (PyStr.strip line) = false)
      (skipn k (notBlank (LineReader.lines text))) ->
    (m < fuel)%nat ->
    readRows fuel self (variable :: variables) i
      (consume k (LineReader.init (LineReader.lines text)))
    = Raise IndexError
    \/ readRows fuel self (variable :: variables) i
         (consume k (LineReader.init (LineReader.lines text)))
       = Raise ValueError.
Proof.
  intros Hfloat.
  induction m as [|m IH]; intros fuel self i k Hrc Hcc Hlen Hall Hfuel;
    (destruct fuel as [|fuel]; [lia|]);
    rewrite (readRows_unknown_step self (variable :: variables) i text k fuel
               Hrc).
  - apply length_zero_iff_nil in Hlen. rewrite Hlen. cbn [hd].
    change (endsRows (PyStr.strip EmptyString)) with false. cbv iota.
    right. unfold readRow.
    destruct (Z.to_nat (columnCount self)) as [|n] eqn:E; [lia|].
    change (PyStr.split_spaces (PyStr.strip EmptyString)) with [EmptyString].
    cbn [readRowFrom readElementFrom nth_error Nat.add of_option bind].
    rewrite Hfloat. reflexivity.
  - destruct (skipn k (notBlank (LineReader.lines text))) as [|l ls] eqn:E;
      [discriminate|].
    inversion Hall as [|l' ls' Hl Hls]; subst. cbn [hd]. rewrite Hl.
    destruct (readRowFrom_errors
                (LineReader.linesLeft
                   (consume (S k) (LineReader.init (LineReader.lines text))))
                (variable :: variables)
                (PyStr.split_spaces (PyStr.strip l))
                (Z.to_nat (columnCount self)) 0 [])
      as [[row Hrow]|[Hrow|Hrow]]; unfold readRow; rewrite Hrow;
      cbn [bind]; auto.
    apply IH.
    + exact Hrc.
    + exact Hcc.
    + rewrite skipn_S_tl, E. simpl in *. lia.
    + rewrite skipn_S_tl, E. exact Hls.
    + lia.
Qed.

End ZoneAtEnd.

(** ** LineReader: the position of a line *)

Section LinePositions.

Lemma skipBlank_shorter (f : list string) :
  f <> [] -> length (snd (LineReader.skipBlank f)) < length f.
Proof.
  induction f as [|l f IH]; intros Hf; [contradiction|].
  cbn [LineReader.skipBlank].
  destruct (PyStr.is_empty l); [simpl; lia|].
  destruct (PyStr.is_empty (PyStr.strip l)); [|simpl; lia].
  destruct f as [|l' f]; [simpl; lia|].
  specialize (IH ltac:(discriminate)). simpl in *. lia.
Qed.

(** Every line that is read has a position of its own: as long as a
    line with content is left, reading one leaves fewer lines in the
    file.  So the float objects of two data lines are created at
    different places. *)
Lemma linesLeft_decreases (text : string) (n : nat) :
  n < length (notBlank (LineReader.lines text)) ->
  LineReader.linesLeft
    (consume (S n) (LineReader.init (LineReader.lines text)))
  < LineReader.linesLeft
      (consume n (LineReader.init (LineReader.lines text))).
Proof.
  intros Hn. rewrite consume_S_r.
  destruct (consume_fresh n _ (init_fresh text)) as [[Hpb _] Hfile].
  cbn [LineReader.file LineReader.init] in Hfile.
  unfold LineReader.linesLeft, LineReader.getNextNotEmptyLine,
    LineReader.nextLine.
  rewrite Hpb.
  assert (Hne : LineReader.file
                  (consume n (LineReader.init (LineReader.lines text)))
                <> []).
  { intros Hnil. rewrite Hnil in Hfile. cbn in Hfile.
    assert (Hlen : length (skipn n (notBlank (LineReader.lines text))) = 0)
      by now rewrite <- Hfile.
    rewrite length_skipn in Hlen. lia. }
  pose proof (skipBlank_shorter _ Hne) as Hlt.
  destruct (LineReader.skipBlank
              (LineReader.file
                 (consume n (LineReader.init (LineReader.lines text)))))
    as [l f']. exact Hlt.
Qed.

End LinePositions.

(** X5. A zone with no row count, at least one column and at least one
    variable never ends well when no line that ends the rows follows: if
    none of the lines left in the file matches the zone pattern, the
    trailer, the end marker or the numeric-only pattern, the loop reads
    them as rows and then, at the end of the file, reads the empty string
    as a row, so the reading raises [IndexError] or [ValueError]
    ([float] refusing the empty string). *)
Theorem X5_open_ended_zone_raises :
  forall (CF : Carrier) (FL : Float) (self : Zone.t) (variable : string)
         (variables : list string) (i : Z) (text : string) (k fuel : nat),
    float EmptyString = None ->
    Zone.rowCount self = (-1)%Z ->
    (0 < Zone.columnCount self)%Z ->
    Forall (fun line => endsRows (PyStr.strip line) = false)
      (skipn k (notBlank (LineReader.lines text))) ->
    length (skipn k (notBlank (LineReader.lines text))) < fuel ->
    Zone.readRows fuel self (variable :: variables) i
      (consume k (LineReader.init (LineReader.lines text)))
    = Raise IndexError
    \/ Zone.readRows fuel self (variable :: variables) i
         (consume k (LineReader.init (LineReader.lines text)))
       = Raise ValueError.
Proof.
  intros CF FL self variable variables i text k fuel Hfloat Hrc Hcc Hall Hfuel.
  destruct (readRows_open_ended variable variables text Hfloat _ fuel self i k
              Hrc Hcc eq_refl Hall Hfuel) as [H|H].
  - left. exact H.
  - right. exact H.
Qed.

(** X5, on a file that ends with a partial zone header and one data
    line: the data line is read, then the end of the file raises
    [ValueError]. *)
Lemma X5_open_ended_zone_raises_witness :
  @float Fixed4.carrier Fixed4.float EmptyString = None
  /\ Zone.rowCount Examples.zonePartial = (-1)%Z
  /\ (0 < Zone.columnCount Examples.zonePartial)%Z
  /\ (Zone.readRows (FL := Fixed4.float) 2 Examples.zonePartial
        ("X" :: ["Y"; "S"])%string 0
        (consume 1
           (LineReader.init (LineReader.lines ExamplesZone.openEndedText)))
      = Raise IndexError
      \/ Zone.readRows (FL := Fixed4.float) 2 Examples.zonePartial
           ("X" :: ["Y"; "S"])%string 0
           (consume 1
              (LineReader.init (LineReader.lines ExamplesZone.openEndedText)))
         = Raise ValueError).
Proof.
  assert (H1 : @float Fixed4.carrier Fixed4.float EmptyString = None)
    by (vm_compute; reflexivity).
  assert (H2 : Zone.rowCount Examples.zonePartial = (-1)%Z)
    by (vm_compute; reflexivity).
  assert (H3 : (0 < Zone.columnCount Examples.zonePartial)%Z)
    by (vm_compute; reflexivity).
  split; [exact H1|]. split; [exact H2|]. split; [exact H3|].
  apply (X5_open_ended_zone_raises Fixed4.carrier Fixed4.float
           Examples.zonePartial "X"%string ["Y"; "S"]%string 0%Z
           ExamplesZone.openEndedText 1 2 H1 H2 H3).
  - assert (Hl : skipn 1 (notBlank (LineReader.lines ExamplesZone.openEndedText))
                 = [("0.0 0.0 1.5" ++ VTKPolyData.nl)%string])
      by (vm_compute; reflexivity).
    rewrite Hl. constructor; [vm_compute; reflexivity|constructor].
  - assert (Hl : length
                   (skipn 1 (notBlank (LineReader.lines ExamplesZone.openEndedText)))
                 = 1) by (vm_compute; reflexivity).
    rewrite Hl. lia.
Defined.

(** X6. When the header of a zone starts with ZONE but is neither a full
    nor a partial header, the counts keep their initial value -1, every
    data line gives an empty row, and the end of the file does not stop
    the loop: if only blank lines follow the header, reading the zone
    never returns, whatever the fuel. *)
Theorem X6_stray_zone_header_never_returns :
  forall (CF : Carrier) (FL : Float) (variables : list string)
         (text : string) (k fuel : nat),
    let header :=
      PyStr.strip (nth k (notBlank (LineReader.lines text)) EmptyString) in
    Re.matched (Re.search ZONE_FULL_HEADER_REGEXP header) = false ->
    Re.matched (Re.search ZONE_PARTIAL_HEADER_REGEXP header) = false ->
    skipn (S k) (notBlank (LineReader.lines text)) = [] ->
    Zone.readFromFile fuel Zone.init variables
      (consume k (LineReader.init (LineReader.lines text)))
    = OutOfFuel.
Proof.
  intros CF FL variables text k fuel header Hfull Hpartial Hend.
  unfold Zone.readFromFile.
  pose proof (reader_line text k) as Hline. rewrite hd_skipn in Hline.
  pose proof (consume_S_r k (LineReader.init (LineReader.lines text))) as Hnext.
  destruct (LineReader.getNextNotEmptyLine
              (consume k (LineReader.init (LineReader.lines text))))
    as [line lr1].
  cbn [fst snd] in Hline, Hnext. subst line lr1. fold header.
  rewrite Hfull, Hpartial. cbn [bind].
  apply readRows_never_ends; [reflexivity|vm_compute; discriminate|exact Hend].
Qed.

(** X6, on a file whose only line is [ZONE 1]. *)
Lemma X6_stray_zone_header_never_returns_witness :
  Re.matched
    (Re.search ZONE_FULL_HEADER_REGEXP
       (PyStr.strip
          (nth 0 (notBlank (LineReader.lines ExamplesEnd.strayZoneText))
             EmptyString))) = false
  /\ Zone.readFromFile (FL := Fixed4.float) 50 Zone.init Examples.xys
       (consume 0 (LineReader.init (LineReader.lines ExamplesEnd.strayZoneText)))
     = OutOfFuel.
Proof.
  split; [vm_compute; reflexivity|].
  apply (X6_stray_zone_header_never_returns Fixed4.carrier Fixed4.float
           Examples.xys ExamplesEnd.strayZoneText 0 50);
    vm_compute; reflexivity.
Defined.

(** ** Timestep: reading *)

Section TimestepRead.
Context {CF : Carrier} {FL : Float}.
Import Timestep.

Lemma matched_false (m : option Re.groups) (n : nat) :
  Re.matched m = false -> Re.group_of m n = Raise AttributeError.
Proof. destruct m; [discriminate|reflexivity]. Qed.

Lemma readFromFile_unfold (fuel : nat) (self : t) (lr : LineReader.t)
      (fileType : string) :
  readFromFile fuel self lr fileType
  = (title' <- Re.group_of
                 (Re.search TITLE_REGEXP
                    (PyStr.strip
                       (fst (LineReader.getNextNotEmptyLine
                               (titleReader fileType lr))))) 1 ;;
     text <- Re.group_of
               (Re.search VARIABLES_REGEXP
                  (PyStr.strip
                     (fst (LineReader.getNextNotEmptyLine
                             (consume 1 (titleReader fileType lr)))))) 0 ;;
     '(self3, lr3) <-
       readZones fuel
         (fold_left
            (fun s variable =>
               addVariable s
                 (PyStr.remove_char PyStr.dquote (PyStr.strip variable)))
            (PyStr.split "," (last (PyStr.split "=" text) EmptyString))
            (setTitle self title'))
         (consume 2 (titleReader fileType lr)) ;;
     if String.eqb fileType CRACK_FILETYPE then
       zone0 <- of_option IndexError (nth_error (zones self3) 0) ;;
       Ok (setTime self3 (Zone.solutionTime zone0), lr3)
     else
       text' <- Re.group_of
                  (Re.search_ignorecase TIMESTEP_LAST_LINE_REGEXP
                     (PyStr.strip (fst (LineReader.getNextNotEmptyLine lr3))))
                  1 ;;
       time' <- PyStr.int text' ;;
       Ok (setTime self3 time', snd (LineReader.getNextNotEmptyLine lr3))).
Proof.
  unfold readFromFile, titleReader. cbn [consume].
  destruct (LineReader.getNextNotEmptyLine
              (if String.eqb fileType CRACK_FILETYPE
               then skipNumberBeforeTitle lr else lr)) as [line1 lr1].
  cbn [fst snd].
  destruct (Re.group_of (Re.search TITLE_REGEXP (PyStr.strip line1)) 1);
    cbn [bind]; try reflexivity.
  destruct (LineReader.getNextNotEmptyLine lr1) as [line2 lr2]. cbn [fst snd].
  destruct (Re.group_of (Re.search VARIABLES_REGEXP (PyStr.strip line2)) 0);
    cbn [bind]; try reflexivity.
  destruct (readZones fuel _ lr2) as [[self3 lr3]| |]; cbn [bind];
    try reflexivity.
  destruct (String.eqb fileType CRACK_FILETYPE); [reflexivity|].
  destruct (LineReader.getNextNotEmptyLine lr3) as [line4 lr4]. reflexivity.
Qed.

End TimestepRead.

(** X7. A line that must match a pattern and does not stops the reading
    of a timestep with [AttributeError]: the line taken for the title
    when it does not match the title pattern, and the line after a good
    title when it does not match the variables pattern.  The end of the
    file is such a line: reading a timestep when no line is left raises
    [AttributeError]. *)
Theorem X7_malformed_line_raises :
  forall (CF : Carrier) (FL : Float) (fuel : nat) (self : Timestep.t)
         (lr : LineReader.t) (fileType : string),
    let title :=
      PyStr.strip
        (fst (LineReader.getNextNotEmptyLine (titleReader fileType lr))) in
    let variables :=
      PyStr.strip
        (fst (LineReader.getNextNotEmptyLine
                (consume 1 (titleReader fileType lr)))) in
    (Re.matched (Re.search TITLE_REGEXP title) = false ->
     Timestep.readFromFile fuel self lr fileType = Raise AttributeError)
    /\ (Re.matched (Re.search TITLE_REGEXP title) = true ->
        Re.matched (Re.search VARIABLES_REGEXP variables) = false ->
        Timestep.readFromFile fuel self lr fileType = Raise AttributeError)
    /\ (fst (LineReader.getNextNotEmptyLine (titleReader fileType lr))
        = EmptyString ->
        Timestep.readFromFile fuel self lr fileType = Raise AttributeError).
Proof.
  intros CF FL fuel self lr fileType title variables.
  rewrite readFromFile_unfold. fold title. fold variables.
  assert (Hfirst : Re.matched (Re.search TITLE_REGEXP title) = false ->
                   bind (Re.group_of (Re.search TITLE_REGEXP title) 1)
                     (fun title' =>
                        text <- Re.group_of
                                  (Re.search VARIABLES_REGEXP variables) 0 ;;
                        '(self3, lr3) <-
                          Timestep.readZones fuel
                            (fold_left
                               (fun s variable =>
                                  Timestep.addVariable s
                                    (PyStr.remove_char PyStr.dquote
                                       (PyStr.strip variable)))
                               (PyStr.split ","
                                  (last (PyStr.split "=" text) EmptyString))
                               (Timestep.setTitle self title'))
                            (consume 2 (titleReader fileType lr)) ;;
                        if String.eqb fileType CRACK_FILETYPE then
                          zone0 <- of_option IndexError
                                     (nth_error (Timestep.zones self3) 0) ;;
                          Ok (Timestep.setTime self3 (Zone.solutionTime zone0),
                              lr3)
                        else
                          text' <- Re.group_of
                                     (Re.search_ignorecase
                                        TIMESTEP_LAST_LINE_REGEXP
                                        (PyStr.strip
                                           (fst (LineReader.getNextNotEmptyLine
                                                   lr3)))) 1 ;;
                          time' <- PyStr.int text' ;;
                          Ok (Timestep.setTime self3 time',
                              snd (LineReader.getNextNotEmptyLine lr3)))
                   = Raise AttributeError).
  { intros H. now rewrite (matched_false _ 1 H). }
  split; [exact Hfirst|]. split.
  - intros Ht Hv.
    destruct (group_of_matched false 1 TITLE_REGEXP title eq_refl Ht)
      as [title' Htitle].
    unfold Re.search in *. rewrite Htitle. cbn [bind].
    now rewrite (matched_false _ 0 Hv).
  - intros Hend. apply Hfirst. unfold title. rewrite Hend.
    vm_compute. reflexivity.
Qed.

(** X7, on a reader at the end of its file and on a title line followed
    by a data line. *)
Lemma X7_malformed_line_raises_witness :
  (fst (LineReader.getNextNotEmptyLine
          (titleReader DAMAGE_FILETYPE ExamplesTimestep.readerAtEnd))
   = EmptyString
   /\ Timestep.readFromFile (FL := Fixed4.float) 9 Timestep.init
        ExamplesTimestep.readerAtEnd DAMAGE_FILETYPE
      = Raise AttributeError)
  /\ (Re.matched
        (Re.search VARIABLES_REGEXP
           (PyStr.strip
              (fst (LineReader.getNextNotEmptyLine
                      (consume 1
                         (titleReader DAMAGE_FILETYPE
                            ExamplesTimestep.readerNoVariables))))))
      = false
      /\ Timestep.readFromFile (FL := Fixed4.float) 9 Timestep.init
           ExamplesTimestep.readerNoVariables DAMAGE_FILETYPE
         = Raise AttributeError).
Proof.
  split.
  - assert (H : fst (LineReader.getNextNotEmptyLine
                       (titleReader DAMAGE_FILETYPE
                          ExamplesTimestep.readerAtEnd)) = EmptyString)
      by (vm_compute; reflexivity).
    split; [exact H|].
    exact (proj2 (proj2 (X7_malformed_line_raises Fixed4.carrier Fixed4.float
                           9 Timestep.init ExamplesTimestep.readerAtEnd
                           DAMAGE_FILETYPE)) H).
  - split; [vm_compute; reflexivity|].
    apply (proj1 (proj2 (X7_malformed_line_raises Fixed4.carrier Fixed4.float
                           9 Timestep.init ExamplesTimestep.readerNoVariables
                           DAMAGE_FILETYPE)));
      vm_compute; reflexivity.
Defined.

Section TimestepTime.
Context {CF : Carrier} {FL : Float}.
Import Timestep.

Lemma get_latest (lr : LineReader.t) :
  LineReader.latestLine (snd (LineReader.getNextNotEmptyLine lr))
  = fst (LineReader.getNextNotEmptyLine lr)
  /\ LineReader.pushedBack (snd (LineReader.getNextNotEmptyLine lr)) = false.
Proof.
  unfold LineReader.getNextNotEmptyLine, LineReader.nextLine.
  destruct (LineReader.pushedBack lr); [split; reflexivity|].
  destruct (LineReader.skipBlank (LineReader.file lr)); split; reflexivity.
Qed.

Lemma skip_number_get (lr : LineReader.t) :
  LineReader.getNextNotEmptyLine (skipNumberBeforeTitle lr)
  = if fst (LineReader.nextLineMatches lr CRACK_INITIAL_NUMBER_REGEXP)
    then LineReader.getNextNotEmptyLine (consume 1 lr)
    else LineReader.getNextNotEmptyLine lr.
Proof.
  unfold skipNumberBeforeTitle. rewrite nextLineMatches_eq. cbn [fst].
  destruct (Re.matched _).
  - now rewrite peek_get.
  - apply peek_get.
Qed.

End TimestepTime.

(** X8. The time of a CRACK timestep is the solution time of its first
    zone: when the reading returns, the timestep has a first zone and its
    time is that zone's solution time, so the validation of the solution
    times can only fail on a later zone. *)
Theorem X8_crack_time_is_first_zone :
  forall (CF : Carrier) (FL : Float) (fuel : nat) (self timestep : Timestep.t)
         (lr lr' : LineReader.t),
    Timestep.readFromFile fuel self lr CRACK_FILETYPE = Ok (timestep, lr') ->
    exists zone0 rest,
      Timestep.zones timestep = zone0 :: rest
      /\ Timestep.time timestep = Zone.solutionTime zone0
      /\ snd (Timestep.checkZonesSolutionTimes timestep)
         = forallb
             (fun zone =>
                (Zone.solutionTime zone =? Timestep.time timestep)%Z)
             rest.
Proof.
  intros CF FL fuel self timestep lr lr' H.
  rewrite readFromFile_unfold in H.
  apply bind_Ok in H. destruct H as [title' [_ H]].
  apply bind_Ok in H. destruct H as [text [_ H]].
  apply bind_Ok in H. destruct H as [[self3 lr3] [_ H]].
  change (String.eqb CRACK_FILETYPE CRACK_FILETYPE) with true in H.
  cbv iota in H.
  apply bind_Ok in H. destruct H as [zone0 [Hz H]].
  injection H as <- _.
  destruct (Timestep.zones self3) as [|z rest] eqn:E; [discriminate|].
  injection Hz as ->. exists zone0, rest.
  rewrite check_eq. cbn [Timestep.setTime Timestep.zones Timestep.time snd].
  rewrite E. cbn [forallb]. rewrite Z.eqb_refl. repeat split.
Qed.

(** X8, on a CRACK file whose zones have the solution times 4 and 9: the
    time is 4 and the validation fails on the second zone. *)
Lemma X8_crack_time_is_first_zone_witness :
  Timestep.readFromFile 9 Timestep.init ExamplesTimestep.crackReader
    CRACK_FILETYPE
  = Ok ExamplesTimestep.crackRead
  /\ Timestep.time (fst ExamplesTimestep.crackRead) = 4%Z
  /\ exists zone0 rest,
       Timestep.zones (fst ExamplesTimestep.crackRead) = zone0 :: rest
       /\ Timestep.time (fst ExamplesTimestep.crackRead)
          = Zone.solutionTime zone0
       /\ snd (Timestep.checkZonesSolutionTimes
                 (fst ExamplesTimestep.crackRead))
          = forallb
              (fun zone =>
                 (Zone.solutionTime zone
                  =? Timestep.time (fst ExamplesTimestep.crackRead))%Z)
              rest.
Proof.
  assert (H : Timestep.readFromFile 9 Timestep.init
                ExamplesTimestep.crackReader CRACK_FILETYPE
              = Ok (fst ExamplesTimestep.crackRead,
                    snd ExamplesTimestep.crackRead))
    by (vm_compute; reflexivity).
  split; [vm_compute; reflexivity|]. split; [vm_compute; reflexivity|].
  exact (X8_crack_time_is_first_zone Fixed4.carrier Fixed4.float 9
           Timestep.init (fst ExamplesTimestep.crackRead)
           ExamplesTimestep.crackReader (snd ExamplesTimestep.crackRead) H).
Defined.

(** X9. For a file type other than CRACK the time of a timestep is the
    number after [Iter] in its trailer: when the reading returns, the
    last line it consumed matches the trailer pattern without regard to
    case, the time is the value of the digits of its group, which is not
    negative, and nothing is pushed back in the reader. *)
Theorem X9_time_is_trailer_iteration :
  forall (CF : Carrier) (FL : Float) (fuel : nat) (self timestep : Timestep.t)
         (lr lr' : LineReader.t) (fileType : string),
    fileType <> CRACK_FILETYPE ->
    Timestep.readFromFile fuel self lr fileType = Ok (timestep, lr') ->
    exists text,
      Re.group_of
        (Re.search_ignorecase TIMESTEP_LAST_LINE_REGEXP
           (PyStr.strip (LineReader.latestLine lr'))) 1 = Ok text
      /\ PyStr.int text = Ok (Timestep.time timestep)
      /\ (0 <= Timestep.time timestep)%Z
      /\ LineReader.pushedBack lr' = false.
Proof.
  intros CF FL fuel self timestep lr lr' fileType Hft H.
  rewrite readFromFile_unfold in H.
  apply bind_Ok in H. destruct H as [title' [_ H]].
  apply bind_Ok in H. destruct H as [text [_ H]].
  apply bind_Ok in H. destruct H as [[self3 lr3] [_ H]].
  apply String.eqb_neq in Hft. rewrite Hft in H.
  apply bind_Ok in H. destruct H as [text' [Htext H]].
  apply bind_Ok in H. destruct H as [time' [Htime H]].
  injection H as <- <-. exists text'.
  destruct (get_latest lr3) as [Hlatest Hpb]. rewrite Hlatest.
  cbn [Timestep.setTime Timestep.time].
  repeat split; try assumption. now apply (int_nonneg text').
Qed.

(** X9, on the DAMAGE file of the end-to-end example, whose trailer ends
    in [Iter = 3]. *)
Lemma X9_time_is_trailer_iteration_witness :
  DAMAGE_FILETYPE <> CRACK_FILETYPE
  /\ Timestep.time (fst ExamplesTimestep.damageRead) = 3%Z
  /\ exists text,
       Re.group_of
         (Re.search_ignorecase TIMESTEP_LAST_LINE_REGEXP
            (PyStr.strip
               (LineReader.latestLine (snd ExamplesTimestep.damageRead)))) 1
       = Ok text
       /\ PyStr.int text = Ok (Timestep.time (fst ExamplesTimestep.damageRead))
       /\ (0 <= Timestep.time (fst ExamplesTimestep.damageRead))%Z
       /\ LineReader.pushedBack (snd ExamplesTimestep.damageRead) = false.
Proof.
  assert (H1 : DAMAGE_FILETYPE <> CRACK_FILETYPE) by (vm_compute; discriminate).
  assert (H2 : Timestep.readFromFile 9 Timestep.init
                 (LineReader.init (LineReader.lines ExamplesMesh.specText))
                 DAMAGE_FILETYPE
               = Ok (fst ExamplesTimestep.damageRead,
                     snd ExamplesTimestep.damageRead))
    by (vm_compute; reflexivity).
  split; [exact H1|]. split; [vm_compute; reflexivity|].
  exact (X9_time_is_trailer_iteration Fixed4.carrier Fixed4.float 9
           Timestep.init (fst ExamplesTimestep.damageRead)
           (LineReader.init (LineReader.lines ExamplesMesh.specText))
           (snd ExamplesTimestep.damageRead) DAMAGE_FILETYPE H1 H2).
Defined.

(** X10. The number in front of the title of a CRACK timestep is thrown
    away: when the next line is numeric-only and the line after it is
    not, reading the timestep gives what reading it from the line after
    the number gives.  When the next line is not numeric-only, the
    reading starts with it, as for the other file types. *)
Theorem X10_crack_leading_number_is_skipped :
  forall (CF : Carrier) (FL : Float) (fuel : nat) (self : Timestep.t)
         (lr : LineReader.t),
    (fst (LineReader.nextLineMatches lr CRACK_INITIAL_NUMBER_REGEXP) = true ->
     fst (LineReader.nextLineMatches (consume 1 lr) CRACK_INITIAL_NUMBER_REGEXP)
     = false ->
     Timestep.readFromFile fuel self lr CRACK_FILETYPE
     = Timestep.readFromFile fuel self (consume 1 lr) CRACK_FILETYPE)
    /\ (fst (LineReader.nextLineMatches lr CRACK_INITIAL_NUMBER_REGEXP) = false ->
        LineReader.getNextNotEmptyLine (titleReader CRACK_FILETYPE lr)
        = LineReader.getNextNotEmptyLine (titleReader DAMAGE_FILETYPE lr)).
Proof.
  intros CF FL fuel self lr.
  assert (Hsame : forall lr1 lr2 : LineReader.t,
             LineReader.getNextNotEmptyLine (titleReader CRACK_FILETYPE lr1)
             = LineReader.getNextNotEmptyLine (titleReader CRACK_FILETYPE lr2) ->
             Timestep.readFromFile fuel self lr1 CRACK_FILETYPE
             = Timestep.readFromFile fuel self lr2 CRACK_FILETYPE).
  { intros lr1 lr2 Hget. rewrite !readFromFile_unfold. cbn [consume].
    rewrite Hget. reflexivity. }
  split.
  - intros Hnum Hnot. apply Hsame. unfold titleReader.
    change (String.eqb CRACK_FILETYPE CRACK_FILETYPE) with true. cbv iota.
    rewrite !skip_number_get, Hnum, Hnot. reflexivity.
  - intros Hnot. unfold titleReader.
    change (String.eqb CRACK_FILETYPE CRACK_FILETYPE) with true.
    change (String.eqb DAMAGE_FILETYPE CRACK_FILETYPE) with false. cbv iota.
    rewrite skip_number_get, Hnot. reflexivity.
Qed.

(** X10, on the CRACK file that starts with the line [12]. *)
Lemma X10_crack_leading_number_is_skipped_witness :
  fst (LineReader.nextLineMatches ExamplesTimestep.crackReader
         CRACK_INITIAL_NUMBER_REGEXP) = true
  /\ fst (LineReader.nextLineMatches (consume 1 ExamplesTimestep.crackReader)
            CRACK_INITIAL_NUMBER_REGEXP) = false
  /\ Timestep.readFromFile (FL := Fixed4.float) 9 Timestep.init
       ExamplesTimestep.crackReader CRACK_FILETYPE
     = Timestep.readFromFile 9 Timestep.init
         (consume 1 ExamplesTimestep.crackReader) CRACK_FILETYPE.
Proof.
  assert (H1 : fst (LineReader.nextLineMatches ExamplesTimestep.crackReader
                      CRACK_INITIAL_NUMBER_REGEXP) = true)
    by (vm_compute; reflexivity).
  assert (H2 : fst (LineReader.nextLineMatches
                      (consume 1 ExamplesTimestep.crackReader)
                      CRACK_INITIAL_NUMBER_REGEXP) = false)
    by (vm_compute; reflexivity).
  split; [exact H1|]. split; [exact H2|].
  exact (proj1 (X10_crack_leading_number_is_skipped Fixed4.carrier
                  Fixed4.float 9 Timestep.init ExamplesTimestep.crackReader)
           H1 H2).
Defined.

(** ** Timestep: when the conversion fails *)

Section ConvertErrors.
Context {CF : Carrier} {FL : Float} {SO : SetOrder Point}.
Import Timestep.

Lemma recordFields_cases (element : Zone.Element) (point : Point) :
  forall (keys : list string) (fields : dict string (dict Point F)),
    (forall key, In key keys -> dict_get String.eqb key element <> None)
    \/ ((exists key, In key keys /\ dict_get String.eqb key element = None)
        /\ recordFields keys element point fields = Raise KeyError).
Proof.
  induction keys as [|key keys IH]; intros fields.
  - left. intros key [].
  - cbn [recordFields].
    destruct (dict_get String.eqb key element) as [value|] eqn:Hv.
    + cbn [of_option bind].
      destruct (dict_get String.eqb key fields) as [field|];
        cbn [of_option bind].
      * destruct (IH (dict_set String.eqb key
                        (dict_set Point_eqb point value field) fields))
          as [Hall|[[k [Hk Hnone]] Hraise]].
        -- left. intros k [<-|Hk]; [congruence|now apply Hall].
        -- right. split; [exists k; split; [now right|exact Hnone]|exact Hraise].
      * destruct (IH fields) as [Hall|[[k [Hk Hnone]] _]].
        -- left. intros k [<-|Hk]; [congruence|now apply Hall].
        -- right. split; [exists k; split; [now right|exact Hnone]|reflexivity].
    + right. split; [exists key; split; [now left|exact Hv]|reflexivity].
Qed.

Lemma addElement_cases (ms : MeshState) (cell : list Point)
      (element : Zone.Element) :
  hasKeys (fields ms) element
  \/ (~ hasKeys (fields ms) element
      /\ addElement (Ok (ms, cell)) element = Raise KeyError).
Proof.
  unfold addElement, hasKeys. cbn [bind].
  destruct (dict_get String.eqb "X" element) as [x|] eqn:HX.
  - destruct (dict_get String.eqb "Y" element) as [y|] eqn:HY.
    + cbn [of_option bind].
      destruct (recordFields_cases element (x, y, F0) (dict_keys (fields ms))
                  (fields ms)) as [Hall|[[k [Hk Hnone]] Hraise]].
      * left. repeat split; [discriminate|discriminate|exact Hall].
      * right. rewrite Hraise. split; [|reflexivity].
        intros [_ [_ H]]. now apply (H k Hk).
    + right. split; [|reflexivity]. intros [_ [H _]]. now apply H.
  - right. split; [|reflexivity]. intros [H _]. now apply H.
Qed.

Lemma fold_addElement_raise (e : exn) (es : list Zone.Element) :
  fold_left addElement es (Raise e) = Raise e.
Proof. induction es as [|x es IH]; simpl; [reflexivity|exact IH]. Qed.

Lemma hasKeys_after (es : list Zone.Element) (ms : MeshState)
      (element : Zone.Element) :
  hasKeys (fields (after es ms)) element <-> hasKeys (fields ms) element.
Proof. unfold hasKeys. now rewrite keys_after. Qed.

Lemma addElements_cases (es : list Zone.Element) :
  forall (ms : MeshState) (cell : list Point),
    NoDup (dict_keys (fields ms)) ->
    Forall (hasKeys (fields ms)) es
    \/ (~ Forall (hasKeys (fields ms)) es
        /\ fold_left addElement es (Ok (ms, cell)) = Raise KeyError).
Proof.
  induction es as [|e es IH]; intros ms cell Hnd; [left; constructor|].
  destruct (addElement_cases ms cell e) as [He|[He Hraise]].
  - cbn [fold_left]. rewrite (addElement_ok ms cell e Hnd He).
    destruct (IH (after [e] ms) (cell ++ [pointOf e])) as [Hall|[Hall Hr]].
    + now rewrite keys_after.
    + left. constructor; [exact He|].
      eapply Forall_impl; [|exact Hall]. intros a. apply hasKeys_after.
    + right. split; [|exact Hr]. intros H. apply Hall.
      inversion H; subst. eapply Forall_impl; [|eassumption].
      intros a. apply hasKeys_after.
  - right. split.
    + intros H. inversion H; subst. contradiction.
    + cbn [fold_left]. rewrite Hraise. apply fold_addElement_raise.
Qed.

Lemma addZoneCell_raise (e : exn) (zone : Zone.t) :
  addZoneCell (Raise e) zone = Raise e.
Proof. reflexivity. Qed.

Lemma fold_addZoneCell_raise (e : exn) (zs : list Zone.t) :
  fold_left addZoneCell zs (Raise e) = Raise e.
Proof. induction zs as [|z zs IH]; simpl; [reflexivity|exact IH]. Qed.

Lemma addZoneCells_cases (zs : list Zone.t) :
  forall ms : MeshState,
    NoDup (dict_keys (fields ms)) ->
    Forall (hasKeys (fields ms)) (concat (map zoneElements zs))
    \/ (~ Forall (hasKeys (fields ms)) (concat (map zoneElements zs))
        /\ fold_left addZoneCell zs (Ok ms) = Raise KeyError).
Proof.
  induction zs as [|z zs IH]; intros ms Hnd; [left; constructor|].
  cbn [map concat fold_left].
  destruct (addElements_cases (zoneElements z) ms [] Hnd) as [Hz|[Hz Hraise]].
  - rewrite (addZoneCell_ok ms z Hnd Hz).
    set (ms' := {| fields := fields (after (zoneElements z) ms);
                   tempPoints := tempPoints (after (zoneElements z) ms);
                   tempCells := tempCells ms ++ [map pointOf (zoneElements z)] |}).
    assert (Hk : dict_keys (fields ms') = dict_keys (fields ms))
      by apply keys_after.
    assert (Hiff : forall a, hasKeys (fields ms') a <-> hasKeys (fields ms) a).
    { intros a. unfold hasKeys. now rewrite Hk. }
    destruct (IH ms') as [Hall|[Hall Hr]].
    + now rewrite Hk.
    + left. apply Forall_app. split; [exact Hz|].
      eapply Forall_impl; [|exact Hall]. intros a. apply Hiff.
    + right. split; [|exact Hr]. intros H. apply Hall.
      apply Forall_app in H. destruct H as [_ H].
      eapply Forall_impl; [|exact H]. intros a. apply Hiff.
  - right. split.
    + intros H. apply Forall_app in H. now destruct H.
    + unfold addZoneCell at 2. cbn [bind]. rewrite fold_rows.
      fold (zoneElements z). rewrite Hraise. cbn [bind].
      apply fold_addZoneCell_raise.
Qed.

Lemma hasKeys_complete (self : t) :
  Forall (hasKeys (initFields self)) (elements self) -> complete self.
Proof.
  intros Hall element He. rewrite Forall_forall in Hall.
  destruct (Hall element He) as [HX [HY Hk]].
  split; [exact HX|]. split; [exact HY|]. intros v Hv.
  destruct (String.eqb_spec v "X") as [->|HnX]; [exact HX|].
  destruct (String.eqb_spec v "Y") as [->|HnY]; [exact HY|].
  apply Hk. apply (proj2 (proj2 (initFields_spec self))). tauto.
Qed.

End ConvertErrors.

(** X11. The conversion returns exactly for the timesteps whose every
    element has a value for X, for Y and for every declared variable, and
    for any other timestep it raises [KeyError]: it raises nothing else
    and it always ends. *)
Theorem X11_conversion_returns_iff_complete :
  forall (CF : Carrier) (FL : Float) (SO : SetOrder Point)
         (timestep : Timestep.t),
    (complete timestep
     <-> exists mesh, Timestep.convertToVTKPolyData timestep = Ok mesh)
    /\ ((exists mesh, Timestep.convertToVTKPolyData timestep = Ok mesh)
        \/ Timestep.convertToVTKPolyData timestep = Raise KeyError).
Proof.
  intros CF FL SO timestep.
  assert (Hcases : complete timestep
                   \/ Timestep.convertToVTKPolyData timestep = Raise KeyError).
  { destruct (initFields_spec timestep) as [Hnd _].
    destruct (addZoneCells_cases (Timestep.zones timestep)
                {| Timestep.fields := Timestep.initFields timestep;
                   Timestep.tempPoints := [];
                   Timestep.tempCells := [] |} Hnd) as [Hall|[_ Hraise]].
    - left. now apply hasKeys_complete.
    - right. unfold Timestep.convertToVTKPolyData. rewrite Hraise.
      reflexivity. }
  split.
  - split.
    + intros Hc. exists (meshOf timestep). now apply convert_complete.
    + intros [mesh Hmesh]. destruct Hcases as [Hc|Hraise]; [exact Hc|].
      rewrite Hraise in Hmesh. discriminate.
  - destruct Hcases as [Hc|Hraise]; [left|right; exact Hraise].
    exists (meshOf timestep). now apply convert_complete.
Qed.

(** ** VTKPolyData: the file system *)

Section FileSystemFacts.
Context {CF : Carrier} {FL : Float} {SYS : VTKPolyData.OS}.
Import VTKPolyData.

Lemma writeToFile_mkdir_refused (self : t) (originalFileName fileType : string)
      (fs : FileSystem) (e : exn) :
  path_exists fs (directoryOf originalFileName) = false ->
  mkdir_error fs (directoryOf originalFileName) = Some e ->
  writeToFile self originalFileName fileType fs = (fs, Raise e).
Proof.
  intros Hex He. unfold writeToFile, mkdir. fold (directoryOf originalFileName).
  now rewrite Hex, He.
Qed.

Lemma directory_step (originalFileName : string) (fs : FileSystem) :
  (path_exists fs (directoryOf originalFileName) = false ->
   mkdir_error fs (directoryOf originalFileName) = None) ->
  (if path_exists fs (directoryOf originalFileName) then Ok fs
   else mkdir fs (directoryOf originalFileName))
  = Ok (withDirectory fs originalFileName).
Proof.
  intros Hmk. unfold withDirectory, mkdir.
  destruct (path_exists fs (directoryOf originalFileName)); [reflexivity|].
  now rewrite Hmk.
Qed.

Lemma writeToFile_open_refused (self : t) (originalFileName fileType : string)
      (fs : FileSystem) (e : exn) :
  (path_exists fs (directoryOf originalFileName) = false ->
   mkdir_error fs (directoryOf originalFileName) = None) ->
  open_error (withDirectory fs originalFileName)
    (getFileName self originalFileName) = Some e ->
  writeToFile self originalFileName fileType fs
  = (withDirectory fs originalFileName, Raise e).
Proof.
  intros Hmk He. unfold writeToFile. fold (directoryOf originalFileName).
  rewrite (directory_step originalFileName fs Hmk).
  destruct (fileContents self fileType) as [out e'].
  unfold open_w. now rewrite He.
Qed.

Lemma writeToFile_accepted (self : t) (originalFileName fileType : string)
      (fs : FileSystem) :
  accepted self originalFileName fs ->
  writeToFile self originalFileName fileType fs
  = ({| dirs := dirs (withDirectory fs originalFileName);
        files := dict_set String.eqb (getFileName self originalFileName)
                   (fst (fileContents self fileType))
                   (files (withDirectory fs originalFileName)) |},
     match snd (fileContents self fileType) with
     | None => Ok tt
     | Some e => Raise e
     end).
Proof.
  intros [Hmk Hop]. unfold writeToFile. fold (directoryOf originalFileName).
  rewrite (directory_step originalFileName fs Hmk).
  destruct (fileContents self fileType) as [out e'].
  unfold open_w. now rewrite Hop.
Qed.

Lemma path_exists_dirs (fs : FileSystem) (path : string) :
  In path (dirs fs) -> path_exists fs path = true.
Proof.
  intros H. unfold path_exists. apply orb_true_iff. left.
  apply existsb_exists. exists path. split; [exact H|apply String.eqb_refl].
Qed.

Lemma withDirectory_exists (fs : FileSystem) (originalFileName : string) :
  path_exists (withDirectory fs originalFileName)
    (directoryOf originalFileName) = true.
Proof.
  unfold withDirectory.
  destruct (path_exists fs (directoryOf originalFileName)) eqn:E;
    [exact E|].
  apply path_exists_dirs. cbn [dirs]. apply in_or_app. right. now left.
Qed.

Lemma withDirectory_files (fs : FileSystem) (originalFileName : string) :
  files (withDirectory fs originalFileName) = files fs.
Proof.
  unfold withDirectory.
  destruct (path_exists fs (directoryOf originalFileName)); reflexivity.
Qed.

(** A file that is written leaves the paths that exist existing. *)
Lemma path_exists_written (fs : FileSystem) (path file : string)
      (out : list string) :
  path_exists fs path = true ->
  path_exists {| dirs := dirs fs;
                 files := dict_set String.eqb file out (files fs) |} path
  = true.
Proof.
  intros E. unfold path_exists in *. cbn [dirs files].
  apply orb_true_iff in E. apply orb_true_iff.
  destruct E as [E|E]; [left; exact E|right].
  apply existsb_exists in E. destruct E as [p [Hp Heq]].
  apply String.eqb_eq in Heq. subst p.
  apply existsb_exists. exists path. split; [|apply String.eqb_refl].
  apply (dict_get_In _ _ String.eqb string_eqb_spec).
  apply (dict_get_In _ _ String.eqb string_eqb_spec) in Hp.
  destruct (String.eqb_spec file path) as [Heq|Hne].
  - rewrite Heq.
    rewrite (dict_get_set_eq _ _ String.eqb string_eqb_spec). discriminate.
  - now rewrite (dict_get_set_ne _ _ String.eqb string_eqb_spec _ _ _ _ Hne).
Qed.

(** Whatever the operating system does, a call on a file system in which
    the directory exists leaves the directories as they are. *)
Lemma writeToFile_dirs (self : t) (originalFileName fileType : string)
      (fs : FileSystem) :
  path_exists fs (directoryOf originalFileName) = true ->
  dirs (fst (writeToFile self originalFileName fileType fs)) = dirs fs.
Proof.
  intros Hex. unfold writeToFile. fold (directoryOf originalFileName).
  rewrite Hex. destruct (fileContents self fileType) as [out e'].
  unfold open_w.
  destruct (open_error fs (getFileName self originalFileName)); reflexivity.
Qed.

End FileSystemFacts.

(** X12. [writeToFile] makes the directory of the base name only when no
    directory or file of that path exists.  When the operating system
    refuses the directory, the call raises its exception and the file
    system is as it was; when it refuses the file, the call raises its
    exception and no file is written.  When it refuses neither, the path
    exists after the call, the file of the mesh holds what was written
    (also when the writing raised), every other file is as it was, and a
    second mesh written for the same base name makes no directory. *)
Theorem X12_write_creates_directory_once :
  forall (CF : Carrier) (FL : Float) (SYS : VTKPolyData.OS)
         (self other : VTKPolyData.t)
         (originalFileName fileType : string) (fs : VTKPolyData.FileSystem),
    let dir := directoryOf originalFileName in
    let fs' := fst (VTKPolyData.writeToFile self originalFileName fileType fs) in
    (forall e,
        VTKPolyData.path_exists fs dir = false ->
        VTKPolyData.mkdir_error fs dir = Some e ->
        VTKPolyData.writeToFile self originalFileName fileType fs
        = (fs, Raise e))
    /\ (forall e,
           (VTKPolyData.path_exists fs dir = false ->
            VTKPolyData.mkdir_error fs dir = None) ->
           VTKPolyData.open_error (withDirectory fs originalFileName)
             (VTKPolyData.getFileName self originalFileName) = Some e ->
           VTKPolyData.writeToFile self originalFileName fileType fs
           = (withDirectory fs originalFileName, Raise e))
    /\ (accepted self originalFileName fs ->
        VTKPolyData.path_exists fs' dir = true
        /\ VTKPolyData.dirs fs'
           = VTKPolyData.dirs (withDirectory fs originalFileName)
        /\ (VTKPolyData.path_exists fs dir = true ->
            VTKPolyData.dirs fs' = VTKPolyData.dirs fs)
        /\ VTKPolyData.dirs
             (fst (VTKPolyData.writeToFile other originalFileName fileType fs'))
           = VTKPolyData.dirs fs'
        /\ dict_get String.eqb (VTKPolyData.getFileName self originalFileName)
             (VTKPolyData.files fs')
           = Some (fst (VTKPolyData.fileContents self fileType))
        /\ (forall path,
               path <> VTKPolyData.getFileName self originalFileName ->
               dict_get String.eqb path (VTKPolyData.files fs')
               = dict_get String.eqb path (VTKPolyData.files fs))).
Proof.
  intros CF FL SYS self other originalFileName fileType fs dir fs'.
  split; [|split].
  - intros e Hex He. now apply writeToFile_mkdir_refused.
  - intros e Hmk He. now apply writeToFile_open_refused.
  - intros Hacc.
    assert (Hfs : fs'
                  = {| VTKPolyData.dirs :=
                         VTKPolyData.dirs (withDirectory fs originalFileName);
                       VTKPolyData.files :=
                         dict_set String.eqb
                           (VTKPolyData.getFileName self originalFileName)
                           (fst (VTKPolyData.fileContents self fileType))
                           (VTKPolyData.files
                              (withDirectory fs originalFileName)) |}).
    { unfold fs'. now rewrite (writeToFile_accepted _ _ _ _ Hacc). }
    assert (Hexists : VTKPolyData.path_exists fs' dir = true).
    { rewrite Hfs. apply path_exists_written. apply withDirectory_exists. }
    split; [exact Hexists|]. split; [now rewrite Hfs|].
    split; [|split; [|split]].
    + intros Hex. rewrite Hfs. cbn [VTKPolyData.dirs].
      unfold withDirectory. fold dir. now rewrite Hex.
    + now apply writeToFile_dirs.
    + rewrite Hfs. cbn [VTKPolyData.files].
      apply (dict_get_set_eq _ _ String.eqb string_eqb_spec).
    + intros path Hne. rewrite Hfs. cbn [VTKPolyData.files].
      rewrite withDirectory_files.
      apply (dict_get_set_ne _ _ String.eqb string_eqb_spec). congruence.
Qed.

(** X12, on a file system in which the directory of the base name
    exists, under an operating system that refuses a path whose
    directory is missing: the file is accepted and the directories are as
    they were. *)
Lemma X12_write_creates_directory_once_witness :
  accepted (SYS := strictOS) ExamplesScript.meshLine "input"
    ExamplesWriter.fsWithDir
  /\ VTKPolyData.path_exists ExamplesWriter.fsWithDir (directoryOf "input")
     = true
  /\ VTKPolyData.dirs
       (fst (VTKPolyData.writeToFile (SYS := strictOS) ExamplesScript.meshLine
               "input" DAMAGE_FILETYPE ExamplesWriter.fsWithDir))
     = VTKPolyData.dirs ExamplesWriter.fsWithDir.
Proof.
  assert (Hacc : accepted (SYS := strictOS) ExamplesScript.meshLine "input"
                   ExamplesWriter.fsWithDir).
  { split; [intros H; vm_compute in H; discriminate H|].
    vm_compute. reflexivity. }
  assert (Hex : VTKPolyData.path_exists ExamplesWriter.fsWithDir
                  (directoryOf "input") = true) by (vm_compute; reflexivity).
  split; [exact Hacc|]. split; [exact Hex|].
  exact (proj1 (proj2 (proj2
           (proj2 (proj2 (X12_write_creates_directory_once
                            Fixed4.carrier Fixed4.float strictOS
                            ExamplesScript.meshLine ExamplesScript.meshLine
                            "input" DAMAGE_FILETYPE ExamplesWriter.fsWithDir))
              Hacc))) Hex).
Defined.

(** ** VTKPolyData: the blocks of the file *)

Section WriterBlocks.
Context {CF : Carrier} {FL : Float}.
Import VTKPolyData.
Local Open Scope Z_scope.

Lemma total_from (cells : list (list nat)) :
  forall acc : Z,
    fold_left (fun result cell => result + (1 + Z.of_nat (length cell)))
      cells acc
    = acc + Z.of_nat (length cells + length (concat cells)).
Proof.
  induction cells as [|cell cells IH]; intros acc;
    cbn [fold_left concat length].
  - lia.
  - rewrite IH, length_app. lia.
Qed.

Lemma andThen_snd (w1 w2 : written) :
  snd (andThen w1 w2)
  = match snd w1 with
    | None => snd w2
    | Some e => Some e
    end.
Proof. destruct w1 as [out [e|]]; reflexivity. Qed.

Lemma andThen_fst_ok (w1 w2 : written) :
  snd w1 = None -> fst (andThen w1 w2) = fst w1 ++ fst w2.
Proof. destruct w1 as [out [e|]]; [discriminate|reflexivity]. Qed.

Lemma writeValues_spec (field : dict Point F) (ps : list Point) :
  (snd (writeValues field ps) = None
   <-> forall p, In p ps -> dict_get Point_eqb p field <> None)
  /\ (snd (writeValues field ps) = None
      \/ snd (writeValues field ps) = Some KeyError)
  /\ (snd (writeValues field ps) = None ->
      length (fst (writeValues field ps)) = length ps).
Proof.
  induction ps as [|p ps [IH1 [IH2 IH3]]]; cbn [writeValues].
  - repeat split; auto; try (intros _ p []); try (intros p []).
  - destruct (dict_get Point_eqb p field) as [v|] eqn:E.
    + rewrite andThen_snd. cbn [snd]. split; [|split].
      * rewrite IH1. split.
        -- intros H q [<-|Hq]; [congruence|now apply H].
        -- intros H q Hq. apply H. now right.
      * exact IH2.
      * intros H. rewrite andThen_fst_ok by reflexivity.
        cbn [fst app length]. now rewrite IH3.
    + cbn [snd fst]. split; [|split; [now right|discriminate]].
      split; [discriminate|]. intros H. exfalso.
      apply (H p); [now left|exact E].
Qed.

Lemma writeFieldToFile_spec (self : t) (fieldName : string)
      (field : dict Point F) :
  dict_get String.eqb fieldName (fields self) = Some field ->
  snd (writeFieldToFile self fieldName) = snd (writeValues field (points self))
  /\ (snd (writeValues field (points self)) = None ->
      length (fst (writeFieldToFile self fieldName))
      = (2 + length (points self))%nat).
Proof.
  intros H. unfold writeFieldToFile. rewrite H, andThen_snd. cbn [snd].
  split; [reflexivity|]. intros Hok.
  rewrite andThen_fst_ok by reflexivity. cbn [fst app length].
  destruct (writeValues_spec field (points self)) as [_ [_ Hlen]].
  now rewrite (Hlen Hok).
Qed.

Lemma fold_andThen (A : Type) (g : A -> written) (xs : list A) :
  forall w0 : written,
    (snd (fold_left (fun w x => andThen w (g x)) xs w0) = None
     <-> snd w0 = None /\ forall x, In x xs -> snd (g x) = None)
    /\ (forall e, snd w0 = Some e ->
                  fold_left (fun w x => andThen w (g x)) xs w0 = w0)
    /\ (snd w0 = None ->
        (forall x, In x xs -> snd (g x) = None \/ snd (g x) = Some KeyError) ->
        snd (fold_left (fun w x => andThen w (g x)) xs w0) = None
        \/ snd (fold_left (fun w x => andThen w (g x)) xs w0) = Some KeyError)
    /\ (forall n,
           snd w0 = None ->
           (forall x, In x xs ->
                      snd (g x) = None /\ length (fst (g x)) = n) ->
           length (fst (fold_left (fun w x => andThen w (g x)) xs w0))
           = (length (fst w0) + length xs * n)%nat).
Proof.
  induction xs as [|x xs IH]; intros w0; cbn [fold_left].
  - split; [|split; [|split]].
    + split; [intros H; split; [exact H|intros x []]|tauto].
    + reflexivity.
    + intros H _. now left.
    + intros n _ _. cbn [length]. lia.
  - destruct (IH (andThen w0 (g x))) as [IH1 [IH2 [IH3 IH4]]].
    split; [|split; [|split]].
    + rewrite IH1, andThen_snd. split.
      * intros [H Hall]. destruct (snd w0) eqn:E; [discriminate|].
        split; [reflexivity|]. intros y [<-|Hy]; [exact H|now apply Hall].
      * intros [H Hall]. rewrite H. split; [apply Hall; now left|].
        intros y Hy. apply Hall. now right.
    + intros e He.
      assert (Hsame : andThen w0 (g x) = w0).
      { destruct w0 as [out [e'|]]; [reflexivity|discriminate]. }
      rewrite Hsame. clear IH1 IH2 IH3 IH4.
      destruct (IH w0) as [_ [H _]]. now apply (H e).
    + intros H0 Hall.
      destruct (Hall x (or_introl eq_refl)) as [Hx|Hx].
      * apply IH3; [rewrite andThen_snd, H0; exact Hx|].
        intros y Hy. apply Hall. now right.
      * right. rewrite (IH2 KeyError); rewrite andThen_snd, H0; exact Hx.
    + intros n H0 Hall. destruct (Hall x (or_introl eq_refl)) as [Hx Hn].
      rewrite (IH4 n).
      * rewrite andThen_fst_ok by exact H0. rewrite length_app, Hn. simpl. lia.
      * rewrite andThen_snd, H0. exact Hx.
      * intros y Hy. apply Hall. now right.
Qed.

Lemma field_of_key (self : t) (fieldName : string) :
  In fieldName (dict_keys (fields self)) ->
  exists field, dict_get String.eqb fieldName (fields self) = Some field.
Proof.
  intros H. apply (dict_get_In _ _ String.eqb string_eqb_spec) in H.
  destruct (dict_get String.eqb fieldName (fields self)) as [field|];
    [now exists field|contradiction].
Qed.

Lemma key_of_field (self : t) (fieldName : string) (field : dict Point F) :
  dict_get String.eqb fieldName (fields self) = Some field ->
  In fieldName (dict_keys (fields self)).
Proof.
  intros H. apply (dict_get_In _ _ String.eqb string_eqb_spec). congruence.
Qed.

Lemma writePointData_spec (self : t) :
  (snd (writePointDataToFile self) = None <-> fieldsComplete self)
  /\ (snd (writePointDataToFile self) = None
      \/ snd (writePointDataToFile self) = Some KeyError)
  /\ (fieldsComplete self ->
      length (fst (writePointDataToFile self))
      = (1 + length (fields self) * (2 + length (points self)))%nat).
Proof.
  unfold writePointDataToFile.
  destruct (fold_andThen string (writeFieldToFile self)
              (dict_keys (fields self))
              ([("POINT_DATA " ++ str_len (points self) ++ nl)%string], None))
    as [H1 [_ [H3 H4]]].
  assert (Hfield : forall name,
             In name (dict_keys (fields self)) ->
             (snd (writeFieldToFile self name) = None
              <-> forall field,
                    dict_get String.eqb name (fields self) = Some field ->
                    forall p, In p (points self) ->
                              dict_get Point_eqb p field <> None)).
  { intros name Hname. destruct (field_of_key self name Hname) as [field Hf].
    destruct (writeFieldToFile_spec self name field Hf) as [Hs _].
    rewrite Hs. destruct (writeValues_spec field (points self)) as [Hv _].
    rewrite Hv. split.
    - intros H field' Hf'. rewrite Hf in Hf'. now injection Hf' as <-.
    - intros H. now apply H. }
  split; [|split].
  - rewrite H1. cbn [snd]. split.
    + intros [_ Hall] name field p Hf Hp.
      apply (proj1 (Hfield name (key_of_field self name field Hf))
               (Hall name (key_of_field self name field Hf)) field Hf p Hp).
    + intros Hc. split; [reflexivity|]. intros name Hname.
      apply (Hfield name Hname). intros field Hf p Hp.
      now apply (Hc name field p).
  - apply H3; [reflexivity|]. intros name Hname.
    destruct (field_of_key self name Hname) as [field Hf].
    destruct (writeFieldToFile_spec self name field Hf) as [Hs _].
    rewrite Hs. now destruct (writeValues_spec field (points self)) as [_ [H _]].
  - intros Hc. rewrite (H4 (2 + length (points self))%nat).
    + cbn [fst length]. unfold dict_keys. now rewrite length_map.
    + reflexivity.
    + intros name Hname.
      destruct (field_of_key self name Hname) as [field Hf].
      destruct (writeFieldToFile_spec self name field Hf) as [Hs Hlen].
      assert (Hok : snd (writeValues field (points self)) = None).
      { apply (proj1 (writeValues_spec field (points self))).
        intros p Hp. now apply (Hc name field p). }
      split; [now rewrite Hs|now apply Hlen].
Qed.

End WriterBlocks.

(** X13. The third number of the first line of the cells block counts,
    for every cell, the cell and its vertices: [__getTotalCellsSize] is
    the number of cells plus the number of all their point indices. *)
Theorem X13_total_cells_size :
  forall (CF : Carrier) (FL : Float) (self : VTKPolyData.t),
    VTKPolyData.getTotalCellsSize self
    = Z.of_nat (length (VTKPolyData.cells self)
                + length (concat (VTKPolyData.cells self))).
Proof.
  intros CF FL self. unfold VTKPolyData.getTotalCellsSize.
  rewrite total_from. lia.
Qed.

(** X14. Writing the point data raises nothing exactly when every field
    has a value for every point of the mesh; otherwise it raises
    [KeyError], at the first missing value, and nothing else.  When it
    raises nothing it writes the [POINT_DATA] line and, for every field,
    two lines and one line for each point. *)
Theorem X14_point_data_needs_every_value :
  forall (CF : Carrier) (FL : Float) (self : VTKPolyData.t),
    (snd (VTKPolyData.writePointDataToFile self) = None <-> fieldsComplete self)
    /\ (snd (VTKPolyData.writePointDataToFile self) = None
        \/ snd (VTKPolyData.writePointDataToFile self) = Some KeyError)
    /\ (fieldsComplete self ->
        length (fst (VTKPolyData.writePointDataToFile self))
        = 1 + length (VTKPolyData.fields self)
              * (2 + length (VTKPolyData.points self))).
Proof.
  intros CF FL self.
  destruct (writePointData_spec self) as [Hiff [Herr Hlen]].
  split; [exact Hiff|]. split; [exact Herr|exact Hlen].
Qed.

(** X14, on a mesh of two points and one field with a value for both:
    the block has the [POINT_DATA] line, the two lines of the field and
    two lines of values. *)
Lemma X14_point_data_needs_every_value_witness :
  fieldsComplete ExamplesScript.meshLine
  /\ length (fst (VTKPolyData.writePointDataToFile ExamplesScript.meshLine))
     = 5.
Proof.
  destruct (X14_point_data_needs_every_value Fixed4.carrier Fixed4.float
              ExamplesScript.meshLine) as [Hiff [_ Hlen]].
  assert (Hc : fieldsComplete ExamplesScript.meshLine)
    by (apply Hiff; vm_compute; reflexivity).
  split; [exact Hc|exact (Hlen Hc)].
Defined.

(** ** From a timestep to its file *)

Section Pipeline.
Context {CF : Carrier} {FL : Float} {SO : SetOrder Point}.

Lemma dict_get_map_keys_inv {V : Type} (g : string -> V) (keys : list string)
      (key : string) (v : V) :
  dict_get String.eqb key (map (fun k => (k, g k)) keys) = Some v ->
  v = g key.
Proof.
  induction keys as [|k keys IH]; simpl; [discriminate|].
  destruct (String.eqb_spec k key) as [->|Hne]; [congruence|exact IH].
Qed.

Lemma meshOf_fieldsComplete (timestep : Timestep.t) :
  fieldsComplete (meshOf timestep).
Proof.
  intros name field p Hf Hp. unfold meshOf in Hf, Hp.
  cbn [VTKPolyData.fields VTKPolyData.points] in Hf, Hp.
  apply dict_get_map_keys_inv in Hf. subst field.
  rewrite set_iter_In, firstSeen_In in Hp.
  destruct (last_occurrence p (elements timestep) Hp)
    as [pre [element [post [Hes [Hpt Hpost]]]]].
  rewrite Hes, <- Hpt, fieldAfter_last; [discriminate|].
  intros e He. rewrite Hpt. now apply Hpost.
Qed.

Lemma fileContents_ok (self : VTKPolyData.t) (fileType : string) :
  fieldsComplete self ->
  VTKPolyData.cells self <> [] \/ fileType = VON_MISES_FILETYPE ->
  snd (VTKPolyData.fileContents self fileType) = None.
Proof.
  intros Hc Hcells. unfold VTKPolyData.fileContents.
  rewrite !andThen_snd. cbn [VTKPolyData.writeHeaderToFile
                               VTKPolyData.writePointsToFile snd].
  assert (Hpd : snd (VTKPolyData.writePointDataToFile self) = None)
    by now apply (proj1 (writePointData_spec self)).
  destruct (String.eqb_spec fileType VON_MISES_FILETYPE) as [Hv|Hv];
    cbn [negb snd]; [exact Hpd|].
  destruct Hcells as [Hcells|Hcells]; [|contradiction].
  unfold VTKPolyData.writeCellsToFile.
  destruct (VTKPolyData.cells self); [contradiction|]. cbn [snd]. exact Hpd.
Qed.

End Pipeline.

(** X15. For a timestep whose elements have their X, their Y and every
    declared variable, and which has at least one zone or is written with
    the file type VON_MISES, the conversion returns a mesh in which every
    field has a value for every point, and the writing of the header, the
    points, the cells and the point data raises nothing.  So
    [writeToFile] on that mesh returns whenever the operating system
    refuses neither the directory nor the file, and when it raises, the
    exception is the one of [os.mkdir] or of [open]. *)
Theorem X15_complete_timestep_is_written :
  forall (CF : Carrier) (FL : Float) (SO : SetOrder Point)
         (SYS : VTKPolyData.OS)
         (timestep : Timestep.t) (originalFileName fileType : string)
         (fs : VTKPolyData.FileSystem),
    complete timestep ->
    Timestep.zones timestep <> [] \/ fileType = VON_MISES_FILETYPE ->
    exists mesh,
      Timestep.convertToVTKPolyData timestep = Ok mesh
      /\ fieldsComplete mesh
      /\ snd (VTKPolyData.fileContents mesh fileType) = None
      /\ (accepted mesh originalFileName fs ->
          snd (VTKPolyData.writeToFile mesh originalFileName fileType fs)
          = Ok tt)
      /\ (forall e,
             snd (VTKPolyData.writeToFile mesh originalFileName fileType fs)
             = Raise e ->
             (VTKPolyData.path_exists fs (directoryOf originalFileName) = false
              /\ VTKPolyData.mkdir_error fs (directoryOf originalFileName)
                 = Some e)
             \/ VTKPolyData.open_error (withDirectory fs originalFileName)
                  (VTKPolyData.getFileName mesh originalFileName) = Some e).
Proof.
  intros CF FL SO SYS timestep originalFileName fileType fs Hc Hz.
  exists (meshOf timestep).
  assert (Hok : snd (VTKPolyData.fileContents (meshOf timestep) fileType)
                = None).
  { apply fileContents_ok; [apply meshOf_fieldsComplete|].
    destruct Hz as [Hz|Hz]; [left|right; exact Hz].
    unfold meshOf. cbn [VTKPolyData.cells].
    destruct (Timestep.zones timestep); [contradiction|discriminate]. }
  assert (Hwrite : accepted (meshOf timestep) originalFileName fs ->
                   snd (VTKPolyData.writeToFile (meshOf timestep)
                          originalFileName fileType fs) = Ok tt).
  { intros Hacc. rewrite (writeToFile_accepted _ _ _ _ Hacc). cbn [snd].
    now rewrite Hok. }
  split; [now apply convert_complete|].
  split; [apply meshOf_fieldsComplete|]. split; [exact Hok|].
  split; [exact Hwrite|].
  intros e He.
  destruct (VTKPolyData.path_exists fs (directoryOf originalFileName))
    eqn:Hex;
    destruct (VTKPolyData.mkdir_error fs (directoryOf originalFileName))
      as [e1|] eqn:Hmk;
    try (rewrite (writeToFile_mkdir_refused _ _ _ _ e1 Hex Hmk) in He;
         cbn [snd] in He; injection He as <-; left; now split);
    (destruct (VTKPolyData.open_error (withDirectory fs originalFileName)
                 (VTKPolyData.getFileName (meshOf timestep) originalFileName))
       as [e2|] eqn:Hop;
     [rewrite (writeToFile_open_refused _ _ fileType _ e2) in He;
      [cbn [snd] in He; injection He as <-; now right
      |intros Hex'; congruence|exact Hop]
     |rewrite Hwrite in He; [discriminate He|split; [|exact Hop]];
      intros Hex'; congruence]).
Qed.

(** X15, on the timestep of two points read from a DAMAGE file, under an
    operating system that refuses a path whose directory is missing. *)
Lemma X15_complete_timestep_is_written_witness :
  complete ExamplesMesh.twoPoints
  /\ (Timestep.zones ExamplesMesh.twoPoints <> []
      \/ DAMAGE_FILETYPE = VON_MISES_FILETYPE)
  /\ exists mesh,
       Timestep.convertToVTKPolyData (SO := reverseFixed4)
         ExamplesMesh.twoPoints = Ok mesh
       /\ fieldsComplete mesh
       /\ snd (VTKPolyData.fileContents mesh DAMAGE_FILETYPE) = None
       /\ accepted (SYS := strictOS) mesh "input" ExamplesWriter.fsWithDir
       /\ snd (VTKPolyData.writeToFile (SYS := strictOS) mesh "input"
                 DAMAGE_FILETYPE ExamplesWriter.fsWithDir)
          = Ok tt.
Proof.
  assert (H1 : complete ExamplesMesh.twoPoints)
    by (apply completeb_complete; vm_compute; reflexivity).
  assert (H2 : Timestep.zones ExamplesMesh.twoPoints <> []
               \/ DAMAGE_FILETYPE = VON_MISES_FILETYPE)
    by (left; vm_compute; discriminate).
  split; [exact H1|]. split; [exact H2|].
  destruct (X15_complete_timestep_is_written Fixed4.carrier Fixed4.float
              reverseFixed4 strictOS ExamplesMesh.twoPoints "input"
              DAMAGE_FILETYPE ExamplesWriter.fsWithDir H1 H2)
    as [mesh [Hconv [Hfc [Hcont [Hwrite _]]]]].
  assert (Hacc : accepted (SYS := strictOS) mesh "input"
                   ExamplesWriter.fsWithDir).
  { assert (Hm : Timestep.convertToVTKPolyData (SO := reverseFixed4)
                   ExamplesMesh.twoPoints
                 = Ok (meshOf (SO := reverseFixed4) ExamplesMesh.twoPoints))
      by (vm_compute; reflexivity).
    rewrite Hm in Hconv. injection Hconv as <-.
    split; [intros H; vm_compute in H; discriminate H|].
    vm_compute. reflexivity. }
  exists mesh. split; [exact Hconv|]. split; [exact Hfc|].
  split; [exact Hcont|]. split; [exact Hacc|exact (Hwrite Hacc)].
Defined.

(** ** VTKPolyData: the line of a cell *)

Section CellLine.
Local Open Scope string_scope.

Lemma sapp_assoc (a b c : string) : (a ++ b) ++ c = a ++ (b ++ c).
Proof. induction a as [|x a IH]; simpl; [reflexivity|now rewrite IH]. Qed.

Lemma sapp_nil_r (a : string) : a ++ "" = a.
Proof. induction a as [|x a IH]; simpl; [reflexivity|now rewrite IH]. Qed.

Lemma sapp_not_empty (a b : string) : b <> "" -> a ++ b <> "".
Proof. destruct a; simpl; [auto|discriminate]. Qed.

Lemma rstrip_word (s : string) : word s -> PyStr.rstrip s = s.
Proof.
  induction s as [|c s IH]; intros [Hns Hne]; [contradiction|].
  cbn [noSpace] in Hns. apply andb_true_iff in Hns. destruct Hns as [Hc Hs].
  apply negb_true_iff in Hc. cbn [PyStr.rstrip].
  destruct s as [|c' s].
  - simpl. now rewrite Hc.
  - rewrite IH by (split; [exact Hs|discriminate]). reflexivity.
Qed.

Lemma rstrip_app (a b : string) :
  PyStr.rstrip b <> "" -> PyStr.rstrip (a ++ b) = a ++ PyStr.rstrip b.
Proof.
  intros Hb. induction a as [|c a IH]; [reflexivity|].
  cbn [append PyStr.rstrip]. rewrite IH.
  destruct (a ++ PyStr.rstrip b) eqn:E; [|reflexivity].
  exfalso. now apply (sapp_not_empty a (PyStr.rstrip b) Hb).
Qed.

Lemma rstrip_space_end (s : string) :
  PyStr.rstrip (s ++ " ") = PyStr.rstrip s.
Proof.
  induction s as [|c s IH]; [reflexivity|].
  cbn [append PyStr.rstrip]. now rewrite IH.
Qed.

Lemma concat_cons2 (x y : string) (l : list string) :
  String.concat " " (x :: y :: l) = x ++ " " ++ String.concat " " (y :: l).
Proof. reflexivity. Qed.

Lemma concat_words (l : list string) :
  Forall word l -> l <> [] ->
  PyStr.rstrip (String.concat " " l) = String.concat " " l
  /\ String.concat " " l <> ""
  /\ PyStr.lstrip (String.concat " " l ++ " ") = String.concat " " l ++ " ".
Proof.
  induction l as [|x l IH]; intros Hall Hne; [contradiction|].
  inversion Hall as [|x' l' Hx Hl]; subst.
  assert (Hfirst : forall t, PyStr.lstrip (x ++ t) = x ++ t).
  { intros t. destruct Hx as [Hns Hxe]. destruct x as [|c x]; [contradiction|].
    cbn [noSpace] in Hns. apply andb_true_iff in Hns. destruct Hns as [Hc _].
    apply negb_true_iff in Hc. cbn [append PyStr.lstrip]. now rewrite Hc. }
  destruct l as [|y l].
  - cbn [String.concat]. split; [now apply rstrip_word|].
    split; [exact (proj2 Hx)|apply Hfirst].
  - destruct (IH Hl ltac:(discriminate)) as [Hr [Hn _]].
    rewrite concat_cons2. split; [|split].
    + rewrite rstrip_app.
      * f_equal. rewrite rstrip_app; [now rewrite Hr|now rewrite Hr].
      * rewrite rstrip_app; [discriminate|now rewrite Hr].
    + apply sapp_not_empty. discriminate.
    + rewrite sapp_assoc. apply Hfirst.
Qed.

Lemma uint_noSpace (d : Decimal.uint) :
  noSpace (NilEmpty.string_of_uint d) = true.
Proof. induction d; simpl; auto. Qed.

Lemma str_nat_word (n : nat) : word (str_nat n).
Proof.
  unfold str_nat, PyStr.str_int. destruct n as [|n]; [split; [reflexivity|discriminate]|].
  cbn [Z.of_nat Z.to_int NilZero.string_of_int].
  pose proof (DecimalPos.Unsigned.to_uint_nonnil (Pos.of_succ_nat n)) as Hnn.
  unfold NilZero.string_of_uint.
  destruct (Pos.to_uint (Pos.of_succ_nat n)) as [|d|d|d|d|d|d|d|d|d|d] eqn:E;
    [contradiction|..];
    (split; [apply (uint_noSpace (_ d))|discriminate]).
Qed.

Lemma cell_text (cell : list nat) :
  forall acc : string,
    fold_left
      (fun result pointIndex =>
         result ++ PyStr.str_int (Z.of_nat pointIndex) ++ " ")
      cell acc
    = acc ++ fold_right (fun s r => s ++ " " ++ r) "" (map str_nat cell).
Proof.
  induction cell as [|i cell IH]; intros acc; cbn [fold_left map fold_right].
  - now rewrite sapp_nil_r.
  - rewrite IH. fold (str_nat i). now rewrite !sapp_assoc.
Qed.

Lemma join_end (x : string) (l : list string) :
  String.concat " " (x :: l) ++ " "
  = x ++ " " ++ fold_right (fun s r => s ++ " " ++ r) "" l.
Proof.
  revert x. induction l as [|y l IH]; intros x.
  - reflexivity.
  - rewrite concat_cons2. cbn [fold_right]. rewrite <- IH.
    now rewrite !sapp_assoc.
Qed.

End CellLine.

(** X16. The line of a cell is its number of vertices followed by its
    point indices, all in decimal and separated by single spaces, with no
    space at either end. *)
Theorem X16_cell_line_is_space_separated :
  forall (cell : list nat),
    VTKPolyData.getCellTextLine cell
    = String.concat " " (map str_nat (length cell :: cell)).
Proof.
  intros cell. unfold VTKPolyData.getCellTextLine, VTKPolyData.str_len.
  rewrite cell_text. fold (str_nat (length cell)).
  assert (Htext : (str_nat (length cell) ++ " "
                   ++ fold_right (fun s r => s ++ " " ++ r) ""
                        (map str_nat cell))%string
                  = (String.concat " " (map str_nat (length cell :: cell))
                     ++ " ")%string).
  { cbn [map]. now rewrite join_end. }
  rewrite sapp_assoc, Htext.
  destruct (concat_words (map str_nat (length cell :: cell))) as [Hr [_ Hl]].
  - apply Forall_forall. intros s Hs. apply in_map_iff in Hs.
    destruct Hs as [n [<- _]]. apply str_nat_word.
  - discriminate.
  - unfold PyStr.strip. rewrite Hl, rstrip_space_end. exact Hr.
Qed.

(** ** The script: where the loop ends *)

Section LoopEnd.
Context {CF : Carrier} {FL : Float} {SO : SetOrder Point}.

Lemma notBlank_skipn (n : nat) (l : list string) :
  notBlank (skipn n (notBlank l)) = skipn n (notBlank l).
Proof.
  assert (Hall : forall x, In x (skipn n (notBlank l)) ->
                           negb (blank x) = true).
  { intros x Hx. assert (Hin : In x (notBlank l)).
    { rewrite <- (firstn_skipn n). apply in_or_app. now right. }
    unfold notBlank in Hin. apply filter_In in Hin. exact (proj2 Hin). }
  revert Hall. generalize (skipn n (notBlank l)) as m.
  unfold notBlank. induction m as [|x m IH]; intros Hall; simpl;
    [reflexivity|].
  rewrite (Hall x (or_introl eq_refl)). f_equal. apply IH.
  intros y Hy. apply Hall. now right.
Qed.

Lemma loopCondition_stops (text : string) (n : nat) :
  fst (loopCondition (consume n (LineReader.init (LineReader.lines text))))
  = negb (stops (skipn n (notBlank (LineReader.lines text)))).
Proof.
  destruct (consume_fresh n _ (init_fresh text)) as [Hfresh Hfile].
  destruct (get_fresh _ Hfresh) as [Hget _].
  rewrite get_fst_peek, Hfile in Hget.
  cbn [LineReader.file LineReader.init] in Hget.
  unfold loopCondition, stops.
  rewrite nextLineMatches_eq, isEndOfFile_eq, peek_peek, Hget, notBlank_skipn.
  destruct (skipn n (notBlank (LineReader.lines text))) as [|l ls] eqn:E.
  - reflexivity.
  - cbn [hd].
    destruct (Re.matched (Re.search END_OF_FILE_REGEXP (PyStr.strip l)));
      [reflexivity|].
    cbn [fst negb]. assert (Hl : In l (notBlank (LineReader.lines text))).
    { rewrite <- (firstn_skipn n). apply in_or_app. right. rewrite E.
      now left. }
    unfold notBlank in Hl. apply filter_In in Hl. destruct Hl as [_ Hl].
    destruct l as [|c l]; [discriminate Hl|]. reflexivity.
Qed.

End LoopEnd.

(** X17. The loop of the script ends, with [success] still true and
    nothing printed or written, as soon as no line with content is left
    or the next line with content is the end marker: what follows the
    marker is never read.  On a file that starts so, the script only
    prints its closing message. *)
Theorem X17_loop_ends_at_marker_or_end_of_file :
  forall (CF : Carrier) (FL : Float) (SO : SetOrder Point)
         (SYS : VTKPolyData.OS) (text : string) (n fuel : nat) (originalFileName fileType : string)
         (w : World),
    stops (skipn n (notBlank (LineReader.lines text))) = true ->
    converterLoop (S fuel) originalFileName fileType
      (consume n (LineReader.init (LineReader.lines text))) w
    = (w, Ok true)
    /\ (n = 0 ->
        converterScript (S fuel) originalFileName fileType text w
        = (print w ["Conversion done! Exiting..."], Ok true)).
Proof.
  intros CF FL SO SYS text n fuel name fileType w Hstops.
  pose proof (loopCondition_stops text n) as Hcond.
  rewrite Hstops in Hcond. cbn [negb] in Hcond.
  assert (Hloop : converterLoop (S fuel) name fileType
                    (consume n (LineReader.init (LineReader.lines text))) w
                  = (w, Ok true)).
  { cbn [converterLoop].
    destruct (loopCondition
                (consume n (LineReader.init (LineReader.lines text))))
      as [continue lr2].
    cbn [fst] in Hcond. now rewrite Hcond. }
  split; [exact Hloop|].
  intros ->. unfold converterScript. cbn [consume] in Hloop.
  now rewrite Hloop.
Qed.

(** X17, on a file whose first line with content is the end marker,
    followed by a title line. *)
Lemma X17_loop_ends_at_marker_or_end_of_file_witness :
  stops (skipn 0 (notBlank (LineReader.lines ExamplesMarker.markerText)))
  = true
  /\ converterScript (SO := insertionFixed4) (SYS := strictOS) 1 "out"
       DAMAGE_FILETYPE
       ExamplesMarker.markerText ExamplesScript.emptyWorld
     = (print ExamplesScript.emptyWorld ["Conversion done! Exiting..."],
        Ok true).
Proof.
  assert (H : stops
                (skipn 0 (notBlank (LineReader.lines ExamplesMarker.markerText)))
              = true) by (vm_compute; reflexivity).
  split; [exact H|].
  exact (proj2 (X17_loop_ends_at_marker_or_end_of_file
                  Fixed4.carrier Fixed4.float insertionFixed4 strictOS
                  ExamplesMarker.markerText 0 0 "out" DAMAGE_FILETYPE
                  ExamplesScript.emptyWorld H) eq_refl).
Defined.
